(** * BAN6440.PY: the sales-regression pipeline

    A shallow embedding of the script [BAN6440.PY].  The script is a straight
    sequence of seven [try]/[except] blocks and a final block of prints; it
    calls pandas and scikit-learn.  A step is a computation in a small monad
    of module-level variables, output, exceptions and [exit()].

    The numbers of the dataset are rationals ([Q]); a computed float is a
    rational or the extra value [None] of [float], which stands for a result
    that is not finite.  The routines the script calls (the splitter, the
    scaler, the two metrics, the k-fold splitter, the parameter grid and the
    grid search) follow scikit-learn's documented behaviour with the
    arguments the script passes.  The estimators' training algorithms, the
    seeded permutation, the square root, the binary64 arithmetic inside the
    two metrics, the CSV reader and the plotting calls are the fields of an
    interface [Lib]; the scaler and the means of the search compute in exact
    arithmetic. *)

From Stdlib Require Import String Bool Arith ZArith QArith Qround Lia.
From Stdlib Require Import List Permutation.
Import ListNotations.

Local Close Scope Q_scope.
Local Open Scope string_scope.
Local Open Scope list_scope.
Local Open Scope nat_scope.

(** ** Python values the script manipulates *)

Definition vector := list Q.
Definition matrix := list (list Q).

(** A float the script computes: a finite value, which is a rational, or
    [None] when the result is not a finite number (NaN, or an infinity after
    an overflow). *)
Definition float := option Q.

Inductive exn : Type :=
| FileNotFoundError
| KeyError (key : string)
| NameError (name : string)
| TypeError (msg : string)
| ValueError (msg : string)
| AttributeError (msg : string)
| NotFittedError
| Exception (msg : string).

(** A library call either raises or returns. *)
Definition res (A : Type) : Type := (exn + A)%type.

Definition rbind {A B} (r : res A) (k : A -> res B) : res B :=
  match r with
  | inl e => inl e
  | inr a => k a
  end.

Notation "'let*' x ':=' r 'in' k" := (rbind r (fun x => k))
  (at level 10, x pattern, r at level 100, k at level 200).

Fixpoint mapM {A B} (f : A -> res B) (l : list A) : res (list B) :=
  match l with
  | [] => inr []
  | a :: l' => let* b := f a in let* bs := mapM f l' in inr (b :: bs)
  end.

(** Values of a hyper-parameter: [None] or an integer. *)
Inductive pyval : Type :=
| PNone
| PInt (z : Z).

(** A keyword dictionary, in insertion order. *)
Definition dict := list (string * pyval).

Record DataFrame : Type := mkFrame {
  columns : list string;
  rows : matrix
}.

(** ** Numeric helpers *)

Definition Qsum (l : vector) : Q := fold_right Qplus 0%Q l.

Definition Qlen {A} (l : list A) : Q := inject_Z (Z.of_nat (length l)).

Definition Qmean (l : vector) : Q := (Qsum l / Qlen l)%Q.

Definition Qsq (x : Q) : Q := (x * x)%Q.

Definition Qltb (x y : Q) : bool := negb (Qle_bool y x).

(** [X[idx]]: the rows of [X] at the positions [idx], in that order. *)
Definition take_rows {A} (d : A) (X : list A) (idx : list nat) : list A :=
  map (fun i => nth i X d) idx.

Definition column (j : nat) (X : matrix) : vector :=
  map (fun r => nth j r 0%Q) X.

Definition n_features (X : matrix) : nat := length (hd [] X).

(** ** pandas: [data.drop(name, axis=1)] and [data[name]] *)

Fixpoint index_of (name : string) (cols : list string) : option nat :=
  match cols with
  | [] => None
  | c :: cs => if String.eqb c name then Some 0
               else option_map S (index_of name cs)
  end.

Fixpoint remove_nth {A} (j : nat) (l : list A) : list A :=
  match l, j with
  | [], _ => []
  | _ :: l', O => l'
  | a :: l', S j' => a :: remove_nth j' l'
  end.

Definition drop_column (name : string) (d : DataFrame) : res DataFrame :=
  match index_of name d.(columns) with
  | None => inl (KeyError name)
  | Some j => inr (mkFrame (remove_nth j d.(columns))
                           (map (remove_nth j) d.(rows)))
  end.

Definition get_column (name : string) (d : DataFrame) : res vector :=
  match index_of name d.(columns) with
  | None => inl (KeyError name)
  | Some j => inr (column j d.(rows))
  end.

(** ** sklearn.ensemble.RandomForestRegressor: the constructor parameters

    Only the parameters the script sets are modelled; every other parameter
    keeps its default in all three forests. *)

Record rf_params : Type := mkRF {
  n_estimators : pyval;
  max_depth : pyval;
  min_samples_split : pyval;
  min_samples_leaf : pyval;
  random_state : pyval
}.

Definition rf_defaults : rf_params :=
  mkRF (PInt 100) PNone (PInt 2) (PInt 1) PNone.

Definition assign_param (p : rf_params) (k : string) (v : pyval) : option rf_params :=
  if String.eqb k "n_estimators" then
    Some (mkRF v p.(max_depth) p.(min_samples_split) p.(min_samples_leaf) p.(random_state))
  else if String.eqb k "max_depth" then
    Some (mkRF p.(n_estimators) v p.(min_samples_split) p.(min_samples_leaf) p.(random_state))
  else if String.eqb k "min_samples_split" then
    Some (mkRF p.(n_estimators) p.(max_depth) v p.(min_samples_leaf) p.(random_state))
  else if String.eqb k "min_samples_leaf" then
    Some (mkRF p.(n_estimators) p.(max_depth) p.(min_samples_split) v p.(random_state))
  else if String.eqb k "random_state" then
    Some (mkRF p.(n_estimators) p.(max_depth) p.(min_samples_split) p.(min_samples_leaf) v)
  else None.

(** [estimator.set_params] applied to the keywords of [d]. *)
Fixpoint set_params (p : rf_params) (d : dict) : res rf_params :=
  match d with
  | [] => inr p
  | (k, v) :: d' =>
      match assign_param p k v with
      | None => inl (ValueError ("Invalid parameter " ++ k))
      | Some p' => set_params p' d'
      end
  end.

Definition has_key (k : string) (d : dict) : bool :=
  existsb (fun kv => String.eqb (fst kv) k) d.

(** The constructor called with the keywords of [d] followed by
    [random_state=seed]: Python refuses a keyword given twice and the
    constructor refuses an unknown one. *)
Definition RandomForestRegressor (d : dict) (seed : pyval) : res rf_params :=
  if has_key "random_state" d then
    inl (TypeError "got multiple values for keyword argument 'random_state'")
  else
    match set_params rf_defaults (d ++ [("random_state", seed)]) with
    | inl _ => inl (TypeError "got an unexpected keyword argument")
    | inr p => inr p
    end.

(** ** The interface to what the script treats as opaque *)

(** The fitted models of the two estimators. *)
Record Models : Type := mkModels {
  lr_model : Type;
  rf_model : Type
}.

Record Lib : Type := mkLib {
  models :> Models;
  (** [pd.read_csv] *)
  read_csv : string -> res DataFrame;
  (** [data.info()], [data.describe()], [data.isnull().sum()] *)
  explore : string -> DataFrame -> option exn;
  (** a plotting block, named by the file it saves; [Some e] when it raises *)
  figure : string -> option exn;
  (** [RandomState(seed).permutation(n)] *)
  permutation : Z -> nat -> list nat;
  permutation_spec : forall seed n, Permutation (permutation seed n) (seq 0 n);
  (** [np.sqrt] *)
  sqrt : Q -> Q;
  lr_fit : matrix -> vector -> res (lr_model models);
  lr_predict : lr_model models -> matrix -> res vector;
  rf_fit : rf_params -> matrix -> vector -> res (rf_model models);
  rf_predict : rf_model models -> matrix -> res vector;
  feature_importances_ : rf_model models -> vector;
  (** numpy's binary64 arithmetic inside the two metrics, on a target and a
      prediction: the computed [((y_true - y_pred) ** 2).sum()], the computed
      [((y_true - np.average(y_true)) ** 2).sum()], the computed
      [1 - numerator / denominator] and the computed
      [np.average((y_true - y_pred) ** 2)] *)
  np_ss_res : vector -> vector -> float;
  np_ss_tot : vector -> float;
  np_r2 : vector -> vector -> float;
  np_mse : vector -> vector -> float
}.

(** ** sklearn.metrics

    The two metrics validate their arguments and then compute in binary64,
    whose rounding, underflow and overflow are not modelled: the computed
    quantities are the fields [np_ss_res], [np_ss_tot], [np_r2] and [np_mse]
    of [Lib], and only the tests the metrics make on them are modelled. *)

(** [check_consistent_length] followed by the one-sample minimum of
    [check_array]. *)
Definition check_targets (y_true y_pred : vector) : res unit :=
  if negb (length y_true =? length y_pred) then
    inl (ValueError "Found input variables with inconsistent numbers of samples")
  else if length y_true =? 0 then
    inl (ValueError "Found array with 0 sample(s)")
  else inr tt.

(** [x != 0] on a computed float: true of NaN and of an infinity. *)
Definition nonzero (x : float) : bool :=
  match x with
  | Some q => negb (Qeq_bool q 0)
  | None => true
  end.

Definition mean_squared_error (L : Lib) (y_true y_pred : vector) : res float :=
  let* _ := check_targets y_true y_pred in
  inr (np_mse L y_true y_pred).

(** [r2_score] with its defaults ([force_finite=True]): fewer than two
    samples give NaN (with a warning); the score is the computed
    [1 - numerator / denominator] where both are different from zero, 0.0
    where only the denominator is zero, and 1.0 otherwise. *)
Definition r2_score (L : Lib) (y_true y_pred : vector) : res float :=
  let* _ := check_targets y_true y_pred in
  if length y_pred <? 2 then inr None
  else
    let nonzero_numerator := nonzero (np_ss_res L y_true y_pred) in
    let nonzero_denominator := nonzero (np_ss_tot L y_true) in
    if nonzero_denominator && nonzero_numerator then inr (np_r2 L y_true y_pred)
    else if nonzero_numerator then inr (Some 0%Q)
    else inr (Some 1%Q).

(** The sums of the two metrics in exact arithmetic. *)
Definition sq_residuals (y_true y_pred : vector) : vector :=
  map (fun p => Qsq (fst p - snd p)) (combine y_true y_pred).

Definition ss_res (y_true y_pred : vector) : Q := Qsum (sq_residuals y_true y_pred).

Definition ss_tot (y_true : vector) : Q :=
  Qsum (map (fun v => Qsq (v - Qmean y_true)) y_true).

(** ** sklearn.model_selection.train_test_split *)

Definition n_test_samples (test_size : Q) (n : nat) : nat :=
  Z.to_nat (Qceiling (test_size * inject_Z (Z.of_nat n))).

Definition validate_shuffle_split (n : nat) (test_size : Q) : res (nat * nat) :=
  if negb (Qltb 0 test_size && Qltb test_size 1) then
    inl (ValueError "test_size should be in the (0, 1) range")
  else
    let n_test := n_test_samples test_size n in
    let n_train := n - n_test in
    if n_train =? 0 then inl (ValueError "the resulting train set will be empty")
    else inr (n_train, n_test).

(** The test indices are the first [n_test] entries of the seeded
    permutation and the train indices the [n_train] entries after them. *)
Definition shuffle_split (L : Lib) (seed : Z) (n : nat) (test_size : Q)
  : res (list nat * list nat) :=
  let* (n_train, n_test) := validate_shuffle_split n test_size in
  let p := permutation L seed n in
  inr (firstn n_train (skipn n_test p), firstn n_test p).

Record split_result : Type := mkSplit {
  sp_X_train : DataFrame;
  sp_X_test : DataFrame;
  sp_y_train : vector;
  sp_y_test : vector
}.

Definition train_test_split (L : Lib) (X : DataFrame) (y : vector)
  (test_size : Q) (seed : Z) : res split_result :=
  if negb (length X.(rows) =? length y) then
    inl (ValueError "Found input variables with inconsistent numbers of samples")
  else
    let* (train, test) := shuffle_split L seed (length y) test_size in
    inr (mkSplit (mkFrame X.(columns) (take_rows [] X.(rows) train))
                 (mkFrame X.(columns) (take_rows [] X.(rows) test))
                 (take_rows 0%Q y train)
                 (take_rows 0%Q y test)).

(** ** sklearn.preprocessing.StandardScaler *)

Record scaler_state : Type := mkScaler {
  mean_ : vector;
  var_ : vector;
  scale_ : vector
}.

(** [StandardScaler()] is unfitted ([None]) until [fit]. *)
Definition scaler := option scaler_state.

Definition Qvar (c : vector) : Q :=
  (Qsum (map (fun v => Qsq (v - Qmean c)) c) / Qlen c)%Q.

(** The machine epsilon of binary64. *)
Definition eps : Q := 1 # 4503599627370496.

(** [_is_constant_feature]: the variance is within the rounding error of a
    column of [n] equal entries. *)
Definition is_constant_feature (var mean n : Q) : bool :=
  Qle_bool var (n * eps * var + Qsq (n * mean * eps)).

(** [_handle_zeros_in_scale] with that mask: a constant or nearly constant
    column gets the scaling factor 1. *)
Definition handle_zeros_in_scale (L : Lib) (constant : bool) (v : Q) : Q :=
  if constant then 1%Q else sqrt L v.

(** [check_array] requires at least one sample and at least one feature. *)
Definition StandardScaler_fit (L : Lib) (X : matrix) : res scaler_state :=
  if length X =? 0 then inl (ValueError "Found array with 0 sample(s)")
  else if n_features X =? 0 then inl (ValueError "Found array with 0 feature(s)")
  else
    let cols := map (fun j => column j X) (seq 0 (n_features X)) in
    inr (mkScaler (map Qmean cols) (map Qvar cols)
                  (map (fun c => handle_zeros_in_scale L
                                   (is_constant_feature (Qvar c) (Qmean c) (Qlen c))
                                   (Qvar c)) cols)).

Definition scale_row (st : scaler_state) (r : vector) : vector :=
  map (fun t => ((fst t - fst (snd t)) / snd (snd t))%Q)
      (combine r (combine st.(mean_) st.(scale_))).

Definition StandardScaler_transform (s : scaler) (X : matrix) : res matrix :=
  match s with
  | None => inl NotFittedError
  | Some st =>
      if existsb (fun r => negb (length r =? length st.(mean_))) X then
        inl (ValueError "X has a different number of features than the scaler")
      else inr (map (scale_row st) X)
  end.

(** [scaler.fit_transform(X)]: the fitted scaler object and the scaled [X]. *)
Definition StandardScaler_fit_transform (L : Lib) (X : matrix) : res (scaler * matrix) :=
  let* st := StandardScaler_fit L X in
  let* Xs := StandardScaler_transform (Some st) X in
  inr (Some st, Xs).

(** ** sklearn.model_selection.KFold (no shuffling) *)

Definition fold_sizes (n k : nat) : list nat :=
  map (fun i => n / k + (if i <? n mod k then 1 else 0)) (seq 0 k).

(** For each fold, its (train, test) index lists. *)
Fixpoint folds_from (start : nat) (sizes : list nat) (n : nat) : list (list nat * list nat) :=
  match sizes with
  | [] => []
  | sz :: sizes' =>
      (seq 0 start ++ seq (start + sz) (n - (start + sz)), seq start sz)
        :: folds_from (start + sz) sizes' n
  end.

Definition KFold_split (k n : nat) : res (list (list nat * list nat)) :=
  if k <? 2 then inl (ValueError "k-fold cross-validation requires at least one train/test split")
  else if n <? k then
    inl (ValueError "Cannot have number of splits greater than the number of samples")
  else inr (folds_from 0 (fold_sizes n k) n).

(** ** sklearn.model_selection.ParameterGrid *)

Definition grid := list (string * list pyval).

Fixpoint insert_item (it : string * list pyval) (g : grid) : grid :=
  match g with
  | [] => [it]
  | x :: g' => if String.leb (fst it) (fst x) then it :: g
               else x :: insert_item it g'
  end.

(** [sorted(param_grid.items())] *)
Definition sorted_items (g : grid) : grid := fold_right insert_item [] g.

(** [itertools.product] over the value lists, re-keyed: the last key varies
    fastest. *)
Fixpoint product (items : grid) : list dict :=
  match items with
  | [] => [[]]
  | (k, vs) :: items' =>
      flat_map (fun v => map (cons (k, v)) (product items')) vs
  end.

Definition ParameterGrid (g : grid) : list dict := product (sorted_items g).

(** ** sklearn.model_selection.GridSearchCV *)

(** [np.average] of one candidate's fold scores: NaN as soon as one is NaN. *)
Definition fsum (l : list float) : float :=
  fold_right (fun f acc => match f, acc with
                           | Some q, Some a => Some (q + a)%Q
                           | _, _ => None
                           end) (Some 0%Q) l.

Definition fmean (l : list float) : float :=
  match fsum l with
  | Some s => Some (s / Qlen l)%Q
  | None => None
  end.

Definition Qmin' (x y : Q) : Q := if Qle_bool x y then x else y.

(** [np.nanmin]: [None] when every entry is NaN. *)
Definition nanmin (a : list float) : float :=
  fold_right (fun f acc => match f, acc with
                           | Some q, Some m => Some (Qmin' q m)
                           | Some q, None => Some q
                           | None, _ => acc
                           end) None a.

(** [rank_test_score]: NaN means are replaced by the least valid mean minus
    one, then [rankdata(-means, method="min")]: one plus the number of
    strictly larger means.  When every mean is NaN all ranks are 1. *)
Definition rank_scores (a : list float) : list nat :=
  match nanmin a with
  | None => map (fun _ => 1) a
  | Some lo =>
      let b := map (fun f => match f with Some q => q | None => (lo - 1)%Q end) a in
      map (fun x => S (length (filter (fun y => Qltb x y) b))) b
  end.

(** [np.argmin]: the first position of the least entry. *)
Fixpoint argmin (l : list nat) : nat :=
  match l with
  | [] => 0
  | x :: l' => if forallb (fun y => x <=? y) l' then 0 else S (argmin l')
  end.

Definition best_index (means : list float) : nat := argmin (rank_scores means).

(** The cross-validation jobs: every candidate with every fold, candidates
    outermost. *)
Definition cv_jobs (candidates : list dict) (splits : list (list nat * list nat))
  : list (dict * (list nat * list nat)) :=
  list_prod candidates splits.

Definition mean_scores (n_candidates k : nat) (scores : list float) : list float :=
  map (fun i => fmean (firstn k (skipn (i * k) scores))) (seq 0 n_candidates).

Record search_cfg : Type := mkCfg {
  estimator : rf_params;
  param_grid_ : grid;
  cv : nat
}.

Record fitted_search (T : Models) : Type := mkFitted {
  test_scores : list float;       (* one per job, in job order *)
  mean_test_score : list float;   (* one per candidate *)
  rank_test_score : list nat;
  best_index_ : nat;
  best_params_ : dict;
  best_score_ : float;
  best_estimator_ : rf_model T
}.

Arguments mkFitted {T}.
Arguments test_scores {T}.
Arguments mean_test_score {T}.
Arguments rank_test_score {T}.
Arguments best_index_ {T}.
Arguments best_params_ {T}.
Arguments best_score_ {T}.
Arguments best_estimator_ {T}.

Section Search.

Context (L : Lib).

(** One job: clone the estimator, set the candidate's parameters, fit on the
    fold's train rows, score R2 on its test rows.  With the default
    [error_score=nan] a failing fit or scorer gives NaN instead of raising.
    The boolean records a failed fit. *)
Definition fit_and_score (base : rf_params) (X : matrix) (y : vector)
  (job : dict * (list nat * list nat)) : res (bool * float) :=
  let* est := set_params base (fst job) in
  let train := fst (snd job) in
  let test := snd (snd job) in
  match rf_fit L est (take_rows [] X train) (take_rows 0%Q y train) with
  | inl _ => inr (true, None)
  | inr m =>
      match rf_predict L m (take_rows [] X test) with
      | inl _ => inr (false, None)
      | inr pred =>
          match r2_score L (take_rows 0%Q y test) pred with
          | inl _ => inr (false, None)
          | inr s => inr (false, s)
          end
      end
  end.

(** [grid_search.fit(X, y)] with [refit=True]. *)
Definition GridSearchCV_fit (c : search_cfg) (X : matrix) (y : vector)
  : res (fitted_search L) :=
  if negb (length X =? length y) then
    inl (ValueError "Found input variables with inconsistent numbers of samples")
  else if existsb (fun kv => length (snd kv) =? 0) c.(param_grid_) then
    inl (ValueError "Parameter grid needs non-empty sequences")
  else
    let candidates := ParameterGrid c.(param_grid_) in
    let* splits := KFold_split c.(cv) (length y) in
    let* out := mapM (fit_and_score c.(estimator) X y) (cv_jobs candidates splits) in
    if forallb fst out then inl (ValueError "All the fits failed")
    else
      let scores := map snd out in
      let means := mean_scores (length candidates) (length splits) scores in
      let ranks := rank_scores means in
      let best := argmin ranks in
      let params := nth best candidates [] in
      let* est := set_params c.(estimator) params in
      let* m := rf_fit L est X y in
      inr (mkFitted scores means ranks best params (nth best means None) m).

End Search.

(** ** The script as a program: variables, output, exceptions, [exit()] *)

Definition table := list (string * float * float).

Inductive value (T : Models) : Type :=
| VFrame (d : DataFrame)
| VMatrix (m : matrix)
| VVector (v : vector)
| VFloat (f : float)
| VScaler (s : scaler)
| VLinear (m : option (lr_model T))
| VForest (p : rf_params) (m : option (rf_model T))
| VGrid (g : grid)
| VSearch (c : search_cfg) (f : option (fitted_search T))
| VDict (d : dict)
| VTable (t : table).

Arguments VFrame {T}.
Arguments VMatrix {T}.
Arguments VVector {T}.
Arguments VFloat {T}.
Arguments VScaler {T}.
Arguments VLinear {T}.
Arguments VForest {T}.
Arguments VGrid {T}.
Arguments VSearch {T}.
Arguments VDict {T}.
Arguments VTable {T}.

(** What a run shows: printed lines and saved figures. *)
Inductive event : Type :=
| Say (text : string)
| SayFloat (label : string) (v : float)
| SayDict (label : string) (d : dict)
| SayTable (t : table)
| SayError (prefix : string) (cause : exn)
| Saved (file : string).

Section Script.

Context (T : Models).

(** Module-level variables (latest binding first) and the output so far
    (latest event first). *)
Record state : Type := mkState {
  vars : list (string * value T);
  stdout : list event
}.

Inductive outcome (A : Type) : Type :=
| Normal (a : A) (s : state)
| Raised (e : exn) (s : state)
| SystemExit (s : state).

Arguments Normal {A}.
Arguments Raised {A}.
Arguments SystemExit {A}.

Definition M (A : Type) : Type := state -> outcome A.

Definition ret {A} (a : A) : M A := fun s => Normal a s.

Definition bind {A B} (m : M A) (k : A -> M B) : M B :=
  fun s => match m s with
           | Normal a s' => k a s'
           | Raised e s' => Raised e s'
           | SystemExit s' => SystemExit s'
           end.

Definition raise {A} (e : exn) : M A := fun s => Raised e s.

(** [exit()] raises [SystemExit], which [except Exception] does not catch. *)
Definition exit_ : M unit := fun s => SystemExit s.

Definition lift {A} (r : res A) : M A :=
  match r with
  | inl e => raise e
  | inr a => ret a
  end.

(** [try: body except Exception as e: handler e] *)
Definition try_except (body : M unit) (handler : exn -> M unit) : M unit :=
  fun s => match body s with
           | Normal a s' => Normal a s'
           | Raised e s' => handler e s'
           | SystemExit s' => SystemExit s'
           end.

Definition emit (ev : event) : M unit :=
  fun s => Normal tt (mkState s.(vars) (ev :: s.(stdout))).

Definition say (text : string) : M unit := emit (Say text).

Definition assign (name : string) (v : value T) : M unit :=
  fun s => Normal tt (mkState ((name, v) :: s.(vars)) s.(stdout)).

Fixpoint lookup (name : string) (vs : list (string * value T)) : option (value T) :=
  match vs with
  | [] => None
  | (n, v) :: vs' => if String.eqb n name then Some v else lookup name vs'
  end.

End Script.

Arguments Normal {T A}.
Arguments Raised {T A}.
Arguments SystemExit {T A}.
Arguments ret {T A}.
Arguments bind {T A B}.
Arguments raise {T A}.
Arguments exit_ {T}.
Arguments lift {T A}.
Arguments try_except {T}.
Arguments emit {T}.
Arguments say {T}.
Arguments assign {T}.
Arguments lookup {T}.
Arguments vars {T}.
Arguments stdout {T}.
Arguments mkState {T}.

Notation "x <- m ;; k" := (bind m (fun x => k))
  (at level 61, m at next level, right associativity).
Notation "m ;; k" := (bind m (fun _ => k))
  (at level 61, right associativity).

(** A plotting block ending in [plt.savefig(file)]. *)
Definition plot (L : Lib) (file : string) : M L unit :=
  match figure L file with
  | Some e => raise e
  | None => emit (Saved file)
  end.

Section Pipeline.

Context (L : Lib).

(** Reading a variable as an object of one kind: [NameError] when no
    statement has bound it yet. *)
Definition get_as {A} (proj : value L -> option A) (name : string) : M L A :=
  fun s => match lookup name s.(vars) with
           | None => Raised (NameError name) s
           | Some v => match proj v with
                       | Some a => Normal a s
                       | None => Raised (TypeError "unexpected object") s
                       end
           end.

Definition as_frame (v : value L) := match v with VFrame d => Some d | _ => None end.
Definition as_matrix (v : value L) := match v with VMatrix m => Some m | _ => None end.
Definition as_vector (v : value L) := match v with VVector y => Some y | _ => None end.
Definition as_float (v : value L) := match v with VFloat f => Some f | _ => None end.
Definition as_scaler (v : value L) := match v with VScaler s => Some s | _ => None end.
Definition as_linear (v : value L) := match v with VLinear m => Some m | _ => None end.
Definition as_forest (v : value L) := match v with VForest p m => Some (p, m) | _ => None end.
Definition as_grid (v : value L) := match v with VGrid g => Some g | _ => None end.
Definition as_search (v : value L) := match v with VSearch c f => Some (c, f) | _ => None end.
Definition as_dict (v : value L) := match v with VDict d => Some d | _ => None end.
Definition as_table (v : value L) := match v with VTable t => Some t | _ => None end.

Definition get_frame := get_as as_frame.
Definition get_matrix := get_as as_matrix.
Definition get_vector := get_as as_vector.
Definition get_float := get_as as_float.
Definition get_scaler := get_as as_scaler.
Definition get_linear := get_as as_linear.
Definition get_forest := get_as as_forest.
Definition get_grid := get_as as_grid.
Definition get_search := get_as as_search.
Definition get_dict := get_as as_dict.
Definition get_table := get_as as_table.

(** [data.info()], [data.describe()], [data.isnull().sum()] *)
Definition call_explore (method : string) (data : DataFrame) : M L unit :=
  match explore L method data with
  | Some e => raise e
  | None => ret tt
  end.

(** [model.predict(X)] *)
Definition linear_predict (m : option (lr_model L)) (X : matrix) : res vector :=
  match m with
  | None => inl NotFittedError
  | Some m => lr_predict L m X
  end.

Definition forest_predict (m : option (rf_model L)) (X : matrix) : res vector :=
  match m with
  | None => inl NotFittedError
  | Some m => rf_predict L m X
  end.

(** The three statements shared by steps 4 to 6: predict on the scaled test
    features, then MSE and R2 against [y_test]. *)
Definition evaluate (pred_name mse_name r2_name : string) (pred : res vector) : M L unit :=
  p <- lift pred ;;
  assign pred_name (VVector p) ;;
  yt <- get_vector "y_test" ;; p <- get_vector pred_name ;;
  mse <- lift (mean_squared_error L yt p) ;;
  assign mse_name (VFloat mse) ;;
  yt <- get_vector "y_test" ;; p <- get_vector pred_name ;;
  r2 <- lift (r2_score L yt p) ;;
  assign r2_name (VFloat r2).

(** *** Step 1 (lines 20-39): loading and exploration *)
Definition step1_body : M L unit :=
  data <- lift (read_csv L "mcpl_fmcg_sales_dataset.csv.csv") ;;
  assign "data" (VFrame data) ;;
  say "=== Dataset Information ===" ;;
  data <- get_frame "data" ;;
  call_explore "info" data ;;
  say "data.info()" ;;
  say "=== Descriptive Statistics ===" ;;
  data <- get_frame "data" ;;
  call_explore "describe" data ;;
  say "data.describe()" ;;
  say "=== Missing Values ===" ;;
  data <- get_frame "data" ;;
  call_explore "isnull" data ;;
  say "data.isnull().sum()".

Definition step1 : M L unit :=
  try_except step1_body
    (fun e =>
       match e with
       | FileNotFoundError =>
           say "Error: CSV file not found. Please verify the file path." ;; exit_
       | _ =>
           emit (SayError "An error occurred while loading the data" e) ;; exit_
       end).

(** *** Step 2 (lines 42-65): visualisation.  The loop variables [i] and
    [col] (line 48) and [corr_matrix] (line 58) are bound and read inside
    the two plotting blocks only; they are part of these blocks, and [vars]
    does not record them. *)
Definition step2_body : M L unit :=
  plot L "distributions.png" ;;
  plot L "correlation_matrix.png".

Definition step2 : M L unit :=
  try_except step2_body
    (fun e => emit (SayError "An error occurred during visualization" e)).

(** *** Step 3 (lines 68-83): preprocessing *)
Definition step3_body : M L unit :=
  data <- get_frame "data" ;;
  X <- lift (drop_column "Monthly_Sales" data) ;;
  assign "X" (VFrame X) ;;
  data <- get_frame "data" ;;
  y <- lift (get_column "Monthly_Sales" data) ;;
  assign "y" (VVector y) ;;
  X <- get_frame "X" ;; y <- get_vector "y" ;;
  sp <- lift (train_test_split L X y (2 # 10) 42) ;;
  assign "X_train" (VFrame sp.(sp_X_train)) ;;
  assign "X_test" (VFrame sp.(sp_X_test)) ;;
  assign "y_train" (VVector sp.(sp_y_train)) ;;
  assign "y_test" (VVector sp.(sp_y_test)) ;;
  assign "scaler" (VScaler None) ;;
  X_train <- get_frame "X_train" ;;
  r <- lift (StandardScaler_fit_transform L X_train.(rows)) ;;
  assign "scaler" (VScaler (fst r)) ;;
  assign "X_train_scaled" (VMatrix (snd r)) ;;
  sc <- get_scaler "scaler" ;; X_test <- get_frame "X_test" ;;
  Xs <- lift (StandardScaler_transform sc X_test.(rows)) ;;
  assign "X_test_scaled" (VMatrix Xs).

Definition step3 : M L unit :=
  try_except step3_body
    (fun e => emit (SayError "An error occurred during preprocessing" e) ;; exit_).

(** *** Step 4 (lines 86-114): linear regression *)
Definition step4_body : M L unit :=
  say "=== Linear Regression ===" ;;
  assign "lr_model" (VLinear None) ;;
  get_linear "lr_model" ;;
  X <- get_matrix "X_train_scaled" ;; y <- get_vector "y_train" ;;
  m <- lift (lr_fit L X y) ;;
  assign "lr_model" (VLinear (Some m)) ;;
  m <- get_linear "lr_model" ;; Xt <- get_matrix "X_test_scaled" ;;
  evaluate "y_pred_lr" "mse_lr" "r2_lr" (linear_predict m Xt) ;;
  mse <- get_float "mse_lr" ;; emit (SayFloat "MSE" mse) ;;
  r2 <- get_float "r2_lr" ;; emit (SayFloat "R2 Score" r2) ;;
  plot L "linear_regression_results.png".

Definition step4 : M L unit :=
  try_except step4_body
    (fun e => emit (SayError "An error occurred during linear regression" e)).

(** *** Step 5 (lines 117-157): random forest.  The feature-importance
    frame of lines 145-148 is used by the second plot only and is part of
    that plotting block: [vars] does not record [feature_importance]. *)
Definition step5_body : M L unit :=
  say "=== Random Forest Regressor ===" ;;
  p <- lift (RandomForestRegressor [("n_estimators", PInt 100)] (PInt 42)) ;;
  assign "rf_model" (VForest p None) ;;
  rf <- get_forest "rf_model" ;;
  X <- get_matrix "X_train_scaled" ;; y <- get_vector "y_train" ;;
  m <- lift (rf_fit L (fst rf) X y) ;;
  assign "rf_model" (VForest (fst rf) (Some m)) ;;
  rf <- get_forest "rf_model" ;; Xt <- get_matrix "X_test_scaled" ;;
  evaluate "y_pred_rf" "mse_rf" "r2_rf" (forest_predict (snd rf) Xt) ;;
  mse <- get_float "mse_rf" ;; emit (SayFloat "MSE" mse) ;;
  r2 <- get_float "r2_rf" ;; emit (SayFloat "R2 Score" r2) ;;
  plot L "random_forest_results.png" ;;
  plot L "feature_importance.png".

Definition step5 : M L unit :=
  try_except step5_body
    (fun e => emit (SayError "An error occurred during random forest modeling" e)).

(** Lines 163-168. *)
Definition param_grid : grid :=
  [ ("n_estimators", [PInt 50; PInt 100; PInt 200]);
    ("max_depth", [PNone; PInt 10; PInt 20; PInt 30]);
    ("min_samples_split", [PInt 2; PInt 5; PInt 10]);
    ("min_samples_leaf", [PInt 1; PInt 2; PInt 4]) ].

(** *** Step 6 (lines 160-213): optimisation *)
Definition step6_body : M L unit :=
  say "=== Hyperparameter Tuning ===" ;;
  assign "param_grid" (VGrid param_grid) ;;
  base <- lift (RandomForestRegressor [] (PInt 42)) ;;
  g <- get_grid "param_grid" ;;
  assign "grid_search" (VSearch (mkCfg base g 3) None) ;;
  say "Performing grid search... (This may take several minutes)" ;;
  gs <- get_search "grid_search" ;;
  X <- get_matrix "X_train_scaled" ;; y <- get_vector "y_train" ;;
  f <- lift (GridSearchCV_fit L (fst gs) X y) ;;
  assign "grid_search" (VSearch (fst gs) (Some f)) ;;
  gs <- get_search "grid_search" ;;
  bp <- lift (match snd gs with
              | None => inl (AttributeError "best_params_")
              | Some f => inr f.(best_params_)
              end) ;;
  assign "best_params" (VDict bp) ;;
  bp <- get_dict "best_params" ;;
  emit (SayDict "Best parameters found" bp) ;;
  bp <- get_dict "best_params" ;;
  p <- lift (RandomForestRegressor bp (PInt 42)) ;;
  assign "optimized_rf" (VForest p None) ;;
  rf <- get_forest "optimized_rf" ;;
  X <- get_matrix "X_train_scaled" ;; y <- get_vector "y_train" ;;
  m <- lift (rf_fit L (fst rf) X y) ;;
  assign "optimized_rf" (VForest (fst rf) (Some m)) ;;
  rf <- get_forest "optimized_rf" ;; Xt <- get_matrix "X_test_scaled" ;;
  evaluate "y_pred_optimized" "mse_optimized" "r2_optimized"
           (forest_predict (snd rf) Xt) ;;
  mse <- get_float "mse_optimized" ;;
  emit (SayFloat "Optimized Random Forest - MSE" mse) ;;
  r2 <- get_float "r2_optimized" ;;
  emit (SayFloat "Optimized Random Forest - R2" r2) ;;
  plot L "optimized_random_forest_results.png".

Definition step6 : M L unit :=
  try_except step6_body
    (fun e => emit (SayError "An error occurred during model optimization" e)).

(** *** Step 7 (lines 216-244): the comparison table *)
Definition step7_body : M L unit :=
  mse_lr <- get_float "mse_lr" ;;
  mse_rf <- get_float "mse_rf" ;;
  mse_optimized <- get_float "mse_optimized" ;;
  r2_lr <- get_float "r2_lr" ;;
  r2_rf <- get_float "r2_rf" ;;
  r2_optimized <- get_float "r2_optimized" ;;
  assign "results"
    (VTable [ ("Linear Regression", mse_lr, r2_lr);
              ("Random Forest", mse_rf, r2_rf);
              ("Optimized Random Forest", mse_optimized, r2_optimized) ]) ;;
  say "=== Model Comparison ===" ;;
  t <- get_table "results" ;;
  emit (SayTable t) ;;
  plot L "model_comparison.png".

Definition step7 : M L unit :=
  try_except step7_body
    (fun e => emit (SayError "An error occurred during final evaluation" e)).

(** *** Step 8 (lines 247-259): fixed text *)
Definition step8 : M L unit :=
  say "=== Business Insights ===" ;;
  say "1. Seasonal Impact: The 'Season' feature has the highest importance, indicating strong seasonal patterns in sales." ;;
  say "2. Pricing Strategy: Both product price and competitor price significantly impact sales." ;;
  say "3. Promotions: Discounts have a moderate but meaningful effect on sales." ;;
  say "4. Distribution: While important, distribution coverage has the least impact among the features analyzed." ;;
  say "Recommendations:" ;;
  say "- Plan inventory and marketing efforts according to seasonal trends" ;;
  say "- Implement competitive pricing strategies by monitoring competitor prices" ;;
  say "- Use targeted promotions during low seasons to boost sales" ;;
  say "- While maintaining good distribution is important, focus more on pricing and seasonal factors" ;;
  say "All visualizations have been saved as PNG files in your working directory.".

Definition script : M L unit :=
  step1 ;; step2 ;; step3 ;; step4 ;; step5 ;; step6 ;; step7 ;; step8.

Definition run : outcome L unit := script (mkState [] []).

(** The state a run ends in and what it has shown, oldest first. *)
Definition final_state {A} (o : outcome L A) : state L :=
  match o with
  | Normal _ s => s
  | Raised _ s => s
  | SystemExit s => s
  end.

Definition shown {A} (o : outcome L A) : list event := rev (stdout (final_state o)).

End Pipeline.

(** ** Concrete instances of the interface, for running the script *)

Definition sample_data : DataFrame :=
  mkFrame ["Price"; "Discount"; "Monthly_Sales"]
    [ [10; 1; 100]; [12; 0; 90]; [11; 2; 120]; [15; 0; 70]; [9; 3; 140];
      [13; 1; 95]; [14; 2; 100]; [10; 0; 105]; [8; 1; 130]; [16; 3; 85] ]%Q.

(** A stand-in learner: it predicts the mean of the training target.  The
    sample library computes the metrics in exact arithmetic. *)
Definition mean_predictor (m : Q) (X : matrix) : res vector :=
  inr (map (fun _ => m) X).

Definition sample_lib : Lib :=
  {| read_csv := fun _ => inr sample_data;
     explore := fun _ _ => None;
     figure := fun _ => None;
     permutation := fun _ n => rev (seq 0 n);
     permutation_spec := fun _ n => Permutation_sym (Permutation_rev (seq 0 n));
     sqrt := fun q => q;
     models := mkModels Q Q;
     lr_fit := fun _ y => inr (Qmean y);
     lr_predict := mean_predictor;
     rf_fit := fun _ _ y => inr (Qmean y);
     rf_predict := mean_predictor;
     feature_importances_ := fun _ => [];
     np_ss_res := fun y p => Some (ss_res y p);
     np_ss_tot := fun y => Some (ss_tot y);
     np_r2 := fun y p => Some (1 - ss_res y p / ss_tot y)%Q;
     np_mse := fun y p => Some (ss_res y p / Qlen y)%Q |}.

(** The same library with a linear solver that raises. *)
Definition lr_failing_lib : Lib :=
  {| read_csv := read_csv sample_lib;
     explore := explore sample_lib;
     figure := figure sample_lib;
     permutation := permutation sample_lib;
     permutation_spec := permutation_spec sample_lib;
     sqrt := sqrt sample_lib;
     models := mkModels Q Q;
     lr_fit := fun _ _ => inl (Exception "SVD did not converge");
     lr_predict := mean_predictor;
     rf_fit := fun _ _ y => inr (Qmean y);
     rf_predict := mean_predictor;
     feature_importances_ := fun _ => [];
     np_ss_res := fun y p => Some (ss_res y p);
     np_ss_tot := fun y => Some (ss_tot y);
     np_r2 := fun y p => Some (1 - ss_res y p / ss_tot y)%Q;
     np_mse := fun y p => Some (ss_res y p / Qlen y)%Q |}.

(** * Vocabulary of the properties *)

(** ** Grids and ranks *)

(** The number of points of a grid: the product of its lists' lengths. *)
Definition grid_size (g : grid) : nat :=
  fold_right (fun kv acc => length (snd kv) * acc) 1 g.

(** [d] picks, key by key, one of the values listed for that key. *)
Definition is_point (items : grid) (d : dict) : Prop :=
  Forall2 (fun kv it => fst kv = fst it /\ In (snd kv) (snd it)) d items.

(** How many entries of [b] are strictly above [x], and the ranks
    [rank_scores] gives to a list without NaN. *)
Definition greater_count (b : list Q) (x : Q) : nat :=
  length (filter (fun y => Qltb x y) b).

Definition ranks (b : list Q) : list nat := map (fun x => S (greater_count b x)) b.

(** ** Weakest preconditions for the script monad *)

Section WPDefs.

Context {L : Lib}.

(** [Q] holds of the outcome of [m] started in [s]. *)
Definition wp {A} (m : M L A) (Q : outcome L A -> Prop) (s : state L) : Prop :=
  Q (m s).

(** After a statement: the continuation runs on a normal outcome only. *)
Definition after {A B} (k : A -> M L B) (Q : outcome L B -> Prop) (o : outcome L A) : Prop :=
  match o with
  | Normal a s' => wp (k a) Q s'
  | Raised e s' => Q (Raised e s')
  | SystemExit s' => Q (SystemExit s')
  end.

(** After the body of a [try]: the handler runs on a raised exception only. *)
Definition handled (h : exn -> M L unit) (Q : outcome L unit -> Prop)
  (o : outcome L unit) : Prop :=
  match o with
  | Normal a s' => Q (Normal a s')
  | Raised e s' => wp (h e) Q s'
  | SystemExit s' => Q (SystemExit s')
  end.

End WPDefs.

(** ** What a step changes *)

(** [n] is none of [names]. *)
Definition fresh (names : list string) (n : string) : bool :=
  forallb (fun a => negb (String.eqb a n)) names.

(** The outcome leaves the binding of [n] as it was in [s]. *)
Definition unchanged {L : Lib} {A} (n : string) (s : state L) (o : outcome L A) : Prop :=
  lookup n (vars (final_state L o)) = lookup n (vars s).

(** Events that mark the progress of a run: printed literals, error
    prefixes, saved figures and the comparison table.  Each occurs once in
    the script text. *)
Definition mark (ev : event) : option string :=
  match ev with
  | Say t => Some t
  | SayError p _ => Some p
  | Saved f => Some f
  | SayTable _ => Some "results table"
  | _ => None
  end.

Fixpoint marks (l : list event) : list string :=
  match l with
  | [] => []
  | ev :: l' => match mark ev with
                | Some t => t :: marks l'
                | None => marks l'
                end
  end.

(** [l] is [l'] with some entries left out. *)
Inductive subseq {A} : list A -> list A -> Prop :=
| subseq_nil l : subseq [] l
| subseq_take x l l' : subseq l l' -> subseq (x :: l) (x :: l')
| subseq_skip x l l' : subseq l l' -> subseq l (x :: l').

Definition table_names (t : table) : list string := map (fun r => fst (fst r)) t.

(** A printed comparison table always has its three rows. *)
Definition ok_event (ev : event) : Prop :=
  match ev with
  | SayTable t =>
      table_names t = ["Linear Regression"; "Random Forest"; "Optimized Random Forest"]
  | _ => True
  end.

(** What a step adds to the output: nothing is taken back, and the marks it
    adds follow the step's text. *)
Definition emits {L : Lib} {A} (allowed : list string) (s : state L) (o : outcome L A) : Prop :=
  exists new,
    stdout (final_state L o) = new ++ stdout s /\
    subseq (marks (rev new)) allowed /\
    Forall ok_event new.

(** The outcomes of a step: it returns, or at least it does not let an
    exception through. *)
Definition is_normal {L : Lib} (o : outcome L unit) : Prop := exists s', o = Normal tt s'.

Definition not_raised {L : Lib} (o : outcome L unit) : Prop :=
  match o with
  | Raised _ _ => False
  | _ => True
  end.

(** The marks in the text of each step, in order. *)
Definition marks1 : list string :=
  [ "=== Dataset Information ==="; "data.info()"; "=== Descriptive Statistics ===";
    "data.describe()"; "=== Missing Values ==="; "data.isnull().sum()";
    "Error: CSV file not found. Please verify the file path.";
    "An error occurred while loading the data" ].
Definition marks2 : list string :=
  [ "distributions.png"; "correlation_matrix.png";
    "An error occurred during visualization" ].
Definition marks3 : list string := [ "An error occurred during preprocessing" ].
Definition marks4 : list string :=
  [ "=== Linear Regression ==="; "linear_regression_results.png";
    "An error occurred during linear regression" ].
Definition marks5 : list string :=
  [ "=== Random Forest Regressor ==="; "random_forest_results.png";
    "feature_importance.png"; "An error occurred during random forest modeling" ].
Definition marks6 : list string :=
  [ "=== Hyperparameter Tuning ===";
    "Performing grid search... (This may take several minutes)";
    "optimized_random_forest_results.png";
    "An error occurred during model optimization" ].
Definition marks7 : list string :=
  [ "=== Model Comparison ==="; "results table"; "model_comparison.png";
    "An error occurred during final evaluation" ].
Definition marks8 : list string :=
  [ "=== Business Insights ===";
    "1. Seasonal Impact: The 'Season' feature has the highest importance, indicating strong seasonal patterns in sales.";
    "2. Pricing Strategy: Both product price and competitor price significantly impact sales.";
    "3. Promotions: Discounts have a moderate but meaningful effect on sales.";
    "4. Distribution: While important, distribution coverage has the least impact among the features analyzed.";
    "Recommendations:";
    "- Plan inventory and marketing efforts according to seasonal trends";
    "- Implement competitive pricing strategies by monitoring competitor prices";
    "- Use targeted promotions during low seasons to boost sales";
    "- While maintaining good distribution is important, focus more on pricing and seasonal factors";
    "All visualizations have been saved as PNG files in your working directory." ].

Definition all_marks : list string :=
  marks1 ++ marks2 ++ marks3 ++ marks4 ++ marks5 ++ marks6 ++ marks7 ++ marks8.

(** The names each step assigns (steps 2 and 8 assign none). *)
Definition assigned1 : list string := ["data"].
Definition assigned3 : list string :=
  ["X"; "y"; "X_train"; "X_test"; "y_train"; "y_test"; "scaler"; "X_train_scaled";
   "X_test_scaled"].
Definition assigned4 : list string := ["lr_model"; "y_pred_lr"; "mse_lr"; "r2_lr"].
Definition assigned5 : list string := ["rf_model"; "y_pred_rf"; "mse_rf"; "r2_rf"].
Definition assigned6 : list string :=
  ["param_grid"; "grid_search"; "best_params"; "optimized_rf"; "y_pred_optimized";
   "mse_optimized"; "r2_optimized"].
Definition assigned7 : list string := ["results"].

(** ** The state after the modelling steps *)

(** The forest of line 120 and the base estimator of line 172: the defaults
    with [random_state=42]. *)
Definition base_forest : rf_params := mkRF (PInt 100) PNone (PInt 2) (PInt 1) (PInt 42).

Section FactsDefs.

Context (L : Lib).

(** The part of the state steps 4 to 7 read: the scaled train matrix, the
    train target, the scaled test matrix and the test target. *)
Definition prepared (Xs : matrix) (ys : vector) (Xt : matrix) (yt : vector)
  (st : state L) : Prop :=
  lookup "X_train_scaled" (vars st) = Some (VMatrix Xs) /\
  lookup "y_train" (vars st) = Some (VVector ys) /\
  lookup "X_test_scaled" (vars st) = Some (VMatrix Xt) /\
  lookup "y_test" (vars st) = Some (VVector yt).

(** The two metrics of one model, under their names: computed from the
    model's prediction and the test target. *)
Definition scored (pred_name mse_name r2_name : string) (yt : vector)
  (st : state L) : Prop :=
  (forall v, lookup mse_name (vars st) = Some v ->
     exists p f, v = VFloat f /\ lookup pred_name (vars st) = Some (VVector p) /\
                 mean_squared_error L yt p = inr f) /\
  (forall v, lookup r2_name (vars st) = Some v ->
     exists p f, v = VFloat f /\ lookup pred_name (vars st) = Some (VVector p) /\
                 r2_score L yt p = inr f).

(** The linear model, its prediction and its metrics. *)
Definition lr_facts (Xs : matrix) (ys : vector) (Xt : matrix) (yt : vector)
  (st : state L) : Prop :=
  (forall v, lookup "lr_model" (vars st) = Some v ->
     exists mo, v = VLinear mo /\
                forall m, mo = Some m -> lr_fit L Xs ys = inr m) /\
  (forall v, lookup "y_pred_lr" (vars st) = Some v ->
     exists m p, lookup "lr_model" (vars st) = Some (VLinear (Some m)) /\
                 v = VVector p /\ lr_predict L m Xt = inr p) /\
  scored "y_pred_lr" "mse_lr" "r2_lr" yt st.

(** The default forest, its prediction and its metrics. *)
Definition rf_facts (Xs : matrix) (ys : vector) (Xt : matrix) (yt : vector)
  (st : state L) : Prop :=
  (forall v, lookup "rf_model" (vars st) = Some v ->
     exists mo, v = VForest base_forest mo /\
                forall m, mo = Some m -> rf_fit L base_forest Xs ys = inr m) /\
  (forall v, lookup "y_pred_rf" (vars st) = Some v ->
     exists m p, lookup "rf_model" (vars st) = Some (VForest base_forest (Some m)) /\
                 v = VVector p /\ rf_predict L m Xt = inr p) /\
  scored "y_pred_rf" "mse_rf" "r2_rf" yt st.

(** The tuned forest: built from the parameters the completed search
    returned, then fitted on the whole scaled train set. *)
Definition opt_facts (Xs : matrix) (ys : vector) (Xt : matrix) (yt : vector)
  (st : state L) : Prop :=
  (forall v, lookup "optimized_rf" (vars st) = Some v ->
     exists p mo f,
       v = VForest p mo /\
       lookup "grid_search" (vars st)
         = Some (VSearch (mkCfg base_forest param_grid 3) (Some f)) /\
       GridSearchCV_fit L (mkCfg base_forest param_grid 3) Xs ys = inr f /\
       lookup "best_params" (vars st) = Some (VDict (best_params_ f)) /\
       RandomForestRegressor (best_params_ f) (PInt 42) = inr p /\
       forall m, mo = Some m -> rf_fit L p Xs ys = inr m) /\
  (forall v, lookup "y_pred_optimized" (vars st) = Some v ->
     exists q m p, lookup "optimized_rf" (vars st) = Some (VForest q (Some m)) /\
                   v = VVector p /\ rf_predict L m Xt = inr p) /\
  scored "y_pred_optimized" "mse_optimized" "r2_optimized" yt st.

(** No statement has bound any of [names] yet. *)
Definition unbound (names : list string) (st : state L) : Prop :=
  Forall (fun n => lookup n (vars st) = None) names.

End FactsDefs.

Section PreparationDefs.

Context (L : Lib).

(** The scaler object after line 78, as a function of the train rows. *)
Definition scaler_after_fit (X : matrix) : scaler :=
  match StandardScaler_fit_transform L X with
  | inr r => fst r
  | inl _ => None
  end.

(** Once [X_train] is bound, the scaler is the one fitted on its rows. *)
Definition scaler_facts (st : state L) : Prop :=
  forall v, lookup "X_train" (vars st) = Some v ->
    exists X_train,
      v = VFrame X_train /\
      lookup "scaler" (vars st) = Some (VScaler (scaler_after_fit (rows X_train))).

(** Where the scaled matrices come from: the split of the dataset and the
    scaler fitted on the train rows. *)
Definition split_facts (st : state L) : Prop :=
  (forall v, lookup "X_train_scaled" (vars st) = Some v ->
     exists data X y sp sc Xs,
       v = VMatrix Xs /\
       lookup "data" (vars st) = Some (VFrame data) /\
       drop_column "Monthly_Sales" data = inr X /\
       get_column "Monthly_Sales" data = inr y /\
       train_test_split L X y (2 # 10) 42 = inr sp /\
       lookup "X_train" (vars st) = Some (VFrame (sp_X_train sp)) /\
       lookup "X_test" (vars st) = Some (VFrame (sp_X_test sp)) /\
       lookup "y_train" (vars st) = Some (VVector (sp_y_train sp)) /\
       lookup "y_test" (vars st) = Some (VVector (sp_y_test sp)) /\
       StandardScaler_fit_transform L (rows (sp_X_train sp)) = inr (sc, Xs) /\
       lookup "scaler" (vars st) = Some (VScaler sc)) /\
  (forall v, lookup "X_test_scaled" (vars st) = Some v ->
     exists sc X_test Xt,
       v = VMatrix Xt /\
       lookup "scaler" (vars st) = Some (VScaler sc) /\
       lookup "X_test" (vars st) = Some (VFrame X_test) /\
       StandardScaler_transform sc (rows X_test) = inr Xt).

End PreparationDefs.

(** ** The assignment history *)

(** The bindings a step adds are among its assignment statements, in order. *)
Definition binds {L : Lib} {A} (allowed : list string) (s : state L) (o : outcome L A) : Prop :=
  exists new,
    vars (final_state L o) = new ++ vars s /\
    subseq (rev (map fst new)) allowed.

(** The targets of the assignment statements of each step, in order; an
    object that a method call fits in place is bound again by that call. *)
Definition assigns1 : list string := ["data"].
Definition assigns3 : list string :=
  ["X"; "y"; "X_train"; "X_test"; "y_train"; "y_test"; "scaler"; "scaler";
   "X_train_scaled"; "X_test_scaled"].
Definition assigns4 : list string :=
  ["lr_model"; "lr_model"; "y_pred_lr"; "mse_lr"; "r2_lr"].
Definition assigns5 : list string :=
  ["rf_model"; "rf_model"; "y_pred_rf"; "mse_rf"; "r2_rf"].
Definition assigns6 : list string :=
  ["param_grid"; "grid_search"; "grid_search"; "best_params"; "optimized_rf";
   "optimized_rf"; "y_pred_optimized"; "mse_optimized"; "r2_optimized"].
Definition assigns7 : list string := ["results"].

Definition all_assigns : list string :=
  assigns1 ++ assigns3 ++ assigns4 ++ assigns5 ++ assigns6 ++ assigns7.

(** ** The states a run goes through *)

(** [st'] binds the [names] as [st] does. *)
Definition agree {L : Lib} (names : list string) (st st' : state L) : Prop :=
  forall n, In n names -> lookup n (vars st') = lookup n (vars st).

Section RunStates.

Context (L : Lib).

(** The empty start state and the state after each step. *)
Definition s0 : state L := mkState [] [].
Definition st1 : state L := final_state L (step1 L s0).
Definition st2 : state L := final_state L (step2 L st1).
Definition st3 : state L := final_state L (step3 L st2).
Definition st4 : state L := final_state L (step4 L st3).
Definition st5 : state L := final_state L (step5 L st4).
Definition st6 : state L := final_state L (step6 L st5).
Definition st7 : state L := final_state L (step7 L st6).
Definition st8 : state L := final_state L (step8 L st7).

End RunStates.

(** The four names steps 4 to 7 read their data from. *)
Definition protected : list string :=
  ["X_train_scaled"; "y_train"; "X_test_scaled"; "y_test"].

Definition metric_names : list string :=
  ["mse_lr"; "mse_rf"; "mse_optimized"; "r2_lr"; "r2_rf"; "r2_optimized"].

Section TableDefs.

Context (L : Lib).

(** The printed table is the one bound to [results], and its rows are the
    six metric variables. *)
Definition table_facts (t : table) (st : state L) : Prop :=
  exists a b c d e f,
    t = [ ("Linear Regression", a, d); ("Random Forest", b, e);
          ("Optimized Random Forest", c, f) ] /\
    lookup "results" (vars st) = Some (VTable t) /\
    lookup "mse_lr" (vars st) = Some (VFloat a) /\
    lookup "mse_rf" (vars st) = Some (VFloat b) /\
    lookup "mse_optimized" (vars st) = Some (VFloat c) /\
    lookup "r2_lr" (vars st) = Some (VFloat d) /\
    lookup "r2_rf" (vars st) = Some (VFloat e) /\
    lookup "r2_optimized" (vars st) = Some (VFloat f).

(** Everything the three modelling steps leave in a state. *)
Definition model_facts (st : state L) : Prop :=
  forall Xs ys Xt yt,
    prepared L Xs ys Xt yt st ->
    lr_facts L Xs ys Xt yt st /\ rf_facts L Xs ys Xt yt st /\ opt_facts L Xs ys Xt yt st.

End TableDefs.

Section OutputDefs.

Context (L : Lib).

(** No comparison table has been shown yet. *)
Definition no_table (st : state L) : Prop := forall t, ~ In (SayTable t) (stdout st).

End OutputDefs.

(** ** Parameters, marks and endings *)

Definition with_random_state (v : pyval) (p : rf_params) : rf_params :=
  mkRF p.(n_estimators) p.(max_depth) p.(min_samples_split) p.(min_samples_leaf) v.

(** The names bound by steps 4 to 7. *)
Definition model_names : list string :=
  assigned4 ++ assigned5 ++ assigned6 ++ assigned7.

(** No string occurs twice. *)
Fixpoint distinct (l : list string) : bool :=
  match l with
  | [] => true
  | x :: l' => negb (existsb (String.eqb x) l') && distinct l'
  end.

(** The three messages that precede [exit()]. *)
Definition abort_report (ev : event) : Prop :=
  ev = Say "Error: CSV file not found. Please verify the file path." \/
  (exists e, ev = SayError "An error occurred while loading the data" e) \/
  (exists e, ev = SayError "An error occurred during preprocessing" e).

Definition exit_reported {L : Lib} (o : outcome L unit) : Prop :=
  match o with
  | SystemExit s' => exists ev, hd_error (stdout s') = Some ev /\ abort_report ev
  | _ => True
  end.

Definition last_line : string :=
  "All visualizations have been saved as PNG files in your working directory.".

(** Step 7 has shown its error message with cause [e], and nothing else. *)
Definition evaluation_failed {L : Lib} (s : state L) (e : exn) (o : outcome L unit) : Prop :=
  o = Normal tt (mkState (vars s)
                   (SayError "An error occurred during final evaluation" e :: stdout s)).

(** The error prefixes of the steps that come after preprocessing. *)
Definition later_stage_errors : list string :=
  [ "An error occurred during linear regression";
    "An error occurred during random forest modeling";
    "An error occurred during model optimization";
    "An error occurred during final evaluation" ].

(** ** Concrete inputs *)

(** A small train set for running the search of step 6 on its own. *)
Definition tiny_X : matrix := [[1]; [2]; [3]; [4]; [5]; [6]]%Q.
Definition tiny_y : vector := [3; 1; 4; 1; 5; 9]%Q.
Definition script_search : search_cfg := mkCfg base_forest param_grid 3.



(** The three models' prediction, MSE and R2 variables. *)
Definition evaluation_names : list (string * string * string) :=
  [ ("y_pred_lr", "mse_lr", "r2_lr");
    ("y_pred_rf", "mse_rf", "r2_rf");
    ("y_pred_optimized", "mse_optimized", "r2_optimized") ].

(** The sample dataset with other values in the two test rows (rows 8 and 9). *)
Definition other_test_rows : DataFrame :=
  mkFrame ["Price"; "Discount"; "Monthly_Sales"]
    [ [10; 1; 100]; [12; 0; 90]; [11; 2; 120]; [15; 0; 70]; [9; 3; 140];
      [13; 1; 95]; [14; 2; 100]; [10; 0; 105]; [20; 5; 300]; [1; 9; 10] ]%Q.

Definition other_test_lib : Lib :=
  {| read_csv := fun _ => inr other_test_rows;
     explore := explore sample_lib;
     figure := figure sample_lib;
     permutation := permutation sample_lib;
     permutation_spec := permutation_spec sample_lib;
     sqrt := sqrt sample_lib;
     models := mkModels Q Q;
     lr_fit := fun _ y => inr (Qmean y);
     lr_predict := mean_predictor;
     rf_fit := fun _ _ y => inr (Qmean y);
     rf_predict := mean_predictor;
     feature_importances_ := fun _ => [];
     np_ss_res := fun y p => Some (ss_res y p);
     np_ss_tot := fun y => Some (ss_tot y);
     np_r2 := fun y p => Some (1 - ss_res y p / ss_tot y)%Q;
     np_mse := fun y p => Some (ss_res y p / Qlen y)%Q |}.

(** Observations on a finished run. *)
Definition ended_normally {L : Lib} (o : outcome L unit) : bool :=
  match o with
  | Normal _ _ => true
  | _ => false
  end.

Fixpoint errors_shown (l : list event) : list (string * exn) :=
  match l with
  | [] => []
  | SayError p e :: l' => (p, e) :: errors_shown l'
  | _ :: l' => errors_shown l'
  end.

Definition is_bound {L : Lib} (st : state L) (n : string) : bool :=
  match lookup n (vars st) with
  | Some _ => true
  | None => false
  end.

(** ** Further vocabulary *)

(** What step 1 prints before [exit()] when loading raises [e]. *)
Definition loading_report (e : exn) : event :=
  match e with
  | FileNotFoundError => Say "Error: CSV file not found. Please verify the file path."
  | _ => SayError "An error occurred while loading the data" e
  end.

(** What step 1 prints when loading and exploration succeed, latest first. *)
Definition exploration_output : list event :=
  [ Say "data.isnull().sum()"; Say "=== Missing Values ===";
    Say "data.describe()"; Say "=== Descriptive Statistics ===";
    Say "data.info()"; Say "=== Dataset Information ===" ].

(** A frame whose rows all have one entry per column. *)
Definition well_shaped (d : DataFrame) : Prop :=
  forall r, In r (rows d) -> length r = length (columns d).

(** The parameter names the forest accepts. *)
Definition valid_param (k : string) : bool :=
  existsb (String.eqb k)
    ["n_estimators"; "max_depth"; "min_samples_split"; "min_samples_leaf"; "random_state"].

Definition valid_keys (g : grid) : bool := forallb (fun kv => valid_param (fst kv)) g.

(** A library whose CSV file is missing. *)
Definition missing_file_lib : Lib :=
  {| read_csv := fun _ => inl FileNotFoundError;
     explore := explore sample_lib;
     figure := figure sample_lib;
     permutation := permutation sample_lib;
     permutation_spec := permutation_spec sample_lib;
     sqrt := sqrt sample_lib;
     models := mkModels Q Q;
     lr_fit := fun _ y => inr (Qmean y);
     lr_predict := mean_predictor;
     rf_fit := fun _ _ y => inr (Qmean y);
     rf_predict := mean_predictor;
     feature_importances_ := fun _ => [];
     np_ss_res := fun y p => Some (ss_res y p);
     np_ss_tot := fun y => Some (ss_tot y);
     np_r2 := fun y p => Some (1 - ss_res y p / ss_tot y)%Q;
     np_mse := fun y p => Some (ss_res y p / Qlen y)%Q |}.

(** A dataset without the target column, and a library that reads it. *)
Definition no_target_data : DataFrame :=
  mkFrame ["Price"; "Discount"] [ [10; 1]; [12; 0]; [11; 2] ]%Q.

Definition no_target_lib : Lib :=
  {| read_csv := fun _ => inr no_target_data;
     explore := explore sample_lib;
     figure := figure sample_lib;
     permutation := permutation sample_lib;
     permutation_spec := permutation_spec sample_lib;
     sqrt := sqrt sample_lib;
     models := mkModels Q Q;
     lr_fit := fun _ y => inr (Qmean y);
     lr_predict := mean_predictor;
     rf_fit := fun _ _ y => inr (Qmean y);
     rf_predict := mean_predictor;
     feature_importances_ := fun _ => [];
     np_ss_res := fun y p => Some (ss_res y p);
     np_ss_tot := fun y => Some (ss_tot y);
     np_r2 := fun y p => Some (1 - ss_res y p / ss_tot y)%Q;
     np_mse := fun y p => Some (ss_res y p / Qlen y)%Q |}.

(** The lines step 8 prints, in order. *)
Definition insights_output : list event := map Say marks8.

(** A train set of four rows: with three folds one test part has one row. *)
Definition four_X : matrix := [[1]; [2]; [3]; [4]]%Q.
Definition four_y : vector := [3; 1; 4; 1]%Q.

(** Every candidate's mean score is NaN. *)
Definition all_nan (means : list float) : Prop := forall f, In f means -> f = None.

(** The file is read and the three exploration calls of step 1 return. *)
Definition loaded (L : Lib) (d : DataFrame) : Prop :=
  read_csv L "mcpl_fmcg_sales_dataset.csv.csv" = inr d /\
  explore L "info" d = None /\
  explore L "describe" d = None /\
  explore L "isnull" d = None.

(** The output only grows: [s'] shows what [s] shows, and then more. *)
Definition extends {L : Lib} (s s' : state L) : Prop :=
  exists new, stdout s' = new ++ stdout s.

(** [l] with [a] put in at position [j]: what [remove_nth] undoes. *)
Fixpoint insert_at {A} (j : nat) (a : A) (l : list A) : list A :=
  match j, l with
  | O, _ => a :: l
  | S j', x :: l' => x :: insert_at j' a l'
  | S _, [] => [a]
  end.

(** Every row has [w] entries. *)
Definition width (w : nat) (X : matrix) : Prop := forall r, In r X -> length r = w.

(** ** What is printed and what is stored *)

(** The value an event prints, with its label. *)
Definition printed_value {L : Lib} (ev : event) : option (string * value L) :=
  match ev with
  | SayFloat l f => Some (l, VFloat f)
  | SayDict l d => Some (l, VDict d)
  | _ => None
  end.

(** The labels steps 4 to 6 print, each with the variable it prints. *)
Definition labels4 : list (string * string) := [ ("MSE", "mse_lr"); ("R2 Score", "r2_lr") ].
Definition labels5 : list (string * string) := [ ("MSE", "mse_rf"); ("R2 Score", "r2_rf") ].
Definition labels6 : list (string * string) :=
  [ ("Best parameters found", "best_params");
    ("Optimized Random Forest - MSE", "mse_optimized");
    ("Optimized Random Forest - R2", "r2_optimized") ].
Definition printed_labels : list (string * string) := labels4 ++ labels5 ++ labels6.

(** Every value the step prints is bound, when the step ends, to a variable
    listed with its label. *)
Definition prints_stored {L : Lib} {A} (labels : list (string * string))
  (s : state L) (o : outcome L A) : Prop :=
  forall ev l v,
    In ev (stdout (final_state L o)) -> printed_value ev = Some (l, v) ->
    In ev (stdout s) \/
    exists n, In (l, n) labels /\ lookup n (vars (final_state L o)) = Some v.

(** ** Figures *)

(** The figures each step saves, each with the variables its plotting block
    reads. *)
Definition reads2 : list (string * list string) :=
  [ ("distributions.png", ["data"]); ("correlation_matrix.png", ["data"]) ].
Definition reads4 : list (string * list string) :=
  [ ("linear_regression_results.png", ["y_test"; "y_pred_lr"; "y"]) ].
Definition reads5 : list (string * list string) :=
  [ ("random_forest_results.png", ["y_test"; "y_pred_rf"; "y"]);
    ("feature_importance.png", ["X"; "rf_model"]) ].
Definition reads6 : list (string * list string) :=
  [ ("optimized_random_forest_results.png", ["y_test"; "y_pred_optimized"; "y"]) ].
Definition reads7 : list (string * list string) := [ ("model_comparison.png", ["results"]) ].
Definition figure_reads : list (string * list string) :=
  reads2 ++ reads4 ++ reads5 ++ reads6 ++ reads7.

(** Every figure the step saves is listed, and the variables listed with it
    are bound when the step ends. *)
Definition saves_bound {L : Lib} {A} (reads : list (string * list string))
  (s : state L) (o : outcome L A) : Prop :=
  forall file,
    In (Saved file) (stdout (final_state L o)) ->
    In (Saved file) (stdout s) \/
    exists names, In (file, names) reads /\
                  forallb (is_bound (final_state L o)) names = true.

(** ** The stages of a run and their failures *)

(** The seven [try] blocks of the script. *)
Inductive stage : Type :=
| Loading
| Visualisation
| Preprocessing
| LinearRegression
| RandomForest
| Optimisation
| Evaluation.

(** What the handler of a stage prints for the exception [e]. *)
Definition stage_report (k : stage) (e : exn) : event :=
  match k with
  | Loading => loading_report e
  | Visualisation => SayError "An error occurred during visualization" e
  | Preprocessing => SayError "An error occurred during preprocessing" e
  | LinearRegression => SayError "An error occurred during linear regression" e
  | RandomForest => SayError "An error occurred during random forest modeling" e
  | Optimisation => SayError "An error occurred during model optimization" e
  | Evaluation => SayError "An error occurred during final evaluation" e
  end.

(** The stages whose handler calls [exit()]. *)
Definition aborting (k : stage) : bool :=
  match k with
  | Loading | Preprocessing => true
  | _ => false
  end.

Section StageDefs.

Context (L : Lib).

(** The body of the [try] block of a stage, and the whole block. *)
Definition stage_body (k : stage) : M L unit :=
  match k with
  | Loading => step1_body L
  | Visualisation => step2_body L
  | Preprocessing => step3_body L
  | LinearRegression => step4_body L
  | RandomForest => step5_body L
  | Optimisation => step6_body L
  | Evaluation => step7_body L
  end.

Definition stage_step (k : stage) : M L unit :=
  match k with
  | Loading => step1 L
  | Visualisation => step2 L
  | Preprocessing => step3 L
  | LinearRegression => step4 L
  | RandomForest => step5 L
  | Optimisation => step6 L
  | Evaluation => step7 L
  end.

(** The state in which a run enters a stage. *)
Definition stage_start (k : stage) : state L :=
  match k with
  | Loading => s0 L
  | Visualisation => st1 L
  | Preprocessing => st2 L
  | LinearRegression => st3 L
  | RandomForest => st4 L
  | Optimisation => st5 L
  | Evaluation => st6 L
  end.

(** The run gets as far as the stage: no earlier stage has called [exit()]. *)
Definition reached (k : stage) : Prop :=
  match k with
  | Loading => True
  | Visualisation | Preprocessing => is_normal (step1 L (s0 L))
  | _ => is_normal (step1 L (s0 L)) /\ is_normal (step3 L (st2 L))
  end.

(** The stage fails in the run: its body raises [e] and leaves the state
    [s']. *)
Definition fails (k : stage) (e : exn) (s' : state L) : Prop :=
  reached k /\ stage_body k (stage_start k) = Raised e s'.

(** The state after the handler has printed its message. *)
Definition reported (k : stage) (e : exn) (s' : state L) : state L :=
  mkState (vars s') (stage_report k e :: stdout s').

End StageDefs.

(** A step shows no error message of its own. *)
Definition quiet {L : Lib} {A} (s : state L) (o : outcome L A) : Prop :=
  forall p e, In (SayError p e) (stdout (final_state L o)) -> In (SayError p e) (stdout s).

(** ** The three models, fitted and evaluated *)

Section DoneDefs.

Context (L : Lib).

(** The linear model has been fitted on the scaled train set, has predicted
    on the scaled test set, and both its metrics have been computed against
    the test target. *)
Definition lr_done (Xs : matrix) (ys : vector) (Xt : matrix) (yt : vector)
  (st : state L) : Prop :=
  exists m pred a d,
    lookup "lr_model" (vars st) = Some (VLinear (Some m)) /\
    lr_fit L Xs ys = inr m /\
    lookup "y_pred_lr" (vars st) = Some (VVector pred) /\
    lr_predict L m Xt = inr pred /\
    lookup "mse_lr" (vars st) = Some (VFloat a) /\
    mean_squared_error L yt pred = inr a /\
    lookup "r2_lr" (vars st) = Some (VFloat d) /\
    r2_score L yt pred = inr d.

(** The same for the default forest. *)
Definition rf_done (Xs : matrix) (ys : vector) (Xt : matrix) (yt : vector)
  (st : state L) : Prop :=
  exists m pred a d,
    lookup "rf_model" (vars st) = Some (VForest base_forest (Some m)) /\
    rf_fit L base_forest Xs ys = inr m /\
    lookup "y_pred_rf" (vars st) = Some (VVector pred) /\
    rf_predict L m Xt = inr pred /\
    lookup "mse_rf" (vars st) = Some (VFloat a) /\
    mean_squared_error L yt pred = inr a /\
    lookup "r2_rf" (vars st) = Some (VFloat d) /\
    r2_score L yt pred = inr d.

(** The same for the tuned forest, built from the parameters the search on
    the scaled train set returned. *)
Definition opt_done (Xs : matrix) (ys : vector) (Xt : matrix) (yt : vector)
  (st : state L) : Prop :=
  exists f p m pred a d,
    lookup "grid_search" (vars st) = Some (VSearch script_search (Some f)) /\
    GridSearchCV_fit L script_search Xs ys = inr f /\
    lookup "best_params" (vars st) = Some (VDict (best_params_ f)) /\
    RandomForestRegressor (best_params_ f) (PInt 42) = inr p /\
    lookup "optimized_rf" (vars st) = Some (VForest p (Some m)) /\
    rf_fit L p Xs ys = inr m /\
    lookup "y_pred_optimized" (vars st) = Some (VVector pred) /\
    rf_predict L m Xt = inr pred /\
    lookup "mse_optimized" (vars st) = Some (VFloat a) /\
    mean_squared_error L yt pred = inr a /\
    lookup "r2_optimized" (vars st) = Some (VFloat d) /\
    r2_score L yt pred = inr d.

(** A stage has shown its error message. *)
Definition reports (k : stage) (st : state L) : Prop :=
  exists e, In (stage_report k e) (stdout st).

(** The event is an error message with its cause. *)
Definition is_error (ev : event) : bool :=
  match ev with
  | SayError _ _ => true
  | _ => false
  end.

End DoneDefs.

(** ** Exact arithmetic, and two rows *)



(** * Properties *)

(** ** The candidate grid and the cross-validation jobs *)

Lemma length_product (items : grid) : length (product items) = grid_size items.
Proof.
  induction items as [|[k vs] items IH]; [reflexivity|].
  change (length (flat_map (fun v => map (cons (k, v)) (product items)) vs)
          = length vs * grid_size items).
  induction vs as [|v vs IHvs]; [reflexivity|].
  cbn [flat_map]. rewrite length_app, length_map, IHvs.
  unfold dict in *. rewrite IH. reflexivity.
Qed.

Lemma in_product (items : grid) (d : dict) :
  In d (product items) <-> is_point items d.
Proof.
  revert d. induction items as [|[k vs] items IH]; intros d; simpl.
  - split.
    + intros [<-|[]]. constructor.
    + intros H. inversion H. now left.
  - rewrite in_flat_map. split.
    + intros (v & Hv & Hd). apply in_map_iff in Hd as (d' & <- & Hd').
      constructor; [now split | now apply IH].
    + intros H. inversion H as [|[k' v] it d' its [Hk Hv] Hrest]; subst.
      simpl in Hk, Hv. subst k'. exists v. split; [assumption|].
      apply in_map. now apply IH.
Qed.

Lemma insert_item_perm (it : string * list pyval) (g : grid) :
  Permutation (insert_item it g) (it :: g).
Proof.
  induction g as [|x g IH]; simpl; [reflexivity|].
  destruct (String.leb (fst it) (fst x)); [reflexivity|].
  rewrite IH. apply perm_swap.
Qed.

Lemma sorted_items_perm (g : grid) : Permutation (sorted_items g) g.
Proof.
  induction g as [|x g IH]; simpl; [reflexivity|].
  rewrite insert_item_perm. now constructor.
Qed.

Lemma grid_size_perm (g g' : grid) : Permutation g g' -> grid_size g = grid_size g'.
Proof.
  induction 1; simpl; try congruence.
  rewrite !Nat.mul_assoc. f_equal. apply Nat.mul_comm.
Qed.

Lemma length_ParameterGrid (g : grid) : length (ParameterGrid g) = grid_size g.
Proof.
  unfold ParameterGrid. rewrite length_product.
  apply grid_size_perm, sorted_items_perm.
Qed.

(** Job number [i * k + j] is candidate [i] on fold [j]. *)
Lemma nth_error_list_prod {A B} (l : list A) (l' : list B) i j a b :
  nth_error l i = Some a -> nth_error l' j = Some b ->
  nth_error (list_prod l l') (i * length l' + j) = Some (a, b).
Proof.
  revert i. induction l as [|x l IH]; intros [|i] Hi Hj; simpl in *; try discriminate.
  - injection Hi as ->. rewrite nth_error_app1.
    + rewrite nth_error_map, Hj. reflexivity.
    + rewrite length_map. apply nth_error_Some. congruence.
  - rewrite nth_error_app2; rewrite length_map; [|lia].
    replace (length l' + i * length l' + j - length l') with (i * length l' + j) by lia.
    now apply IH.
Qed.

Lemma length_folds_from (start : nat) (sizes : list nat) (n : nat) :
  length (folds_from start sizes n) = length sizes.
Proof.
  revert start. induction sizes as [|sz sizes IH]; intros start; simpl; [reflexivity|].
  now rewrite IH.
Qed.

Lemma KFold_split_length (k n : nat) splits :
  KFold_split k n = inr splits -> length splits = k.
Proof.
  unfold KFold_split. destruct (k <? 2); [discriminate|].
  destruct (n <? k); [discriminate|]. intros [= <-].
  unfold fold_sizes. now rewrite length_folds_from, length_map, length_seq.
Qed.

Lemma mapM_length {A B} (f : A -> res B) (l : list A) out :
  mapM f l = inr out -> length out = length l.
Proof.
  revert out. induction l as [|a l IH]; intros out; simpl.
  - now intros [= <-].
  - destruct (f a) as [e|b]; simpl; [discriminate|].
    destruct (mapM f l) as [e|bs]; simpl; [discriminate|].
    intros [= <-]. simpl. f_equal. now apply IH.
Qed.

(** What a completed [grid_search.fit] has computed. *)
Lemma GridSearchCV_fit_inv (L : Lib) (c : search_cfg) (X : matrix) (y : vector)
  (f : fitted_search L) :
  GridSearchCV_fit L c X y = inr f ->
  exists splits out est,
    length X = length y /\
    KFold_split (cv c) (length y) = inr splits /\
    mapM (fit_and_score L (estimator c) X y)
         (cv_jobs (ParameterGrid (param_grid_ c)) splits) = inr out /\
    test_scores f = map snd out /\
    mean_test_score f =
      mean_scores (length (ParameterGrid (param_grid_ c))) (length splits) (map snd out) /\
    rank_test_score f = rank_scores (mean_test_score f) /\
    best_index_ f = best_index (mean_test_score f) /\
    best_params_ f = nth (best_index_ f) (ParameterGrid (param_grid_ c)) [] /\
    best_score_ f = nth (best_index_ f) (mean_test_score f) None /\
    set_params (estimator c) (best_params_ f) = inr est /\
    rf_fit L est X y = inr (best_estimator_ f).
Proof.
  unfold GridSearchCV_fit. intros H.
  destruct (length X =? length y) eqn:Hlen; simpl in H; [|discriminate].
  apply Nat.eqb_eq in Hlen.
  destruct (existsb _ (param_grid_ c)); [discriminate|].
  destruct (KFold_split (cv c) (length y)) as [e|splits] eqn:Hk; simpl in H; [discriminate|].
  destruct (mapM _ _) as [e|out] eqn:Hout; simpl in H; [discriminate|].
  destruct (forallb fst out); [discriminate|].
  destruct (set_params _ _) as [e|est] eqn:Hest; simpl in H; [discriminate|].
  destruct (rf_fit L est X y) as [e|m] eqn:Hm; simpl in H; [discriminate|].
  injection H as <-. exists splits, out, est. simpl.
  repeat split; auto.
Qed.

(** ** Selection of the best candidate *)


Lemma forallb_false_ex {A} (p : A -> bool) (l : list A) :
  forallb p l = false -> exists a, In a l /\ p a = false.
Proof.
  induction l as [|a l IH]; simpl; [discriminate|].
  destruct (p a) eqn:E; simpl.
  - intros H. destruct (IH H) as (b & Hb & Hp). exists b. auto.
  - intros _. exists a. auto.
Qed.

(** [argmin] returns the first position of the least entry. *)
Lemma argmin_spec (l : list nat) :
  l <> [] ->
  argmin l < length l /\
  (forall j, j < length l -> nth (argmin l) l 0 <= nth j l 0) /\
  (forall j, j < argmin l -> nth (argmin l) l 0 < nth j l 0).
Proof.
  induction l as [|x l IH]; [congruence|]. intros _. simpl.
  destruct (forallb (fun y => x <=? y) l) eqn:Hall.
  - split; [lia|]. split; [|lia]. intros [|j] Hj; [lia|].
    rewrite forallb_forall in Hall. apply Nat.leb_le, Hall, nth_In. lia.
  - assert (Hne : l <> []) by (intros ->; discriminate).
    destruct (IH Hne) as (Hlt & Hmin & Hfirst).
    apply forallb_false_ex in Hall as (y & Hy & Hxy).
    apply Nat.leb_gt in Hxy.
    destruct (In_nth _ _ 0 Hy) as (jy & Hjy & Hnth).
    pose proof (Hmin jy Hjy) as Hm. rewrite Hnth in Hm.
    split; [lia|]. split.
    + intros [|j] Hj; [lia|]. apply Hmin. lia.
    + intros [|j] Hj; [lia|]. apply Hfirst. lia.
Qed.

Section Ranks.

Variable b : list Q.





End Ranks.






(** ** The splitter *)

Lemma n_test_fifth_bounds (n : nat) :
  2 <= n ->
  1 <= n_test_samples (2 # 10) n < n /\
  n - n_test_samples (2 # 10) n =
    Z.to_nat (Qfloor ((1 - (2 # 10)) * inject_Z (Z.of_nat n))).
Proof.
  intros Hn. unfold n_test_samples, Qceiling, Qfloor.
  cbn [Qmult Qopp Qminus Qplus Qnum Qden inject_Z].
  set (z := Z.of_nat n). assert (Hz : (2 <= z)%Z) by (unfold z; lia).
  change (Z.pos (10 * 1)) with 10%Z. change (Z.pos (1 * 10 * 1)) with 10%Z.
  assert (Hn' : n = Z.to_nat z) by (unfold z; lia).
  rewrite Hn'. clearbody z. clear Hn' Hn.
  replace ((1 * 10 + - (2) * 1) * z)%Z with (8 * z)%Z by lia.
  pose proof (Z.div_mod (- (2 * z)) 10 ltac:(lia)) as H1.
  pose proof (Z.mod_pos_bound (- (2 * z)) 10 ltac:(lia)) as H2.
  pose proof (Z.div_mod (8 * z) 10 ltac:(lia)) as H3.
  pose proof (Z.mod_pos_bound (8 * z) 10 ltac:(lia)) as H4.
  set (q1 := (- (2 * z) / 10)%Z) in *. set (q3 := (8 * z / 10)%Z) in *.
  assert (Hq : (1 <= - q1 < z /\ z - - q1 = q3)%Z) by lia.
  clearbody q1 q3. lia.
Qed.

Lemma shuffle_split_partition (L : Lib) (seed : Z) (n : nat) (f : Q) train test :
  shuffle_split L seed n f = inr (train, test) ->
  Permutation (train ++ test) (seq 0 n) /\
  length test = n_test_samples f n /\
  length train = n - n_test_samples f n.
Proof.
  unfold shuffle_split, validate_shuffle_split.
  destruct (negb _); simpl; [discriminate|].
  destruct (n - n_test_samples f n =? 0) eqn:E; simpl; [discriminate|].
  apply Nat.eqb_neq in E. intros [= <- <-].
  pose proof (permutation_spec L seed n) as Hp.
  assert (Hlen : length (permutation L seed n) = n).
  { rewrite (Permutation_length Hp). apply length_seq. }
  rewrite firstn_all2 by (rewrite length_skipn; lia).
  split; [|split].
  - rewrite Permutation_app_comm, firstn_skipn. exact Hp.
  - rewrite length_firstn. lia.
  - rewrite length_skipn. lia.
Qed.

(** ** The scaler on a constant column *)









(** ** Reasoning about the script: weakest preconditions *)

Section WP.

Context {L : Lib}.

Lemma wp_bind {A B} (m : M L A) (k : A -> M L B) Q s :
  wp m (after k Q) s -> wp (bind m k) Q s.
Proof. unfold wp, after, bind. now destruct (m s). Qed.

Lemma wp_try (body : M L unit) (h : exn -> M L unit) Q s :
  wp body (handled h Q) s -> wp (try_except body h) Q s.
Proof. unfold wp, handled, try_except. now destruct (body s). Qed.

Lemma wp_ret {A} (a : A) (Q : outcome L A -> Prop) s : Q (Normal a s) -> wp (ret a) Q s.
Proof. exact (fun H => H). Qed.

Lemma wp_raise {A} (e : exn) (Q : outcome L A -> Prop) s :
  Q (Raised e s) -> wp (raise e) Q s.
Proof. exact (fun H => H). Qed.

Lemma wp_exit (Q : outcome L unit -> Prop) s : Q (SystemExit s) -> wp exit_ Q s.
Proof. exact (fun H => H). Qed.

Lemma wp_lift {A} (r : res A) (Q : outcome L A -> Prop) s :
  match r with inl e => Q (Raised e s) | inr a => Q (Normal a s) end ->
  wp (lift r) Q s.
Proof. unfold wp, lift. now destruct r. Qed.

Lemma wp_get_as {A} (proj : value L -> option A) (n : string) Q s :
  match lookup n (vars s) with
  | None => Q (Raised (NameError n) s)
  | Some v => match proj v with
              | Some a => Q (Normal a s)
              | None => Q (Raised (TypeError "unexpected object") s)
              end
  end ->
  wp (get_as L proj n) Q s.
Proof.
  unfold wp, get_as. destruct (lookup n (vars s)) as [v|]; [|auto].
  now destruct (proj v).
Qed.

Lemma wp_assign (n : string) (v : value L) (Q : outcome L unit -> Prop) s :
  Q (Normal tt (mkState ((n, v) :: vars s) (stdout s))) -> wp (assign n v) Q s.
Proof. exact (fun H => H). Qed.

Lemma wp_emit (ev : event) (Q : outcome L unit -> Prop) s :
  Q (Normal tt (mkState (vars s) (ev :: stdout s))) -> wp (emit ev) Q s.
Proof. exact (fun H => H). Qed.

Lemma wp_plot (file : string) (Q : outcome L unit -> Prop) s :
  match figure L file with
  | Some e => Q (Raised e s)
  | None => Q (Normal tt (mkState (vars s) (Saved file :: stdout s)))
  end ->
  wp (plot L file) Q s.
Proof. unfold wp, plot. now destruct (figure L file). Qed.

Lemma wp_explore (method : string) (d : DataFrame) (Q : outcome L unit -> Prop) s :
  match explore L method d with
  | Some e => Q (Raised e s)
  | None => Q (Normal tt s)
  end ->
  wp (call_explore L method d) Q s.
Proof. unfold wp, call_explore. now destruct (explore L method d). Qed.

End WP.

Ltac wp_simpl :=
  cbn [lookup vars stdout String.eqb Ascii.eqb Bool.eqb andb fst snd after handled
       final_state].

(** One statement of the script; a call that can raise splits the goal. *)
Ltac wp_statement :=
  lazymatch goal with
  | |- wp (bind _ _) _ _ => apply wp_bind
  | |- wp (try_except _ _) _ _ => apply wp_try
  | |- wp (ret _) _ _ => apply wp_ret
  | |- wp (raise _) _ _ => apply wp_raise
  | |- wp exit_ _ _ => apply wp_exit
  | |- wp (assign _ _) _ _ => apply wp_assign
  | |- wp (emit _) _ _ => apply wp_emit
  | |- wp (say _) _ _ => apply wp_emit
  | |- wp (plot ?L ?f) _ _ => apply wp_plot; destruct (figure L f) eqn:?
  | |- wp (call_explore ?L ?m ?d) _ _ =>
      apply wp_explore; destruct (explore L m d) eqn:?
  | |- wp (lift ?r) _ _ => apply wp_lift; destruct r eqn:?
  | |- wp (get_as _ ?p ?n) _ ?s =>
      apply wp_get_as; wp_simpl;
      lazymatch goal with
      | |- match lookup ?n' (vars ?s') with _ => _ end =>
          let v := fresh "v" in
          let E := fresh "Hlk" in
          destruct (lookup n' (vars s')) as [v|] eqn:E;
          [ try (match goal with
                 | H : lookup n' (vars s') = None |- _ =>
                     rewrite H in E; discriminate E
                 | H : lookup n' (vars s') = Some _ |- _ =>
                     rewrite H in E; injection E as E; subst v
                 end);
            cbn [as_frame as_matrix as_vector as_float as_scaler as_linear
                 as_forest as_grid as_search as_dict as_table];
            try (lazymatch goal with
                 | |- match p ?w with _ => _ end =>
                     let E2 := fresh "Hkind" in
                     destruct (p w) eqn:E2;
                     try (match goal with
                          | H : p w = Some _ |- _ =>
                              rewrite H in E2;
                              first [discriminate E2 | injection E2 as E2; subst]
                          end)
                 end)
          | try (match goal with
                 | H : lookup n' (vars s') = Some _ |- _ =>
                     rewrite H in E; discriminate E
                 end) ]
      | |- _ => cbn [as_frame as_matrix as_vector as_float as_scaler as_linear
                     as_forest as_grid as_search as_dict as_table]
      end
  | |- wp (match ?e with FileNotFoundError => _ | _ => _ end) _ _ => destruct e
  | |- wp (evaluate _ _ _ _ _) _ _ => unfold evaluate
  | |- wp (get_frame _ _) _ _ => unfold get_frame
  | |- wp (get_matrix _ _) _ _ => unfold get_matrix
  | |- wp (get_vector _ _) _ _ => unfold get_vector
  | |- wp (get_float _ _) _ _ => unfold get_float
  | |- wp (get_scaler _ _) _ _ => unfold get_scaler
  | |- wp (get_linear _ _) _ _ => unfold get_linear
  | |- wp (get_forest _ _) _ _ => unfold get_forest
  | |- wp (get_grid _ _) _ _ => unfold get_grid
  | |- wp (get_search _ _) _ _ => unfold get_search
  | |- wp (get_dict _ _) _ _ => unfold get_dict
  | |- wp (get_table _ _) _ _ => unfold get_table
  end.

Ltac wp_exec := repeat (wp_simpl; wp_statement); wp_simpl.

Ltac fresh_facts H :=
  unfold fresh in H; cbn [forallb] in H;
  repeat (let H' := fresh "Hf" in apply andb_prop in H as [H' H];
          apply negb_true_iff in H').

Ltac frame_leaf :=
  unfold unchanged; cbn [final_state vars lookup];
  repeat match goal with
         | H : String.eqb ?a ?n = false |- context [String.eqb ?a ?n] => rewrite H
         end;
  reflexivity.

Ltac subseq_tac :=
  repeat first [ apply subseq_nil | apply subseq_take | apply subseq_skip ].

Ltac split_out l base :=
  lazymatch l with
  | base => constr:(@nil event)
  | ?e :: ?l' => let r := split_out l' base in constr:(e :: r)
  end.

Ltac emits_leaf :=
  unfold emits; cbn [final_state stdout];
  lazymatch goal with
  | |- exists new, ?l = new ++ stdout ?s /\ _ =>
      let n := split_out l (stdout s) in exists n
  end;
  split; [reflexivity|];
  split; [cbn [rev app marks mark]; subseq_tac
         | repeat constructor; cbn [ok_event table_names map fst]; auto].

Section StepLemmas.

Context (L : Lib).

(** *** No step rebinds a name outside its own list *)

Lemma step1_frame (n : string) (s : state L) :
  fresh assigned1 n = true -> wp (step1 L) (unchanged n s) s.
Proof. intros H. fresh_facts H. unfold step1, step1_body. wp_exec. all: frame_leaf. Qed.

Lemma step2_frame (n : string) (s : state L) : wp (step2 L) (unchanged n s) s.
Proof. unfold step2, step2_body. wp_exec. all: frame_leaf. Qed.

Lemma step3_frame (n : string) (s : state L) :
  fresh assigned3 n = true -> wp (step3 L) (unchanged n s) s.
Proof. intros H. fresh_facts H. unfold step3, step3_body. wp_exec. all: frame_leaf. Qed.

Lemma step4_frame (n : string) (s : state L) :
  fresh assigned4 n = true -> wp (step4 L) (unchanged n s) s.
Proof. intros H. fresh_facts H. unfold step4, step4_body. wp_exec. all: frame_leaf. Qed.

Lemma step5_frame (n : string) (s : state L) :
  fresh assigned5 n = true -> wp (step5 L) (unchanged n s) s.
Proof. intros H. fresh_facts H. unfold step5, step5_body. wp_exec. all: frame_leaf. Qed.

Lemma step6_frame (n : string) (s : state L) :
  fresh assigned6 n = true -> wp (step6 L) (unchanged n s) s.
Proof. intros H. fresh_facts H. unfold step6, step6_body. wp_exec. all: frame_leaf. Qed.

Lemma step7_frame (n : string) (s : state L) :
  fresh assigned7 n = true -> wp (step7 L) (unchanged n s) s.
Proof. intros H. fresh_facts H. unfold step7, step7_body. wp_exec. all: frame_leaf. Qed.

Lemma step8_frame (n : string) (s : state L) : wp (step8 L) (unchanged n s) s.
Proof. unfold step8. wp_exec. all: frame_leaf. Qed.

(** *** Which steps can end the run *)

Lemma step1_not_raised (s : state L) : wp (step1 L) not_raised s.
Proof. unfold step1, step1_body. wp_exec. all: exact I. Qed.

Lemma step3_not_raised (s : state L) : wp (step3 L) not_raised s.
Proof. unfold step3, step3_body. wp_exec. all: exact I. Qed.

Lemma step2_normal (s : state L) : wp (step2 L) is_normal s.
Proof. unfold step2, step2_body. wp_exec. all: unfold is_normal; eauto. Qed.

Lemma step4_normal (s : state L) : wp (step4 L) is_normal s.
Proof. unfold step4, step4_body. wp_exec. all: unfold is_normal; eauto. Qed.

Lemma step5_normal (s : state L) : wp (step5 L) is_normal s.
Proof. unfold step5, step5_body. wp_exec. all: unfold is_normal; eauto. Qed.

Lemma step6_normal (s : state L) : wp (step6 L) is_normal s.
Proof. unfold step6, step6_body. wp_exec. all: unfold is_normal; eauto. Qed.

Lemma step7_normal (s : state L) : wp (step7 L) is_normal s.
Proof. unfold step7, step7_body. wp_exec. all: unfold is_normal; eauto. Qed.

Lemma step8_normal (s : state L) : wp (step8 L) is_normal s.
Proof. unfold step8. wp_exec. all: unfold is_normal; eauto. Qed.

(** *** What each step shows *)

Lemma step1_emits (s : state L) : wp (step1 L) (emits marks1 s) s.
Proof. unfold step1, step1_body. wp_exec. all: emits_leaf. Qed.

Lemma step2_emits (s : state L) : wp (step2 L) (emits marks2 s) s.
Proof. unfold step2, step2_body. wp_exec. all: emits_leaf. Qed.

Lemma step3_emits (s : state L) : wp (step3 L) (emits marks3 s) s.
Proof. unfold step3, step3_body. wp_exec. all: emits_leaf. Qed.

Lemma step4_emits (s : state L) : wp (step4 L) (emits marks4 s) s.
Proof. unfold step4, step4_body. wp_exec. all: emits_leaf. Qed.

Lemma step5_emits (s : state L) : wp (step5 L) (emits marks5 s) s.
Proof. unfold step5, step5_body. wp_exec. all: emits_leaf. Qed.

Lemma step6_emits (s : state L) : wp (step6 L) (emits marks6 s) s.
Proof. unfold step6, step6_body. wp_exec. all: emits_leaf. Qed.

Lemma step7_emits (s : state L) : wp (step7 L) (emits marks7 s) s.
Proof. unfold step7, step7_body. wp_exec. all: emits_leaf. Qed.

Lemma step8_emits (s : state L) : wp (step8 L) (emits marks8 s) s.
Proof. unfold step8. wp_exec. all: emits_leaf. Qed.

End StepLemmas.

(** ** What the three modelling steps bind *)

Ltac unbound_facts H :=
  unfold unbound in H;
  repeat match type of H with
         | Forall _ (_ :: _) =>
             let H1 := fresh "Hu" in
             apply Forall_cons_iff in H as [H1 H]
         end.

(** Which kind of object a successful typed read has found. *)
Ltac kinds :=
  repeat match goal with
         | H : ?p ?v = Some _ |- _ =>
             is_var v;
             lazymatch type of v with value _ => idtac end;
             destruct v; cbn in H; try discriminate H
         | H : ?p ?v = None |- _ =>
             is_var v;
             lazymatch type of v with value _ => idtac end;
             destruct v; cbn in H; try discriminate H
         end.

Ltac tidy :=
  repeat match goal with
         | p : (_ * _)%type |- _ => destruct p
         end;
  repeat (cbn [fst snd as_frame as_matrix as_vector as_float as_scaler as_linear
               as_forest as_grid as_search as_dict as_table] in *;
          match goal with
          | H : Some _ = Some _ |- _ => injection H as H; try subst
          | H : inr _ = inr _ |- _ => injection H as H; try subst
          | H : (_, _) = (_, _) |- _ => injection H as ? ?; try subst
          | H : Some _ = None |- _ => discriminate H
          | H : None = Some _ |- _ => discriminate H
          | H : VFrame _ = _ |- _ => first [discriminate H | injection H as H; try subst]
          | H : VMatrix _ = _ |- _ => first [discriminate H | injection H as H; try subst]
          | H : VVector _ = _ |- _ => first [discriminate H | injection H as H; try subst]
          | H : VFloat _ = _ |- _ => first [discriminate H | injection H as H; try subst]
          | H : VLinear _ = _ |- _ => first [discriminate H | injection H as H; try subst]
          | H : VForest _ _ = _ |- _ =>
              first [discriminate H | injection H as ? ?; try subst]
          | H : VSearch _ _ = _ |- _ =>
              first [discriminate H | injection H as ? ?; try subst]
          | H : VDict _ = _ |- _ => first [discriminate H | injection H as H; try subst]
          | H : ?x = Some _, H' : ?x = Some _ |- _ => rewrite H in H'
          | H : ?x = None, H' : ?x = Some _ |- _ => rewrite H in H'; discriminate H'
          | H : ?x = inr _, H' : ?x = inr _ |- _ => rewrite H in H'
          | H : ?x = inl _, H' : ?x = inr _ |- _ => rewrite H in H'; discriminate H'
          end).

Ltac facts_solve :=
  tidy;
  lazymatch goal with
  | |- _ /\ _ => split; facts_solve
  | |- forall _, _ => intro; facts_solve
  | |- exists _, _ => eexists; facts_solve
  | |- _ => first [ reflexivity | eassumption | congruence | idtac ]
  end.

Ltac facts_leaf := wp_simpl; intros; kinds; facts_solve.

Section StepFacts.

Context (L : Lib).

Lemma step4_facts (s : state L) (Xs : matrix) (ys : vector) (Xt : matrix) (yt : vector) :
  prepared L Xs ys Xt yt s -> unbound L assigned4 s ->
  wp (step4 L) (fun o => lr_facts L Xs ys Xt yt (final_state L o)) s.
Proof.
  intros (H1 & H2 & H3 & H4) Hu. unfold assigned4 in Hu. unbound_facts Hu.
  unfold step4, step4_body. wp_exec.
  all: unfold lr_facts, scored; facts_leaf.
Qed.

Lemma default_forest : RandomForestRegressor [("n_estimators", PInt 100)] (PInt 42)
                       = inr base_forest.
Proof. reflexivity. Qed.

Lemma search_base_forest : RandomForestRegressor [] (PInt 42) = inr base_forest.
Proof. reflexivity. Qed.

Lemma step5_facts (s : state L) (Xs : matrix) (ys : vector) (Xt : matrix) (yt : vector) :
  prepared L Xs ys Xt yt s -> unbound L assigned5 s ->
  wp (step5 L) (fun o => rf_facts L Xs ys Xt yt (final_state L o)) s.
Proof.
  intros (H1 & H2 & H3 & H4) Hu. unfold assigned5 in Hu. unbound_facts Hu.
  unfold step5, step5_body. rewrite default_forest. wp_exec.
  all: unfold rf_facts, scored; facts_leaf.
Qed.

Lemma step6_facts (s : state L) (Xs : matrix) (ys : vector) (Xt : matrix) (yt : vector) :
  prepared L Xs ys Xt yt s -> unbound L assigned6 s ->
  wp (step6 L) (fun o => opt_facts L Xs ys Xt yt (final_state L o)) s.
Proof.
  intros (H1 & H2 & H3 & H4) Hu. unfold assigned6 in Hu. unbound_facts Hu.
  unfold step6, step6_body. rewrite search_base_forest. wp_exec.
  all: unfold opt_facts, scored; facts_leaf.
Qed.

(** *** Step 3: where the prepared data come from *)

Lemma step3_scaler (s : state L) :
  unbound L assigned3 s -> wp (step3 L) (fun o => scaler_facts L (final_state L o)) s.
Proof.
  intros Hu. unfold assigned3 in Hu. unbound_facts Hu.
  unfold step3, step3_body. wp_exec.
  all: unfold scaler_facts, scaler_after_fit; wp_simpl; intros; kinds; tidy.
  all: eexists; split; [reflexivity|].
  all: repeat match goal with
              | H : StandardScaler_fit_transform _ _ = _ |- _ => rewrite H
              end; reflexivity.
Qed.

Lemma step3_split (s : state L) :
  unbound L assigned3 s -> wp (step3 L) (fun o => split_facts L (final_state L o)) s.
Proof.
  intros Hu. unfold assigned3 in Hu. unbound_facts Hu.
  unfold step3, step3_body. wp_exec.
  all: unfold split_facts; facts_leaf.
Qed.

End StepFacts.

(** ** The assignment history *)

Ltac split_vars l base :=
  lazymatch l with
  | base => uconstr:(nil)
  | ?e :: ?l' => let r := split_vars l' base in uconstr:(e :: r)
  end.

Ltac binds_leaf :=
  unfold binds; cbn [final_state vars];
  lazymatch goal with
  | |- exists new, ?l = new ++ vars ?s /\ _ =>
      let n := split_vars l (vars s) in exists n
  end;
  split; [reflexivity|];
  cbn [rev app map fst]; subseq_tac.

Section StepBinds.

Context (L : Lib).

Lemma step1_binds (s : state L) : wp (step1 L) (binds assigns1 s) s.
Proof. unfold step1, step1_body. wp_exec. all: binds_leaf. Qed.

Lemma step2_binds (s : state L) : wp (step2 L) (binds [] s) s.
Proof. unfold step2, step2_body. wp_exec. all: binds_leaf. Qed.

Lemma step3_binds (s : state L) : wp (step3 L) (binds assigns3 s) s.
Proof. unfold step3, step3_body. wp_exec. all: binds_leaf. Qed.

Lemma step4_binds (s : state L) : wp (step4 L) (binds assigns4 s) s.
Proof. unfold step4, step4_body. wp_exec. all: binds_leaf. Qed.

Lemma step5_binds (s : state L) : wp (step5 L) (binds assigns5 s) s.
Proof. unfold step5, step5_body. wp_exec. all: binds_leaf. Qed.

Lemma step6_binds (s : state L) : wp (step6 L) (binds assigns6 s) s.
Proof. unfold step6, step6_body. wp_exec. all: binds_leaf. Qed.

Lemma step7_binds (s : state L) : wp (step7 L) (binds assigns7 s) s.
Proof. unfold step7, step7_body. wp_exec. all: binds_leaf. Qed.

Lemma step8_binds (s : state L) : wp (step8 L) (binds [] s) s.
Proof. unfold step8. wp_exec. all: binds_leaf. Qed.

End StepBinds.

(** ** From the steps to the whole run *)

(** Turn [agree] on a literal list of names into one equation per name. *)
Ltac agree_eqs H :=
  unfold agree in H;
  repeat match type of H with
         | forall n, In n (?a :: ?l) -> _ =>
             let E := fresh "Eq" in
             pose proof (H a (or_introl eq_refl)) as E;
             assert (forall n, In n l -> _) as H'
               by (intros ? Hin; apply H; right; exact Hin);
             clear H; rename H' into H
         end;
  clear H.

Section Run.

Context (L : Lib).

Lemma normal_final (o : outcome L unit) : is_normal o -> o = Normal tt (final_state L o).
Proof. intros (s' & ->). reflexivity. Qed.

(** A run stops at step 1, stops at step 3, or goes through all eight
    steps. *)
Lemma run_cases :
  (step1 L (s0 L) = SystemExit (st1 L) /\ run L = SystemExit (st1 L)) \/
  (step1 L (s0 L) = Normal tt (st1 L) /\ step3 L (st2 L) = SystemExit (st3 L) /\ run L = SystemExit (st3 L)) \/
  (step1 L (s0 L) = Normal tt (st1 L) /\ step3 L (st2 L) = Normal tt (st3 L) /\ run L = Normal tt (st8 L)).
Proof.
  pose proof (normal_final _ (step2_normal L (st1 L))) as E2.
  pose proof (normal_final _ (step4_normal L (st3 L))) as E4.
  pose proof (normal_final _ (step5_normal L (st4 L))) as E5.
  pose proof (normal_final _ (step6_normal L (st5 L))) as E6.
  pose proof (normal_final _ (step7_normal L (st6 L))) as E7.
  pose proof (normal_final _ (step8_normal L (st7 L))) as E8.
  fold (st2 L) in E2. fold (st4 L) in E4. fold (st5 L) in E5. fold (st6 L) in E6.
  fold (st7 L) in E7. fold (st8 L) in E8.
  pose proof (step1_not_raised L (s0 L)) as N1.
  pose proof (step3_not_raised L (st2 L)) as N3.
  unfold wp in N1, N3. unfold run, script, bind. fold (s0 L).
  unfold st3 in *. unfold st2 in *. unfold st1 in *.
  destruct (step1 L (s0 L)) as [[] s1|e s1|s1]; cbn [final_state] in *.
  - rewrite E2. destruct (step3 L _) as [[] s3|e s3|s3]; cbn [final_state] in *.
    + right. right. rewrite E4, E5, E6, E7. auto.
    + contradiction.
    + right. left. auto.
  - contradiction.
  - left. auto.
Qed.

Lemma agree_refl (names : list string) (st : state L) : agree names st st.
Proof. intros n _. reflexivity. Qed.

Lemma agree_trans (names : list string) (a b c : state L) :
  agree names a b -> agree names b c -> agree names a c.
Proof. intros H1 H2 n Hn. rewrite (H2 n Hn). apply H1, Hn. Qed.

Lemma frame_agree (m : M L unit) (assigned names : list string) (s : state L) :
  (forall n, fresh assigned n = true -> wp m (unchanged n s) s) ->
  forallb (fresh assigned) names = true ->
  agree names s (final_state L (m s)).
Proof.
  intros Hm Hf n Hn. rewrite forallb_forall in Hf. exact (Hm n (Hf n Hn)).
Qed.

Lemma agree1 names : forallb (fresh assigned1) names = true -> agree names (s0 L) (st1 L).
Proof. apply frame_agree. intros; now apply step1_frame. Qed.

Lemma agree2 names : agree names (st1 L) (st2 L).
Proof. intros n _. apply step2_frame. Qed.

Lemma agree3 names : forallb (fresh assigned3) names = true -> agree names (st2 L) (st3 L).
Proof. apply frame_agree. intros; now apply step3_frame. Qed.

Lemma agree4 names : forallb (fresh assigned4) names = true -> agree names (st3 L) (st4 L).
Proof. apply frame_agree. intros; now apply step4_frame. Qed.

Lemma agree5 names : forallb (fresh assigned5) names = true -> agree names (st4 L) (st5 L).
Proof. apply frame_agree. intros; now apply step5_frame. Qed.

Lemma agree6 names : forallb (fresh assigned6) names = true -> agree names (st5 L) (st6 L).
Proof. apply frame_agree. intros; now apply step6_frame. Qed.

Lemma agree7 names : forallb (fresh assigned7) names = true -> agree names (st6 L) (st7 L).
Proof. apply frame_agree. intros; now apply step7_frame. Qed.

Lemma agree8 names : agree names (st7 L) (st8 L).
Proof. intros n _. apply step8_frame. Qed.

Lemma unbound_of_agree (names : list string) (st : state L) :
  agree names (s0 L) st -> unbound L names st.
Proof.
  intros H. apply Forall_forall. intros n Hn. rewrite (H n Hn). reflexivity.
Qed.

End Run.

Ltac agree_tac :=
  lazymatch goal with
  | |- agree _ ?a ?a => apply agree_refl
  | |- agree _ (s0 _) (st1 _) => apply agree1; reflexivity
  | |- agree _ (st1 _) (st2 _) => apply agree2
  | |- agree _ (st2 _) (st3 _) => apply agree3; reflexivity
  | |- agree _ (st3 _) (st4 _) => apply agree4; reflexivity
  | |- agree _ (st4 _) (st5 _) => apply agree5; reflexivity
  | |- agree _ (st5 _) (st6 _) => apply agree6; reflexivity
  | |- agree _ (st6 _) (st7 _) => apply agree7; reflexivity
  | |- agree _ (st7 _) (st8 _) => apply agree8
  | |- agree _ (s0 ?L) _ => apply (agree_trans L _ _ (st1 L)); [agree_tac|agree_tac]
  | |- agree _ (st1 ?L) _ => apply (agree_trans L _ _ (st2 L)); [agree_tac|agree_tac]
  | |- agree _ (st2 ?L) _ => apply (agree_trans L _ _ (st3 L)); [agree_tac|agree_tac]
  | |- agree _ (st3 ?L) _ => apply (agree_trans L _ _ (st4 L)); [agree_tac|agree_tac]
  | |- agree _ (st4 ?L) _ => apply (agree_trans L _ _ (st5 L)); [agree_tac|agree_tac]
  | |- agree _ (st5 ?L) _ => apply (agree_trans L _ _ (st6 L)); [agree_tac|agree_tac]
  | |- agree _ (st6 ?L) _ => apply (agree_trans L _ _ (st7 L)); [agree_tac|agree_tac]
  end.

Section RunFacts.

Context (L : Lib).

Lemma step7_table (s : state L) :
  wp (step7 L)
     (fun o => forall t, In (SayTable t) (stdout (final_state L o)) ->
                         In (SayTable t) (stdout s) \/ table_facts L t (final_state L o)) s.
Proof.
  unfold step7, step7_body. wp_exec.
  all: intros t Hin; cbn [In] in Hin;
    repeat (destruct Hin as [Hin|Hin]; [try discriminate Hin|]);
    try (left; exact Hin).
  all: injection Hin as <-; right; unfold table_facts; wp_simpl; kinds; tidy;
    repeat eexists; eauto.
Qed.

Lemma prepared_agree Xs ys Xt yt (st st' : state L) :
  agree protected st st' ->
  prepared L Xs ys Xt yt st <-> prepared L Xs ys Xt yt st'.
Proof.
  intros H. unfold protected in H. agree_eqs H.
  unfold prepared. rewrite Eq, Eq0, Eq1, Eq2. tauto.
Qed.

Lemma lr_facts_agree Xs ys Xt yt (st st' : state L) :
  agree assigned4 st st' ->
  lr_facts L Xs ys Xt yt st -> lr_facts L Xs ys Xt yt st'.
Proof.
  intros H. unfold assigned4 in H. agree_eqs H.
  unfold lr_facts, scored. rewrite Eq, Eq0, Eq1, Eq2. tauto.
Qed.

Lemma rf_facts_agree Xs ys Xt yt (st st' : state L) :
  agree assigned5 st st' ->
  rf_facts L Xs ys Xt yt st -> rf_facts L Xs ys Xt yt st'.
Proof.
  intros H. unfold assigned5 in H. agree_eqs H.
  unfold rf_facts, scored. rewrite Eq, Eq0, Eq1, Eq2. tauto.
Qed.

Lemma opt_facts_agree Xs ys Xt yt (st st' : state L) :
  agree assigned6 st st' ->
  opt_facts L Xs ys Xt yt st -> opt_facts L Xs ys Xt yt st'.
Proof.
  intros H. unfold assigned6 in H. agree_eqs H.
  unfold opt_facts, scored. rewrite Eq0, Eq1, Eq2, Eq3, Eq4, Eq5. tauto.
Qed.

Lemma split_facts_agree (st st' : state L) :
  agree ("data" :: assigned3) st st' -> split_facts L st -> split_facts L st'.
Proof.
  intros H. unfold assigned3 in H. agree_eqs H.
  unfold split_facts. rewrite Eq, Eq2, Eq3, Eq4, Eq5, Eq6, Eq7, Eq8. tauto.
Qed.

Lemma scaler_facts_agree (st st' : state L) :
  agree ["X_train"; "scaler"] st st' -> scaler_facts L st -> scaler_facts L st'.
Proof.
  intros H. agree_eqs H. unfold scaler_facts. rewrite Eq, Eq0. tauto.
Qed.

Lemma lr_facts_unbound Xs ys Xt yt (st : state L) :
  unbound L assigned4 st -> lr_facts L Xs ys Xt yt st.
Proof.
  intros Hu. unfold assigned4 in Hu. unbound_facts Hu.
  unfold lr_facts, scored. facts_solve.
Qed.

Lemma rf_facts_unbound Xs ys Xt yt (st : state L) :
  unbound L assigned5 st -> rf_facts L Xs ys Xt yt st.
Proof.
  intros Hu. unfold assigned5 in Hu. unbound_facts Hu.
  unfold rf_facts, scored. facts_solve.
Qed.

Lemma opt_facts_unbound Xs ys Xt yt (st : state L) :
  unbound L assigned6 st -> opt_facts L Xs ys Xt yt st.
Proof.
  intros Hu. unfold assigned6 in Hu. unbound_facts Hu.
  unfold opt_facts, scored. facts_solve.
Qed.

Lemma model_facts_st1 : model_facts L (st1 L).
Proof.
  intros Xs ys Xt yt _. split; [|split].
  - apply lr_facts_unbound, unbound_of_agree. agree_tac.
  - apply rf_facts_unbound, unbound_of_agree. agree_tac.
  - apply opt_facts_unbound, unbound_of_agree. agree_tac.
Qed.

Lemma model_facts_st3 : model_facts L (st3 L).
Proof.
  intros Xs ys Xt yt _. split; [|split].
  - apply lr_facts_unbound, unbound_of_agree. agree_tac.
  - apply rf_facts_unbound, unbound_of_agree. agree_tac.
  - apply opt_facts_unbound, unbound_of_agree. agree_tac.
Qed.

Lemma model_facts_st8 : model_facts L (st8 L).
Proof.
  intros Xs ys Xt yt Hp.
  assert (H3 : prepared L Xs ys Xt yt (st3 L)).
  { apply (prepared_agree Xs ys Xt yt (st3 L) (st8 L)); [agree_tac|exact Hp]. }
  assert (H4 : prepared L Xs ys Xt yt (st4 L)).
  { apply (prepared_agree Xs ys Xt yt (st3 L) (st4 L)); [agree_tac|exact H3]. }
  assert (H5 : prepared L Xs ys Xt yt (st5 L)).
  { apply (prepared_agree Xs ys Xt yt (st4 L) (st5 L)); [agree_tac|exact H4]. }
  split; [|split].
  - apply (lr_facts_agree Xs ys Xt yt (st4 L)); [agree_tac|].
    apply (step4_facts L (st3 L)); [exact H3|].
    apply unbound_of_agree. agree_tac.
  - apply (rf_facts_agree Xs ys Xt yt (st5 L)); [agree_tac|].
    apply (step5_facts L (st4 L)); [exact H4|].
    apply unbound_of_agree. agree_tac.
  - apply (opt_facts_agree Xs ys Xt yt (st6 L)); [agree_tac|].
    apply (step6_facts L (st5 L)); [exact H5|].
    apply unbound_of_agree. agree_tac.
Qed.

Lemma final_state_cases :
  final_state L (run L) = st1 L \/ final_state L (run L) = st3 L \/
  final_state L (run L) = st8 L.
Proof.
  destruct (run_cases L) as [(_ & ->)|[(_ & _ & ->)|(_ & _ & ->)]]; auto.
Qed.

Lemma run_model_facts : model_facts L (final_state L (run L)).
Proof.
  destruct final_state_cases as [->|[->| ->]].
  - apply model_facts_st1.
  - apply model_facts_st3.
  - apply model_facts_st8.
Qed.

End RunFacts.

(** ** Output and assignment history of a whole run *)

Lemma subseq_refl {A} (l : list A) : subseq l l.
Proof. induction l; constructor; assumption. Qed.

Lemma subseq_app {A} (a b c d : list A) :
  subseq a b -> subseq c d -> subseq (a ++ c) (b ++ d).
Proof.
  intros Hab Hcd. induction Hab as [l|x l l' _ IH|x l l' _ IH]; simpl.
  - induction l as [|x l IHl]; simpl; [assumption|]. now apply subseq_skip.
  - now apply subseq_take.
  - now apply subseq_skip.
Qed.

Lemma subseq_app_l {A} (a b c : list A) : subseq a b -> subseq a (b ++ c).
Proof.
  intros H. rewrite <- (app_nil_r a). apply subseq_app; [assumption|constructor].
Qed.

Lemma subseq_In {A} (l l' : list A) (x : A) : subseq l l' -> In x l -> In x l'.
Proof.
  induction 1 as [l|y l l' _ IH|y l l' _ IH]; simpl; intros Hin.
  - contradiction.
  - destruct Hin; auto.
  - auto.
Qed.

Lemma subseq_count (l l' : list string) (n : string) :
  subseq l l' -> count_occ string_dec l n <= count_occ string_dec l' n.
Proof.
  induction 1 as [l|y l l' _ IH|y l l' _ IH]; simpl.
  - lia.
  - destruct (string_dec y n); lia.
  - destruct (string_dec y n); lia.
Qed.

Lemma marks_app (l l' : list event) : marks (l ++ l') = marks l ++ marks l'.
Proof.
  induction l as [|ev l IH]; simpl; [reflexivity|].
  destruct (mark ev); simpl; now rewrite IH.
Qed.

Lemma in_marks (l : list event) (ev : event) (m : string) :
  In ev l -> mark ev = Some m -> In m (marks l).
Proof.
  induction l as [|x l IH]; simpl; [tauto|].
  intros [->|Hin] Hm.
  - rewrite Hm. now left.
  - destruct (mark x); [right|]; auto.
Qed.

Section RunOutput.

Context (L : Lib).

Lemma emits_bind {A B} (m : M L A) (k : A -> M L B) (a b : list string) (s : state L) :
  wp m (emits a s) s ->
  (forall x s', wp (k x) (emits b s') s') ->
  wp (bind m k) (emits (a ++ b) s) s.
Proof.
  unfold wp, bind. intros (new1 & E1 & S1 & F1) Hk.
  destruct (m s) as [x s1|e s1|s1]; cbn [final_state] in *.
  - destruct (Hk x s1) as (new2 & E2 & S2 & F2).
    exists (new2 ++ new1). split; [|split].
    + rewrite E2, E1. apply app_assoc.
    + rewrite rev_app_distr, marks_app. now apply subseq_app.
    + apply Forall_app. auto.
  - exists new1. split; [assumption|]. split; [now apply subseq_app_l|assumption].
  - exists new1. split; [assumption|]. split; [now apply subseq_app_l|assumption].
Qed.

Lemma binds_bind {A B} (m : M L A) (k : A -> M L B) (a b : list string) (s : state L) :
  wp m (binds a s) s ->
  (forall x s', wp (k x) (binds b s') s') ->
  wp (bind m k) (binds (a ++ b) s) s.
Proof.
  unfold wp, bind. intros (new1 & E1 & S1) Hk.
  destruct (m s) as [x s1|e s1|s1]; cbn [final_state] in *.
  - destruct (Hk x s1) as (new2 & E2 & S2).
    exists (new2 ++ new1). split.
    + rewrite E2, E1. apply app_assoc.
    + rewrite map_app, rev_app_distr. now apply subseq_app.
  - exists new1. split; [assumption|now apply subseq_app_l].
  - exists new1. split; [assumption|now apply subseq_app_l].
Qed.

Lemma run_emits : emits all_marks (s0 L) (run L).
Proof.
  unfold run, script, all_marks. fold (s0 L).
  repeat (apply emits_bind; [|intros ? ?]).
  - apply step1_emits.
  - apply step2_emits.
  - apply step3_emits.
  - apply step4_emits.
  - apply step5_emits.
  - apply step6_emits.
  - apply step7_emits.
  - apply step8_emits.
Qed.

Lemma run_binds : binds all_assigns (s0 L) (run L).
Proof.
  change all_assigns with
    (assigns1 ++ [] ++ assigns3 ++ assigns4 ++ assigns5 ++ assigns6 ++ assigns7 ++ []).
  unfold run, script. fold (s0 L).
  repeat (apply binds_bind; [|intros ? ?]).
  - apply step1_binds.
  - apply step2_binds.
  - apply step3_binds.
  - apply step4_binds.
  - apply step5_binds.
  - apply step6_binds.
  - apply step7_binds.
  - apply step8_binds.
Qed.

Lemma emits_mark {A} (allowed : list string) (s : state L) (o : outcome L A)
  (ev : event) (m : string) :
  emits allowed s o -> In ev (stdout (final_state L o)) -> mark ev = Some m ->
  In ev (stdout s) \/ In m allowed.
Proof.
  intros (new & E & S & _) Hin Hm. rewrite E in Hin.
  apply in_app_or in Hin as [Hin|Hin]; [right|now left].
  apply (subseq_In _ _ _ S). apply (in_marks _ ev); [|assumption].
  now apply in_rev in Hin.
Qed.

Lemma no_table_step {A} (allowed : list string) (s : state L) (o : outcome L A) :
  emits allowed s o -> ~ In "results table" allowed -> no_table L s ->
  no_table L (final_state L o).
Proof.
  intros He Hn Hs t Hin.
  destruct (emits_mark allowed s o (SayTable t) "results table" He Hin eq_refl); auto.
  exact (Hs t H).
Qed.

Ltac not_in_marks :=
  cbv; intros H;
  repeat (destruct H as [H|H]; [discriminate H|]); exact H.

Lemma no_table_st1 : no_table L (st1 L).
Proof.
  apply (no_table_step marks1 (s0 L)); [apply step1_emits|not_in_marks|].
  intros t [].
Qed.

Lemma no_table_st2 : no_table L (st2 L).
Proof.
  apply (no_table_step marks2 (st1 L)); [apply step2_emits|not_in_marks|].
  apply no_table_st1.
Qed.

Lemma no_table_st3 : no_table L (st3 L).
Proof.
  apply (no_table_step marks3 (st2 L)); [apply step3_emits|not_in_marks|].
  apply no_table_st2.
Qed.

Lemma no_table_st6 : no_table L (st6 L).
Proof.
  apply (no_table_step marks6 (st5 L)); [apply step6_emits|not_in_marks|].
  apply (no_table_step marks5 (st4 L)); [apply step5_emits|not_in_marks|].
  apply (no_table_step marks4 (st3 L)); [apply step4_emits|not_in_marks|].
  apply no_table_st3.
Qed.

Lemma table_facts_agree (t : table) (st st' : state L) :
  agree ("results" :: metric_names) st st' -> table_facts L t st -> table_facts L t st'.
Proof.
  intros H. unfold metric_names in H. agree_eqs H.
  unfold table_facts. rewrite Eq, Eq0, Eq1, Eq2, Eq3, Eq4, Eq5. tauto.
Qed.

(** A table is shown only by step 7, with all six metrics bound. *)
Lemma run_table (t : table) :
  In (SayTable t) (stdout (final_state L (run L))) ->
  table_facts L t (final_state L (run L)).
Proof.
  destruct (final_state_cases L) as [->|[->| ->]]; intros Hin.
  - destruct (no_table_st1 t Hin).
  - destruct (no_table_st3 t Hin).
  - apply (table_facts_agree t (st7 L)); [agree_tac|].
    assert (Hin7 : In (SayTable t) (stdout (st7 L))).
    { destruct (emits_mark marks8 (st7 L) (step8 L (st7 L)) (SayTable t)
                  "results table" (step8_emits L (st7 L)) Hin eq_refl) as [H|H];
        [exact H|].
      exfalso. revert H. not_in_marks. }
    destruct (step7_table L (st6 L) t Hin7) as [H|H]; [|exact H].
    destruct (no_table_st6 t H).
Qed.

End RunOutput.

Section RunPreparation.

Context (L : Lib).

Lemma scaler_facts_st3 : scaler_facts L (st3 L).
Proof. apply (step3_scaler L (st2 L)), unbound_of_agree. agree_tac. Qed.

Lemma split_facts_st3 : split_facts L (st3 L).
Proof. apply (step3_split L (st2 L)), unbound_of_agree. agree_tac. Qed.

Lemma run_scaler_facts : scaler_facts L (final_state L (run L)).
Proof.
  destruct (final_state_cases L) as [->|[->| ->]].
  - assert (Hu : unbound L ["X_train"] (st1 L)) by (apply unbound_of_agree; agree_tac).
    unbound_facts Hu. intros v Hv. congruence.
  - apply scaler_facts_st3.
  - apply (scaler_facts_agree L (st3 L)); [agree_tac|apply scaler_facts_st3].
Qed.

Lemma run_split_facts : split_facts L (final_state L (run L)).
Proof.
  destruct (final_state_cases L) as [->|[->| ->]].
  - assert (Hu : unbound L ["X_train_scaled"; "X_test_scaled"] (st1 L))
      by (apply unbound_of_agree; agree_tac).
    unbound_facts Hu. split; intros v Hv; congruence.
  - apply split_facts_st3.
  - apply (split_facts_agree L (st3 L)); [agree_tac|apply split_facts_st3].
Qed.

End RunPreparation.

(** ** The constructor and [set_params] agree *)

Lemma set_params_app (p : rf_params) (d d' : dict) :
  set_params p (d ++ d') =
  match set_params p d with
  | inl e => inl e
  | inr p' => set_params p' d'
  end.
Proof.
  revert p. induction d as [|[k v] d IH]; intros p; simpl; [reflexivity|].
  destruct (assign_param p k v); [apply IH|reflexivity].
Qed.

Lemma assign_param_random_state (p : rf_params) (k : string) (v seed : pyval) :
  String.eqb k "random_state" = false ->
  assign_param (with_random_state seed p) k v =
  option_map (with_random_state seed) (assign_param p k v).
Proof.
  intros Hk. unfold assign_param. rewrite Hk.
  repeat match goal with
         | |- context [String.eqb k ?s] => destruct (String.eqb k s); [reflexivity|]
         end.
  reflexivity.
Qed.

Lemma set_params_random_state (p : rf_params) (d : dict) (seed : pyval) :
  has_key "random_state" d = false ->
  set_params (with_random_state seed p) d =
  match set_params p d with
  | inl e => inl e
  | inr p' => inr (with_random_state seed p')
  end.
Proof.
  revert p. induction d as [|[k v] d IH]; intros p; simpl; [reflexivity|].
  intros H. apply orb_false_elim in H as [Hk Hd].
  rewrite (assign_param_random_state p k v seed Hk).
  destruct (assign_param p k v) as [p'|]; simpl; [now apply IH|reflexivity].
Qed.

(** Building a forest from a dictionary and the seed 42 gives the estimator
    the search obtains by setting the same dictionary on its base forest. *)
Lemma constructor_matches_set_params (d : dict) (p est : rf_params) :
  RandomForestRegressor d (PInt 42) = inr p ->
  set_params base_forest d = inr est ->
  est = p.
Proof.
  unfold RandomForestRegressor. destruct (has_key "random_state" d) eqn:Hk; [discriminate|].
  rewrite set_params_app.
  change base_forest with (with_random_state (PInt 42) rf_defaults).
  rewrite (set_params_random_state rf_defaults d (PInt 42) Hk).
  destruct (set_params rf_defaults d) as [e|p']; [discriminate|].
  simpl. intros [= <-] [= <-]. reflexivity.
Qed.

(** ** Cross-validation folds are proper parts of the train set *)

Lemma list_sum_fold_sizes (q r a len : nat) :
  list_sum (map (fun i => q + (if i <? r then 1 else 0)) (seq a len)) =
  len * q + (Nat.min (a + len) r - Nat.min a r).
Proof.
  revert a. induction len as [|len IH]; intros a; simpl.
  - lia.
  - rewrite IH. destruct (Nat.ltb_spec a r); lia.
Qed.

Lemma fold_sizes_sum (n k : nat) : 0 < k -> list_sum (fold_sizes n k) = n.
Proof.
  intros Hk. unfold fold_sizes. rewrite list_sum_fold_sizes.
  pose proof (Nat.div_mod_eq n k). pose proof (Nat.mod_upper_bound n k ltac:(lia)).
  lia.
Qed.

Lemma fold_sizes_pos (n k sz : nat) : k <= n -> 0 < k -> In sz (fold_sizes n k) -> 1 <= sz.
Proof.
  intros Hkn Hk Hin. unfold fold_sizes in Hin. apply in_map_iff in Hin as (i & <- & _).
  assert (1 <= n / k) by (apply Nat.div_le_lower_bound; lia). lia.
Qed.

Lemma folds_from_proper (start : nat) (sizes : list nat) (n : nat) sp :
  (forall sz, In sz sizes -> 1 <= sz) ->
  start + list_sum sizes <= n ->
  In sp (folds_from start sizes n) ->
  length (fst sp) < n /\ length (fst sp) + length (snd sp) = n.
Proof.
  revert start. induction sizes as [|sz sizes IH]; intros start Hpos Hsum; simpl.
  - tauto.
  - simpl in Hsum. intros [<-|Hin].
    + simpl. rewrite length_app, !length_seq.
      pose proof (Hpos sz (or_introl eq_refl)). lia.
    + apply (IH (start + sz)); [|lia|exact Hin].
      intros z Hz. apply Hpos. now right.
Qed.

Lemma KFold_split_proper (k n : nat) splits sp :
  KFold_split k n = inr splits -> In sp splits ->
  length (fst sp) < n /\ length (fst sp) + length (snd sp) = n.
Proof.
  unfold KFold_split. destruct (Nat.ltb_spec k 2); [discriminate|].
  destruct (Nat.ltb_spec n k); [discriminate|]. intros [= <-] Hin.
  apply (folds_from_proper 0 (fold_sizes n k) n); [| |exact Hin].
  - intros sz Hsz. apply (fold_sizes_pos n k); [lia|lia|exact Hsz].
  - rewrite fold_sizes_sum; lia.
Qed.

(** ** A model variable is bound only by a run that got past preprocessing *)

Section Completed.

Context (L : Lib).

Lemma step3_prepared (s : state L) :
  wp (step3 L)
     (fun o => is_normal o ->
               exists Xs ys Xt yt, prepared L Xs ys Xt yt (final_state L o)) s.
Proof.
  unfold step3, step3_body. wp_exec.
  all: intros (s' & Hs'); try discriminate Hs'.
  unfold prepared. wp_simpl. repeat eexists.
Qed.

Lemma bound_completed (n : string) (v : value L) :
  In n model_names ->
  lookup n (vars (final_state L (run L))) = Some v ->
  final_state L (run L) = st8 L /\
  exists Xs ys Xt yt, prepared L Xs ys Xt yt (st8 L).
Proof.
  intros Hn Hv.
  destruct (run_cases L) as [(_ & E)|[(_ & _ & E)|(_ & E3 & E)]];
    rewrite E in *; cbn [final_state] in *.
  - assert (Ha : agree model_names (s0 L) (st1 L)) by agree_tac.
    rewrite (Ha n Hn) in Hv. discriminate Hv.
  - assert (Ha : agree model_names (s0 L) (st3 L)) by agree_tac.
    rewrite (Ha n Hn) in Hv. discriminate Hv.
  - split; [reflexivity|].
    pose proof (step3_prepared (st2 L)) as Hp. unfold wp in Hp.
    destruct Hp as (Xs & ys & Xt & yt & Hp).
    { rewrite E3. now exists (st3 L). }
    fold (st3 L) in Hp.
    exists Xs, ys, Xt, yt.
    apply (prepared_agree L Xs ys Xt yt (st3 L) (st8 L)); [agree_tac|exact Hp].
Qed.

Lemma lookup_in (n : string) (vs : list (string * value L)) (v : value L) :
  lookup n vs = Some v -> In n (map fst vs).
Proof.
  induction vs as [|[k x] vs IH]; simpl; [discriminate|].
  destruct (String.eqb k n) eqn:E; [|auto].
  intros _. left. now apply String.eqb_eq.
Qed.

(** Every name is bound at most as often as the script text assigns it. *)
Lemma run_history_count (n : string) :
  count_occ string_dec (map fst (vars (final_state L (run L)))) n
  <= count_occ string_dec all_assigns n.
Proof.
  destruct (run_binds L) as (new & E & S). rewrite E.
  cbn [s0 vars]. rewrite app_nil_r.
  pose proof (subseq_count _ _ n S) as Hc.
  rewrite count_occ_rev in Hc. exact Hc.
Qed.

End Completed.

(** ** Distinct marks *)

Lemma distinct_NoDup (l : list string) : distinct l = true -> NoDup l.
Proof.
  induction l as [|x l IH]; simpl; [constructor|].
  intros H. apply andb_prop in H as [Hx Hl]. constructor; [|auto].
  intros Hin. apply negb_true_iff in Hx.
  assert (existsb (String.eqb x) l = true); [|congruence].
  apply existsb_exists. exists x. split; [assumption|apply String.eqb_refl].
Qed.

Lemma subseq_NoDup {A} (l l' : list A) : subseq l l' -> NoDup l' -> NoDup l.
Proof.
  induction 1 as [l|x l l' Hs IH|x l l' Hs IH]; intros Hnd.
  - constructor.
  - inversion Hnd; subst. constructor; [|auto].
    intros Hin. eauto using subseq_In.
  - inversion Hnd; subst. auto.
Qed.

Lemma all_marks_NoDup : NoDup all_marks.
Proof. apply distinct_NoDup. vm_compute. reflexivity. Qed.

(** ** How a run can end *)

Section Endings.

Context (L : Lib).

Lemma step1_exit (s : state L) : wp (step1 L) exit_reported s.
Proof.
  unfold step1, step1_body. wp_exec.
  all: try exact I.
  all: eexists; split; [reflexivity|]; unfold abort_report; eauto.
Qed.

Lemma step3_exit (s : state L) : wp (step3 L) exit_reported s.
Proof.
  unfold step3, step3_body. wp_exec.
  all: try exact I.
  all: eexists; split; [reflexivity|]; unfold abort_report; eauto.
Qed.

Lemma step8_last (s : state L) :
  wp (step8 L) (fun o => hd_error (stdout (final_state L o)) = Some (Say last_line)) s.
Proof. unfold step8. wp_exec. reflexivity. Qed.

Lemma step7_missing (s : state L) (n : string) :
  In n metric_names -> lookup n (vars s) = None ->
  wp (step7 L)
     (fun o => exists e, evaluation_failed s e o /\
                         (e = TypeError "unexpected object" \/
                          exists n', In n' metric_names /\ lookup n' (vars s) = None /\
                                     e = NameError n')) s.
Proof.
  intros Hn Hnone. unfold metric_names in Hn. cbn [In] in Hn.
  repeat (destruct Hn as [<-|Hn]; [|]); try contradiction.
  all: unfold step7, step7_body; wp_exec.
  all: try congruence.
  all: eexists; split; [reflexivity|]; auto.
  all: right; eexists; split; [|split; [eassumption|reflexivity]];
    cbv [metric_names In]; tauto.
Qed.

Lemma marks_st1 (ev : event) (m : string) :
  In ev (stdout (st1 L)) -> mark ev = Some m -> In m marks1.
Proof.
  intros Hin Hm.
  destruct (emits_mark L marks1 (s0 L) _ ev m (step1_emits L (s0 L)) Hin Hm) as [[]|H].
  exact H.
Qed.

Lemma marks_st3 (ev : event) (m : string) :
  In ev (stdout (st3 L)) -> mark ev = Some m -> In m (marks1 ++ marks2 ++ marks3).
Proof.
  intros Hin Hm. rewrite !in_app_iff.
  destruct (emits_mark L marks3 (st2 L) _ ev m (step3_emits L (st2 L)) Hin Hm) as [H|H];
    [|auto].
  destruct (emits_mark L marks2 (st1 L) _ ev m (step2_emits L (st1 L)) H Hm) as [H'|H'];
    [|auto].
  left. now apply (marks_st1 ev).
Qed.

Lemma run_marks : subseq (marks (shown L (run L))) all_marks.
Proof.
  destruct (run_emits L) as (new & E & S & _). unfold shown. rewrite E.
  cbn [s0 stdout]. now rewrite app_nil_r.
Qed.

End Endings.

(** ** Shared steps of the proofs about a run *)

Ltac same_call :=
  repeat match goal with
         | H : Some _ = Some _ |- _ => injection H as H; subst
         | H : None = Some _ |- _ => discriminate H
         | H : Some _ = None |- _ => discriminate H
         | H : inl _ = inr _ |- _ => discriminate H
         | H : inr _ = inl _ |- _ => discriminate H
         | H : inr _ = inr _ |- _ => injection H as H; subst
         | H : as_frame _ _ = _ |- _ => progress cbn [as_frame] in H
         | H : as_vector _ _ = _ |- _ => progress cbn [as_vector] in H
         | H : as_scaler _ _ = _ |- _ => progress cbn [as_scaler] in H
         | H : as_matrix _ _ = _ |- _ => progress cbn [as_matrix] in H
         | H : as_float _ _ = _ |- _ => progress cbn [as_float] in H
         | H : as_table _ _ = _ |- _ => progress cbn [as_table] in H
         | H : context [fst (_, _)] |- _ => progress cbn [fst] in H
         | H : context [snd (_, _)] |- _ => progress cbn [snd] in H
         | H1 : ?t = inr _, H2 : ?t = _ |- _ => rewrite H1 in H2
         end.

Lemma extends_refl (L : Lib) (s : state L) : extends s s.
Proof. now exists []. Qed.

Lemma extends_trans (L : Lib) (a b c : state L) : extends a b -> extends b c -> extends a c.
Proof.
  intros (n1 & E1) (n2 & E2). exists (n2 ++ n1). now rewrite E2, E1, app_assoc.
Qed.

Lemma emits_extends (L : Lib) (allowed : list string) (s : state L) (o : outcome L unit) :
  emits allowed s o -> extends s (final_state L o).
Proof. intros (new & E & _). now exists new. Qed.

Lemma run_extends_st1 (L : Lib) : extends (st1 L) (final_state L (run L)).
Proof.
  pose proof (emits_extends L _ _ _ (step2_emits L (st1 L))) as E2.
  pose proof (emits_extends L _ _ _ (step3_emits L (st2 L))) as E3.
  pose proof (emits_extends L _ _ _ (step4_emits L (st3 L))) as E4.
  pose proof (emits_extends L _ _ _ (step5_emits L (st4 L))) as E5.
  pose proof (emits_extends L _ _ _ (step6_emits L (st5 L))) as E6.
  pose proof (emits_extends L _ _ _ (step7_emits L (st6 L))) as E7.
  pose proof (emits_extends L _ _ _ (step8_emits L (st7 L))) as E8.
  fold (st2 L) in E2. fold (st3 L) in E3. fold (st4 L) in E4. fold (st5 L) in E5.
  fold (st6 L) in E6. fold (st7 L) in E7. fold (st8 L) in E8.
  destruct (final_state_cases L) as [-> | [-> | ->]].
  - apply extends_refl.
  - exact (extends_trans L _ _ _ E2 E3).
  - repeat (eapply extends_trans; [eassumption|]). apply extends_refl.
Qed.


(** ** A stage that fails prints its message with the cause *)

Ltac normal_clash :=
  exfalso;
  repeat match goal with
         | H : _ /\ _ |- _ => destruct H
         | H : is_normal _ |- _ => destruct H
         end;
  congruence.

Ltac quiet_leaf :=
  let p := fresh "p" in
  let e := fresh "e" in
  let Hin := fresh "Hin" in
  intros p e Hin; cbn [In final_state stdout] in Hin;
  repeat (destruct Hin as [Hin|Hin]; [discriminate Hin|]);
  exact Hin.

Section Reports.

Context (L : Lib).

Lemma step1_body_quiet (s : state L) : wp (step1_body L) (quiet s) s.
Proof. unfold step1_body. wp_exec. all: quiet_leaf. Qed.

Lemma step2_body_quiet (s : state L) : wp (step2_body L) (quiet s) s.
Proof. unfold step2_body. wp_exec. all: quiet_leaf. Qed.

Lemma step3_body_quiet (s : state L) : wp (step3_body L) (quiet s) s.
Proof. unfold step3_body. wp_exec. all: quiet_leaf. Qed.

Lemma step4_body_quiet (s : state L) : wp (step4_body L) (quiet s) s.
Proof. unfold step4_body. wp_exec. all: quiet_leaf. Qed.

Lemma step5_body_quiet (s : state L) : wp (step5_body L) (quiet s) s.
Proof. unfold step5_body. wp_exec. all: quiet_leaf. Qed.

Lemma step6_body_quiet (s : state L) : wp (step6_body L) (quiet s) s.
Proof. unfold step6_body. wp_exec. all: quiet_leaf. Qed.

Lemma step7_body_quiet (s : state L) : wp (step7_body L) (quiet s) s.
Proof. unfold step7_body. wp_exec. all: quiet_leaf. Qed.

Lemma step8_quiet (s : state L) : wp (step8 L) (quiet s) s.
Proof. unfold step8. wp_exec. all: quiet_leaf. Qed.

Lemma stage_body_quiet (k : stage) (s : state L) : wp (stage_body L k) (quiet s) s.
Proof.
  destruct k; cbn [stage_body];
    [ apply step1_body_quiet | apply step2_body_quiet | apply step3_body_quiet
    | apply step4_body_quiet | apply step5_body_quiet | apply step6_body_quiet
    | apply step7_body_quiet ].
Qed.

(** A stage is its body followed, when the body raises, by the handler: the
    message with the cause, and [exit()] for an aborting stage. *)
Lemma stage_step_eq (k : stage) (s : state L) :
  stage_step L k s =
  match stage_body L k s with
  | Normal a s' => Normal a s'
  | Raised e s' => if aborting k then SystemExit (reported L k e s')
                   else Normal tt (reported L k e s')
  | SystemExit s' => SystemExit s'
  end.
Proof.
  destruct k; cbn [stage_step stage_body aborting];
    unfold step1, step2, step3, step4, step5, step6, step7, try_except;
    match goal with |- context [match ?b with _ => _ end] => destruct b as [a s'|e s'|s'] end;
    try reflexivity.
  destruct e; reflexivity.
Qed.

Lemma stage_report_cause (k : stage) (e0 e : exn) (p : string) :
  stage_report k e0 = SayError p e -> e0 = e.
Proof.
  destruct k; cbn [stage_report]; try (now intros [= _ ->]).
  destruct e0; cbn [loading_report]; try discriminate; now intros [= _ <-].
Qed.

(** An error message shown by a stage is the report of the exception its
    body raised. *)
Lemma stage_reports (k : stage) (s : state L) (p : string) (e : exn) :
  In (SayError p e) (stdout (final_state L (stage_step L k s))) ->
  In (SayError p e) (stdout s) \/
  exists s', stage_body L k s = Raised e s' /\ stage_report k e = SayError p e.
Proof.
  rewrite stage_step_eq. pose proof (stage_body_quiet k s) as Hq. unfold wp, quiet in Hq.
  destruct (stage_body L k s) as [a s'|e0 s'|s']; cbn [final_state] in *.
  - intros Hin. left. now apply Hq.
  - destruct (aborting k); cbn [final_state reported stdout In]; intros [Hhd|Htl].
    + right. exists s'. pose proof (stage_report_cause k e0 e p Hhd). subst e0. auto.
    + left. now apply Hq.
    + right. exists s'. pose proof (stage_report_cause k e0 e p Hhd). subst e0. auto.
    + left. now apply Hq.
  - intros Hin. left. now apply Hq.
Qed.

Lemma stage_end (k : stage) :
  final_state L (stage_step L k (stage_start L k)) =
  match k with
  | Loading => st1 L
  | Visualisation => st2 L
  | Preprocessing => st3 L
  | LinearRegression => st4 L
  | RandomForest => st5 L
  | Optimisation => st6 L
  | Evaluation => st7 L
  end.
Proof. destruct k; reflexivity. Qed.

(** Every error message a run shows is the report of a stage whose body
    raised that exception in the run. *)
Lemma run_reports (p : string) (e : exn) :
  In (SayError p e) (stdout (final_state L (run L))) ->
  exists k s', fails L k e s' /\ stage_report k e = SayError p e.
Proof.
  pose proof (stage_reports Loading (s0 L) p e) as R1.
  pose proof (stage_reports Visualisation (st1 L) p e) as R2.
  pose proof (stage_reports Preprocessing (st2 L) p e) as R3.
  pose proof (stage_reports LinearRegression (st3 L) p e) as R4.
  pose proof (stage_reports RandomForest (st4 L) p e) as R5.
  pose proof (stage_reports Optimisation (st5 L) p e) as R6.
  pose proof (stage_reports Evaluation (st6 L) p e) as R7.
  pose proof (step8_quiet (st7 L) p e) as R8.
  cbn [stage_step] in *.
  fold (st1 L) in R1. fold (st2 L) in R2. fold (st3 L) in R3. fold (st4 L) in R4.
  fold (st5 L) in R5. fold (st6 L) in R6. fold (st7 L) in R7. fold (st8 L) in R8.
  assert (C1 : In (SayError p e) (stdout (st1 L)) ->
               exists k s', fails L k e s' /\ stage_report k e = SayError p e).
  { intros H. destruct (R1 H) as [[]|(s' & Hb & Hr)].
    exists Loading, s'. split; [split; [exact I|exact Hb]|exact Hr]. }
  assert (C3 : is_normal (step1 L (s0 L)) -> In (SayError p e) (stdout (st3 L)) ->
               exists k s', fails L k e s' /\ stage_report k e = SayError p e).
  { intros N1 H. destruct (R3 H) as [H2|(s' & Hb & Hr)].
    - destruct (R2 H2) as [H1|(s' & Hb & Hr)]; [now apply C1|].
      exists Visualisation, s'. split; [split; [exact N1|exact Hb]|exact Hr].
    - exists Preprocessing, s'. split; [split; [exact N1|exact Hb]|exact Hr]. }
  destruct (run_cases L) as [(_ & E)|[(E1 & _ & E)|(E1 & E3 & E)]];
    rewrite E; cbn [final_state]; intros Hin.
  - now apply C1.
  - apply C3; [rewrite E1; now eexists|exact Hin].
  - assert (N1 : is_normal (step1 L (s0 L))) by (rewrite E1; now eexists).
    assert (N3 : is_normal (step3 L (st2 L))) by (rewrite E3; now eexists).
    specialize (R8 Hin).
    destruct (R7 R8) as [H6|(s' & Hb & Hr)];
      [|exists Evaluation, s'; split; [split; [split; assumption|exact Hb]|exact Hr]].
    destruct (R6 H6) as [H5|(s' & Hb & Hr)];
      [|exists Optimisation, s'; split; [split; [split; assumption|exact Hb]|exact Hr]].
    destruct (R5 H5) as [H4|(s' & Hb & Hr)];
      [|exists RandomForest, s'; split; [split; [split; assumption|exact Hb]|exact Hr]].
    destruct (R4 H4) as [H3|(s' & Hb & Hr)];
      [|exists LinearRegression, s'; split; [split; [split; assumption|exact Hb]|exact Hr]].
    now apply C3.
Qed.

(** The output of the state a reached stage leaves is kept to the end of
    the run. *)
Lemma run_extends_stage (k : stage) :
  reached L k -> extends (final_state L (stage_step L k (stage_start L k)))
                         (final_state L (run L)).
Proof.
  pose proof (emits_extends L _ _ _ (step2_emits L (st1 L))) as E2.
  pose proof (emits_extends L _ _ _ (step3_emits L (st2 L))) as E3.
  pose proof (emits_extends L _ _ _ (step4_emits L (st3 L))) as E4.
  pose proof (emits_extends L _ _ _ (step5_emits L (st4 L))) as E5.
  pose proof (emits_extends L _ _ _ (step6_emits L (st5 L))) as E6.
  pose proof (emits_extends L _ _ _ (step7_emits L (st6 L))) as E7.
  pose proof (emits_extends L _ _ _ (step8_emits L (st7 L))) as E8.
  fold (st2 L) in E2. fold (st3 L) in E3. fold (st4 L) in E4. fold (st5 L) in E5.
  fold (st6 L) in E6. fold (st7 L) in E7. fold (st8 L) in E8.
  intros Hr. rewrite stage_end.
  destruct (run_cases L) as [(E1 & E)|[(E1 & Ex3 & E)|(E1 & Ex3 & E)]];
    rewrite E; cbn [final_state].
  - destruct k; cbn [reached] in Hr; [apply extends_refl|..]; normal_clash.
  - destruct k; cbn [reached] in Hr;
      [ exact (extends_trans L _ _ _ E2 E3) | exact E3 | apply extends_refl | ..];
      normal_clash.
  - destruct k; repeat (first [apply extends_refl | eapply extends_trans; [eassumption|]]).
Qed.

(** What follows a failure: the message with the cause is shown after
    everything shown before, an aborting stage ends the run there, and any
    other stage hands over to the next step. *)
Lemma fails_shown (k : stage) (e : exn) (s' : state L) :
  fails L k e s' ->
  (exists later, shown L (run L) = rev (stdout s') ++ stage_report k e :: later) /\
  (aborting k = true -> run L = SystemExit (reported L k e s')) /\
  (aborting k = false ->
   stage_step L k (stage_start L k) = Normal tt (reported L k e s') /\
   (is_normal (step3 L (st2 L)) -> is_normal (run L))).
Proof.
  intros (Hr & Hb).
  pose proof (stage_step_eq k (stage_start L k)) as Hs. rewrite Hb in Hs.
  pose proof (run_extends_stage k Hr) as (new & Hnew). rewrite Hs in Hnew.
  assert (Hfin : final_state L (if aborting k then SystemExit (reported L k e s')
                                else Normal tt (reported L k e s')) = reported L k e s')
    by now destruct (aborting k).
  rewrite Hfin in Hnew. cbn [reported stdout] in Hnew.
  split; [|split].
  - exists (rev new). unfold shown. rewrite Hnew, rev_app_distr. cbn [rev].
    now rewrite <- app_assoc.
  - intros Ha. rewrite Ha in Hs.
    destruct (run_cases L) as [(E1 & E)|[(E1 & E3 & E)|(E1 & E3 & E)]].
    + destruct k; try discriminate Ha; cbn [stage_step stage_start reached] in *.
      * rewrite E. unfold st1. now rewrite Hs.
      * normal_clash.
    + destruct k; try discriminate Ha; cbn [stage_step stage_start] in *.
      * rewrite Hs in E1. discriminate E1.
      * rewrite E. unfold st3 at 1. now rewrite Hs.
    + destruct k; try discriminate Ha; cbn [stage_step stage_start] in *.
      * rewrite Hs in E1. discriminate E1.
      * rewrite Hs in E3. discriminate E3.
  - intros Ha. rewrite Ha in Hs. split; [exact Hs|]. intros (s3 & N3).
    destruct (run_cases L) as [(E1 & E)|[(E1 & E3 & E)|(E1 & E3 & E)]].
    + destruct k; try discriminate Ha; cbn [reached] in Hr; normal_clash.
    + rewrite E3 in N3. discriminate N3.
    + rewrite E. now eexists.
Qed.

End Reports.

(** ** Each modelling stage reports an error or completes *)

Ltac progress_leaf done :=
  same_call;
  first [ left; eexists; cbn [final_state stdout stage_report In]; left; reflexivity
        | right; unfold done; wp_simpl; repeat eexists;
          first [reflexivity | eassumption] ].

Section Progress.

Context (L : Lib).

Lemma step4_progress (s : state L) Xs ys Xt yt :
  prepared L Xs ys Xt yt s ->
  wp (step4 L)
     (fun o => reports L LinearRegression (final_state L o) \/
               lr_done L Xs ys Xt yt (final_state L o)) s.
Proof.
  intros (H1 & H2 & H3 & H4). unfold reports. unfold step4, step4_body. wp_exec.
  all: progress_leaf lr_done.
Qed.

Lemma step5_progress (s : state L) Xs ys Xt yt :
  prepared L Xs ys Xt yt s ->
  wp (step5 L)
     (fun o => reports L RandomForest (final_state L o) \/
               rf_done L Xs ys Xt yt (final_state L o)) s.
Proof.
  intros (H1 & H2 & H3 & H4). unfold reports. unfold step5, step5_body.
  rewrite default_forest. wp_exec.
  all: progress_leaf rf_done.
Qed.

Lemma step6_progress (s : state L) Xs ys Xt yt :
  prepared L Xs ys Xt yt s ->
  wp (step6 L)
     (fun o => reports L Optimisation (final_state L o) \/
               opt_done L Xs ys Xt yt (final_state L o)) s.
Proof.
  intros (H1 & H2 & H3 & H4). unfold reports. unfold step6, step6_body.
  rewrite search_base_forest. wp_exec.
  all: progress_leaf opt_done.
Qed.

End Progress.

Section RunProgress.

Context (L : Lib).

Lemma step3_exit_unprepared (s : state L) :
  lookup "X_test_scaled" (vars s) = None ->
  wp (step3 L)
     (fun o => ~ is_normal o -> lookup "X_test_scaled" (vars (final_state L o)) = None) s.
Proof.
  intros Hu. unfold step3, step3_body. wp_exec.
  all: try congruence.
  all: intros Hn; first [exfalso; apply Hn; eexists; reflexivity | wp_simpl; assumption].
Qed.

(** A run in which the four prepared objects are bound went through all the
    steps. *)
Lemma prepared_completed Xs ys Xt yt :
  prepared L Xs ys Xt yt (final_state L (run L)) ->
  run L = Normal tt (st8 L) /\ prepared L Xs ys Xt yt (st3 L).
Proof.
  intros Hp.
  assert (U1 : unbound L ["X_test_scaled"] (st1 L)) by (apply unbound_of_agree; agree_tac).
  assert (U2 : unbound L ["X_test_scaled"] (st2 L)) by (apply unbound_of_agree; agree_tac).
  unbound_facts U1. unbound_facts U2.
  destruct (run_cases L) as [(_ & E)|[(_ & E3 & E)|(_ & _ & E)]];
    rewrite E in Hp; cbn [final_state] in Hp.
  - destruct Hp as (_ & _ & H & _). congruence.
  - exfalso. pose proof (step3_exit_unprepared (st2 L)) as H3. unfold wp in H3.
    rewrite E3 in H3. cbn [final_state] in H3.
    destruct Hp as (_ & _ & H & _). rewrite H3 in H; [discriminate H|assumption|].
    intros (s' & Hs). discriminate Hs.
  - split; [exact E|].
    assert (Ha : agree protected (st3 L) (st8 L)) by agree_tac.
    now apply (prepared_agree L _ _ _ _ _ _ Ha).
Qed.

Lemma reports_extends (k : stage) (s s' : state L) :
  extends s s' -> reports L k s -> reports L k s'.
Proof.
  intros (new & E) (e & Hin). exists e. rewrite E. apply in_or_app. now right.
Qed.

Lemma lr_done_agree Xs ys Xt yt (st st' : state L) :
  agree assigned4 st st' -> lr_done L Xs ys Xt yt st -> lr_done L Xs ys Xt yt st'.
Proof.
  intros Ha (m & pred & a & d & H1 & F & H2 & P & H3 & M & H4 & R).
  exists m, pred, a, d.
  rewrite !Ha by (cbv; tauto). auto 10.
Qed.

Lemma rf_done_agree Xs ys Xt yt (st st' : state L) :
  agree assigned5 st st' -> rf_done L Xs ys Xt yt st -> rf_done L Xs ys Xt yt st'.
Proof.
  intros Ha (m & pred & a & d & H1 & F & H2 & P & H3 & M & H4 & R).
  exists m, pred, a, d.
  rewrite !Ha by (cbv; tauto). auto 10.
Qed.

Lemma opt_done_agree Xs ys Xt yt (st st' : state L) :
  agree assigned6 st st' -> opt_done L Xs ys Xt yt st -> opt_done L Xs ys Xt yt st'.
Proof.
  intros Ha (f & p & m & pred & a & d & H1 & S & H2 & C & H3 & F & H4 & P & H5 & M & H6 & R).
  exists f, p, m, pred, a, d.
  rewrite !Ha by (cbv; tauto). auto 15.
Qed.

(** In a run that prepared its data, each of the three modelling stages has
    reported an error or has fitted, predicted and scored its model on the
    prepared data. *)
Lemma run_progress Xs ys Xt yt :
  prepared L Xs ys Xt yt (final_state L (run L)) ->
  is_normal (run L) /\
  (reports L LinearRegression (final_state L (run L)) \/
   lr_done L Xs ys Xt yt (final_state L (run L))) /\
  (reports L RandomForest (final_state L (run L)) \/
   rf_done L Xs ys Xt yt (final_state L (run L))) /\
  (reports L Optimisation (final_state L (run L)) \/
   opt_done L Xs ys Xt yt (final_state L (run L))).
Proof.
  intros Hp. destruct (prepared_completed _ _ _ _ Hp) as (E & P3).
  assert (P4 : prepared L Xs ys Xt yt (st4 L)).
  { assert (Ha : agree protected (st3 L) (st4 L)) by agree_tac.
    now apply (prepared_agree L _ _ _ _ _ _ Ha). }
  assert (P5 : prepared L Xs ys Xt yt (st5 L)).
  { assert (Ha : agree protected (st3 L) (st5 L)) by agree_tac.
    now apply (prepared_agree L _ _ _ _ _ _ Ha). }
  pose proof (step4_progress L (st3 L) _ _ _ _ P3) as G4.
  pose proof (step5_progress L (st4 L) _ _ _ _ P4) as G5.
  pose proof (step6_progress L (st5 L) _ _ _ _ P5) as G6.
  unfold wp in G4, G5, G6. fold (st4 L) in G4. fold (st5 L) in G5. fold (st6 L) in G6.
  pose proof (emits_extends L _ _ _ (step5_emits L (st4 L))) as E5.
  pose proof (emits_extends L _ _ _ (step6_emits L (st5 L))) as E6.
  pose proof (emits_extends L _ _ _ (step7_emits L (st6 L))) as E7.
  pose proof (emits_extends L _ _ _ (step8_emits L (st7 L))) as E8.
  fold (st5 L) in E5. fold (st6 L) in E6. fold (st7 L) in E7. fold (st8 L) in E8.
  pose proof (extends_trans L _ _ _ E7 E8) as X6.
  pose proof (extends_trans L _ _ _ E6 X6) as X5.
  pose proof (extends_trans L _ _ _ E5 X5) as X4.
  rewrite E. cbn [final_state]. split; [now eexists|]. split; [|split].
  - destruct G4 as [G|G]; [left; exact (reports_extends _ _ _ X4 G)|right].
    apply (lr_done_agree _ _ _ _ (st4 L)); [agree_tac|exact G].
  - destruct G5 as [G|G]; [left; exact (reports_extends _ _ _ X5 G)|right].
    apply (rf_done_agree _ _ _ _ (st5 L)); [agree_tac|exact G].
  - destruct G6 as [G|G]; [left; exact (reports_extends _ _ _ X6 G)|right].
    apply (opt_done_agree _ _ _ _ (st6 L)); [agree_tac|exact G].
Qed.

End RunProgress.

(** ** The split at the fraction of the script *)


(** ** The tests [r2_score] makes *)





(** A state that shows no error message holds no report of a later stage. *)
Lemma no_error_no_report (L : Lib) (k : stage) (st : state L) :
  k <> Loading -> existsb is_error (stdout st) = false -> ~ reports L k st.
Proof.
  intros Hk Hex [e Hin].
  assert (Ht : existsb is_error (stdout st) = true).
  { apply existsb_exists. exists (stage_report k e). split; [exact Hin|].
    destruct k; try reflexivity. contradiction. }
  congruence.
Qed.

(** * The claims *)

(** C1 (as amended).  The search evaluates every point of the Cartesian
    product of the grid exactly once per fold: the candidates are exactly the
    points of the grid, job number [i * k + j] is candidate [i] on fold [j],
    there is one test score per job, and the number of jobs is |grid| * k.
    For the grid of the script, 3 x 4 x 3 x 3 = 108 candidates with k = 3
    folds, that is 324 jobs. *)
Theorem grid_search_job_count (L : Lib) (c : search_cfg) (X : matrix) (y : vector)
  (f : fitted_search L) :
  GridSearchCV_fit L c X y = inr f ->
  let candidates := ParameterGrid (param_grid_ c) in
  exists splits out,
    KFold_split (cv c) (length y) = inr splits /\
    length splits = cv c /\
    (forall d, In d candidates <-> is_point (sorted_items (param_grid_ c)) d) /\
    length candidates = grid_size (param_grid_ c) /\
    (forall i j d sp,
        nth_error candidates i = Some d -> nth_error splits j = Some sp ->
        nth_error (cv_jobs candidates splits) (i * cv c + j) = Some (d, sp)) /\
    mapM (fit_and_score L (estimator c) X y) (cv_jobs candidates splits) = inr out /\
    test_scores f = map snd out /\
    length (test_scores f) = grid_size (param_grid_ c) * cv c /\
    (param_grid_ c = param_grid -> cv c = 3 ->
     length candidates = 108 /\ length (test_scores f) = 324).
Proof.
  intros Hfit candidates.
  destruct (GridSearchCV_fit_inv L c X y f Hfit)
    as (splits & out & est & _ & Hk & Hout & Hs & _).
  pose proof (KFold_split_length _ _ _ Hk) as Hlen.
  assert (Hsize : length (test_scores f) = grid_size (param_grid_ c) * cv c).
  { rewrite Hs, length_map, (mapM_length _ _ _ Hout).
    unfold cv_jobs. now rewrite length_prod, length_ParameterGrid, Hlen. }
  exists splits, out. repeat split; auto.
  - now apply in_product.
  - now apply in_product.
  - apply length_ParameterGrid.
  - intros i j d sp Hi Hj. rewrite <- Hlen. now apply nth_error_list_prod.
  - unfold candidates. rewrite length_ParameterGrid, H. reflexivity.
  - rewrite Hsize, H, H0. reflexivity.
Qed.

(** C1, witness: the search of step 6 on a six-row train set. *)
Lemma grid_search_job_count_witness :
  exists f : fitted_search sample_lib,
    GridSearchCV_fit sample_lib script_search tiny_X tiny_y = inr f /\
    length (test_scores f) = 324.
Proof.
  assert (H : exists f, GridSearchCV_fit sample_lib script_search tiny_X tiny_y = inr f)
    by (vm_compute; eexists; reflexivity).
  destruct H as [f H]. exists f. split; [exact H|].
  destruct (grid_search_job_count sample_lib script_search tiny_X tiny_y f H)
    as (splits & out & _ & _ & _ & _ & _ & _ & _ & _ & Href).
  apply Href; reflexivity.
Defined.

(** C1, counterexample to the claim as stated: the grid of the script has 108
    candidates, not 144, and the run of the script executes 324
    cross-validation jobs, not 432. *)
Lemma reference_grid_counterexample :
  length (ParameterGrid param_grid) = 108 /\
  exists (c : search_cfg) (f : fitted_search sample_lib),
    lookup "grid_search" (vars (final_state sample_lib (run sample_lib)))
      = Some (VSearch c (Some f)) /\
    param_grid_ c = param_grid /\ cv c = 3 /\
    length (ParameterGrid (param_grid_ c)) <> 144 /\
    length (test_scores f) = 324 /\
    length (test_scores f) <> 432.
Proof.
  split; [reflexivity|].
  eexists. eexists. split; [vm_compute; reflexivity|].
  repeat split; try (vm_compute; discriminate).
Qed.











(** C3.  When a run leaves a fitted tuned forest, the search had completed
    on the scaled train set, the forest was built from the parameters the
    search returned (the candidate at its best index) with seed 42, and it
    was fitted on the whole scaled train partition: the scaled rows of
    [X_train] and all of [y_train], as produced by the split of the dataset.
    Every cross-validation fold trains on strictly fewer rows. *)
Theorem tuned_model_fit_on_whole_train_set (L : Lib) (p : rf_params) (m : rf_model L) :
  let st := final_state L (run L) in
  lookup "optimized_rf" (vars st) = Some (VForest p (Some m)) ->
  exists data X y sp sc Xs f,
    lookup "data" (vars st) = Some (VFrame data) /\
    drop_column "Monthly_Sales" data = inr X /\
    get_column "Monthly_Sales" data = inr y /\
    train_test_split L X y (2 # 10) 42 = inr sp /\
    StandardScaler_fit_transform L (rows (sp_X_train sp)) = inr (sc, Xs) /\
    lookup "X_train_scaled" (vars st) = Some (VMatrix Xs) /\
    lookup "y_train" (vars st) = Some (VVector (sp_y_train sp)) /\
    lookup "grid_search" (vars st) = Some (VSearch script_search (Some f)) /\
    GridSearchCV_fit L script_search Xs (sp_y_train sp) = inr f /\
    nth_error (ParameterGrid param_grid) (best_index (mean_test_score f))
      = Some (best_params_ f) /\
    RandomForestRegressor (best_params_ f) (PInt 42) = inr p /\
    rf_fit L p Xs (sp_y_train sp) = inr m /\
    length Xs = length (sp_y_train sp) /\
    (forall splits fold,
        KFold_split 3 (length (sp_y_train sp)) = inr splits -> In fold splits ->
        length (fst fold) < length Xs).
Proof.
  intros st Hopt. subst st.
  destruct (bound_completed L "optimized_rf" _ ltac:(cbv; tauto) Hopt)
    as (Efin & Xs & ys & Xt & yt & Hprep).
  rewrite <- Efin in Hprep.
  destruct (run_model_facts L Xs ys Xt yt Hprep) as (_ & _ & (Ho & _)).
  destruct (Ho _ Hopt) as (p' & mo & f & Hv & Hgs & Hfit & _ & Hctor & Hm).
  injection Hv as <- <-. specialize (Hm m eq_refl).
  destruct Hprep as (HXs & Hys & _ & _).
  destruct (run_split_facts L) as (Hsp & _).
  destruct (Hsp _ HXs) as (data & X & y & sp & sc & Xs' & Hv' & Hd & HX & Hy & Hsplit
                           & _ & _ & Hytr & _ & Hsc & _).
  injection Hv' as <-. rewrite Hys in Hytr. injection Hytr as ->.
  destruct (GridSearchCV_fit_inv L _ _ _ f Hfit)
    as (splits & out & est & Hlen & Hk & _ & _ & Hmeans & _ & Hbi & Hbp & _).
  cbn [cv param_grid_] in *.
  exists data, X, y, sp, sc, Xs, f. repeat split; auto.
  - rewrite <- Hbi, Hbp. apply nth_error_nth'.
    assert (Hlm : length (mean_test_score f) = length (ParameterGrid param_grid)).
    { rewrite Hmeans. unfold mean_scores. now rewrite length_map, length_seq. }
    rewrite <- Hlm, Hbi. unfold best_index.
    destruct (mean_test_score f) as [|x l] eqn:El; [discriminate Hlm|].
    rewrite <- El in *.
    assert (Hr : rank_scores (mean_test_score f) <> []).
    { unfold rank_scores. rewrite El.
      destruct (nanmin (x :: l)); discriminate. }
    destruct (argmin_spec _ Hr) as (Hlt & _).
    assert (Hrl : length (rank_scores (mean_test_score f)) = length (mean_test_score f)).
    { unfold rank_scores. destruct (nanmin (mean_test_score f));
        now rewrite ?length_map. }
    lia.
  - intros splits' fold Hk' Hin. rewrite Hlen.
    apply (KFold_split_proper 3 _ splits' fold Hk' Hin).
Qed.

(** C3, witness: the run on the sample dataset leaves a fitted tuned forest. *)
Lemma tuned_model_fit_on_whole_train_set_witness :
  exists (p : rf_params) (m : rf_model sample_lib) (Xs : matrix) (ys : vector),
    lookup "optimized_rf" (vars (final_state sample_lib (run sample_lib)))
      = Some (VForest p (Some m)) /\
    lookup "X_train_scaled" (vars (final_state sample_lib (run sample_lib)))
      = Some (VMatrix Xs) /\
    lookup "y_train" (vars (final_state sample_lib (run sample_lib)))
      = Some (VVector ys) /\
    rf_fit sample_lib p Xs ys = inr m.
Proof.
  assert (H : exists p m,
             lookup "optimized_rf" (vars (final_state sample_lib (run sample_lib)))
             = Some (VForest p (Some m)))
    by (vm_compute; eexists; eexists; reflexivity).
  destruct H as (p & m & H).
  destruct (tuned_model_fit_on_whole_train_set sample_lib p m H)
    as (data & X & y & sp & sc & Xs & f & _ & _ & _ & _ & _ & HXs & Hys & _ & _ & _ & _
        & Hfit & _).
  exists p, m, Xs, (sp_y_train sp). auto.
Defined.

(** C9.  The forest the script builds from the best parameters with seed 42
    and fits on the scaled train set is the estimator the search itself
    refits: the two are the same fitted model, so they predict the same on
    every input, and the stored test predictions are those of the search's
    best estimator.  (Fitting is a function of the parameters, the seed and
    the data.) *)
Theorem refit_equivalence (L : Lib) (p : rf_params) (m : rf_model L)
  (c : search_cfg) (f : fitted_search L) :
  let st := final_state L (run L) in
  lookup "optimized_rf" (vars st) = Some (VForest p (Some m)) ->
  lookup "grid_search" (vars st) = Some (VSearch c (Some f)) ->
  set_params (estimator c) (best_params_ f) = inr p /\
  m = best_estimator_ f /\
  (forall X, rf_predict L m X = rf_predict L (best_estimator_ f) X) /\
  (forall pred, lookup "y_pred_optimized" (vars st) = Some (VVector pred) ->
     exists Xt, lookup "X_test_scaled" (vars st) = Some (VMatrix Xt) /\
                rf_predict L (best_estimator_ f) Xt = inr pred).
Proof.
  intros st Hopt Hgs. subst st.
  destruct (bound_completed L "optimized_rf" _ ltac:(cbv; tauto) Hopt)
    as (Efin & Xs & ys & Xt & yt & Hprep).
  rewrite <- Efin in Hprep.
  destruct (run_model_facts L Xs ys Xt yt Hprep) as (_ & _ & (Ho & Hpred & _)).
  destruct (Ho _ Hopt) as (p' & mo & f' & Hv & Hgs' & Hfit & _ & Hctor & Hm).
  injection Hv as <- <-. specialize (Hm m eq_refl).
  rewrite Hgs in Hgs'. injection Hgs' as -> <-.
  destruct (GridSearchCV_fit_inv L _ _ _ f Hfit)
    as (splits & out & est & _ & _ & _ & _ & _ & _ & _ & _ & _ & Hest & Hrefit).
  cbn [estimator] in *.
  pose proof (constructor_matches_set_params _ _ _ Hctor Hest) as ->.
  assert (Em : m = best_estimator_ f) by congruence.
  split; [exact Hest|]. split; [exact Em|]. split; [now rewrite Em|].
  intros pred Hp. destruct (Hpred _ Hp) as (q & m' & pr & Hopt' & Hv & Hpr).
  injection Hv as <-. rewrite Hopt in Hopt'. injection Hopt' as <- <-.
  exists Xt. split; [apply Hprep|]. now rewrite <- Em.
Qed.

(** C9, witness: the run on the sample dataset. *)
Lemma refit_equivalence_witness :
  exists (p : rf_params) (m : rf_model sample_lib) (c : search_cfg)
         (f : fitted_search sample_lib),
    lookup "optimized_rf" (vars (final_state sample_lib (run sample_lib)))
      = Some (VForest p (Some m)) /\
    lookup "grid_search" (vars (final_state sample_lib (run sample_lib)))
      = Some (VSearch c (Some f)) /\
    m = best_estimator_ f.
Proof.
  assert (H : exists p m c f,
             lookup "optimized_rf" (vars (final_state sample_lib (run sample_lib)))
             = Some (VForest p (Some m)) /\
             lookup "grid_search" (vars (final_state sample_lib (run sample_lib)))
             = Some (VSearch c (Some f))).
  { vm_compute. do 4 eexists. split; reflexivity. }
  destruct H as (p & m & c & f & H1 & H2).
  destruct (refit_equivalence sample_lib p m c f H1 H2) as (_ & Em & _).
  exists p, m, c, f. auto.
Defined.

(** C10.  In the state a run ends in, whenever the four prepared objects
    (scaled train matrix, train target, scaled test matrix, test target) are
    bound: the run has completed, and each of the three modelling stages has
    either shown its error message or fitted its model on that scaled train
    matrix and train target, predicted with it on that scaled test matrix
    and computed its MSE and R2 from that prediction against that test
    target (the tuned forest being built from the parameters the search on
    the same train data returned).  Moreover, whatever is bound comes from
    the same data: each fitted model was fitted on that same scaled train
    matrix and train target; each stored prediction is that model's
    prediction on the same scaled test matrix; each stored MSE and R2 is
    computed from the stored prediction against the same test target; the
    four objects come from the split and the scaler of step 3, and each of
    them is bound exactly once in the whole assignment history, so no later
    statement rebinds it; a printed comparison table holds exactly these six
    metrics. *)
Theorem models_share_prepared_data (L : Lib) (Xs : matrix) (ys : vector)
  (Xt : matrix) (yt : vector) :
  let st := final_state L (run L) in
  prepared L Xs ys Xt yt st ->
  is_normal (run L) /\
  (reports L LinearRegression st \/ lr_done L Xs ys Xt yt st) /\
  (reports L RandomForest st \/ rf_done L Xs ys Xt yt st) /\
  (reports L Optimisation st \/ opt_done L Xs ys Xt yt st) /\
  (forall m, lookup "lr_model" (vars st) = Some (VLinear (Some m)) ->
             lr_fit L Xs ys = inr m) /\
  (forall p m, lookup "rf_model" (vars st) = Some (VForest p (Some m)) ->
               rf_fit L p Xs ys = inr m) /\
  (forall p m, lookup "optimized_rf" (vars st) = Some (VForest p (Some m)) ->
               rf_fit L p Xs ys = inr m) /\
  (forall pred, lookup "y_pred_lr" (vars st) = Some (VVector pred) ->
     exists m, lookup "lr_model" (vars st) = Some (VLinear (Some m)) /\
               lr_predict L m Xt = inr pred) /\
  (forall pred, lookup "y_pred_rf" (vars st) = Some (VVector pred) ->
     exists p m, lookup "rf_model" (vars st) = Some (VForest p (Some m)) /\
                 rf_predict L m Xt = inr pred) /\
  (forall pred, lookup "y_pred_optimized" (vars st) = Some (VVector pred) ->
     exists p m, lookup "optimized_rf" (vars st) = Some (VForest p (Some m)) /\
                 rf_predict L m Xt = inr pred) /\
  (forall pn mn rn, In (pn, mn, rn) evaluation_names ->
     (forall f, lookup mn (vars st) = Some (VFloat f) ->
        exists pred, lookup pn (vars st) = Some (VVector pred) /\
                     mean_squared_error L yt pred = inr f) /\
     (forall f, lookup rn (vars st) = Some (VFloat f) ->
        exists pred, lookup pn (vars st) = Some (VVector pred) /\
                     r2_score L yt pred = inr f)) /\
  split_facts L st /\
  (forall n, In n protected -> count_occ string_dec (map fst (vars st)) n = 1) /\
  (forall t, In (SayTable t) (shown L (run L)) -> table_facts L t st).
Proof.
  intros st Hprep. subst st.
  destruct (run_model_facts L Xs ys Xt yt Hprep)
    as ((Hl1 & Hl2 & Hl3) & (Hr1 & Hr2 & Hr3) & (Ho1 & Ho2 & Ho3)).
  assert (Hscored : forall pn mn rn,
             scored L pn mn rn yt (final_state L (run L)) ->
             (forall f, lookup mn (vars (final_state L (run L))) = Some (VFloat f) ->
                exists pred, lookup pn (vars (final_state L (run L))) = Some (VVector pred) /\
                             mean_squared_error L yt pred = inr f) /\
             (forall f, lookup rn (vars (final_state L (run L))) = Some (VFloat f) ->
                exists pred, lookup pn (vars (final_state L (run L))) = Some (VVector pred) /\
                             r2_score L yt pred = inr f)).
  { intros pn mn rn (Hm & Hr). split; intros f Hf.
    - destruct (Hm _ Hf) as (pred & f' & Hv & Hp & He). injection Hv as <-. eauto.
    - destruct (Hr _ Hf) as (pred & f' & Hv & Hp & He). injection Hv as <-. eauto. }
  destruct (run_progress L Xs ys Xt yt Hprep) as (Hnormal & G4 & G5 & G6).
  split; [exact Hnormal|]. split; [exact G4|]. split; [exact G5|]. split; [exact G6|].
  repeat match goal with |- _ /\ _ => split end.
  - intros m Hm. destruct (Hl1 _ Hm) as (mo & Hv & Hfit). injection Hv as <-. auto.
  - intros p m Hm. destruct (Hr1 _ Hm) as (mo & Hv & Hfit). injection Hv as -> <-. auto.
  - intros p m Hm. destruct (Ho1 _ Hm) as (p' & mo & f & Hv & _ & _ & _ & _ & Hfit).
    injection Hv as <- <-. auto.
  - intros pred Hp. destruct (Hl2 _ Hp) as (m & pr & Hm & Hv & Hpr).
    injection Hv as <-. eauto.
  - intros pred Hp. destruct (Hr2 _ Hp) as (m & pr & Hm & Hv & Hpr).
    injection Hv as <-. eauto.
  - intros pred Hp. destruct (Ho2 _ Hp) as (q & m & pr & Hm & Hv & Hpr).
    injection Hv as <-. eauto.
  - intros pn mn rn [[= <- <- <-]|[[= <- <- <-]|[[= <- <- <-]|[]]]];
      now apply Hscored.
  - apply run_split_facts.
  - intros n Hn.
    assert (Hle : count_occ string_dec (map fst (vars (final_state L (run L)))) n <= 1).
    { eapply Nat.le_trans; [apply run_history_count|].
      destruct Hn as [<-|[<-|[<-|[<-|[]]]]]; vm_compute; lia. }
    assert (Hin : In n (map fst (vars (final_state L (run L))))).
    { destruct Hprep as (H1 & H2 & H3 & H4).
      destruct Hn as [<-|[<-|[<-|[<-|[]]]]]; eapply lookup_in; eassumption. }
    apply (count_occ_In string_dec) in Hin. lia.
  - intros t Ht. apply run_table. unfold shown in Ht. now apply in_rev in Ht.
Qed.

(** C10, witness: the run on the sample dataset completes, binds the four
    prepared objects, shows no error and has fitted, used and scored all
    three models on them. *)
Lemma models_share_prepared_data_witness :
  exists (Xs : matrix) (ys : vector) (Xt : matrix) (yt : vector),
    prepared sample_lib Xs ys Xt yt (final_state sample_lib (run sample_lib)) /\
    is_normal (run sample_lib) /\
    lr_done sample_lib Xs ys Xt yt (final_state sample_lib (run sample_lib)) /\
    rf_done sample_lib Xs ys Xt yt (final_state sample_lib (run sample_lib)) /\
    opt_done sample_lib Xs ys Xt yt (final_state sample_lib (run sample_lib)).
Proof.
  assert (H : exists Xs ys Xt yt,
             prepared sample_lib Xs ys Xt yt (final_state sample_lib (run sample_lib))).
  { unfold prepared. vm_compute. do 4 eexists. repeat split; reflexivity. }
  destruct H as (Xs & ys & Xt & yt & Hp).
  assert (Hex : existsb is_error (stdout (final_state sample_lib (run sample_lib))) = false)
    by (vm_compute; reflexivity).
  assert (Hq : forall k, k <> Loading ->
                         ~ reports sample_lib k (final_state sample_lib (run sample_lib))).
  { intros k Hk. exact (no_error_no_report sample_lib k _ Hk Hex). }
  destruct (models_share_prepared_data sample_lib Xs ys Xt yt Hp)
    as (Hn & G4 & G5 & G6 & _).
  exists Xs, ys, Xt, yt.
  split; [exact Hp|]. split; [exact Hn|].
  split; [destruct G4 as [G|G]; [exfalso; revert G; apply Hq; discriminate|exact G]|].
  split; [destruct G5 as [G|G]; [exfalso; revert G; apply Hq; discriminate|exact G]|].
  destruct G6 as [G|G]; [exfalso; revert G; apply Hq; discriminate|exact G].
Defined.

Lemma StandardScaler_fit_sqrt (L1 L2 : Lib) (X : matrix) :
  sqrt L1 = sqrt L2 -> StandardScaler_fit L1 X = StandardScaler_fit L2 X.
Proof.
  intros H. unfold StandardScaler_fit, handle_zeros_in_scale. now rewrite H.
Qed.

Lemma scaler_after_fit_sqrt (L1 L2 : Lib) (X : matrix) :
  sqrt L1 = sqrt L2 -> scaler_after_fit L1 X = scaler_after_fit L2 X.
Proof.
  intros H. unfold scaler_after_fit, StandardScaler_fit_transform.
  now rewrite (StandardScaler_fit_sqrt L1 L2 X H).
Qed.

Lemma scaler_after_fit_fitted (L : Lib) (X : matrix) (st : scaler_state) :
  scaler_after_fit L X = Some st -> StandardScaler_fit L X = inr st.
Proof.
  unfold scaler_after_fit, StandardScaler_fit_transform.
  destruct (StandardScaler_fit L X) as [e|st']; cbn [rbind]; [discriminate|].
  destruct (StandardScaler_transform (Some st') X); cbn [rbind fst]; congruence.
Qed.

(** C5.  The scaler a run leaves is a function of the train partition only:
    two runs, on datasets that give the same train partition, leave the same
    scaler object, whatever their test rows are; that object is the one
    fitted on the train rows at line 78, so transforming the test rows at
    line 79 has not changed it, and nothing else binds it. *)
Theorem scaler_depends_on_train_rows_only (L1 L2 : Lib) (X_train : DataFrame) :
  sqrt L1 = sqrt L2 ->
  lookup "X_train" (vars (final_state L1 (run L1))) = Some (VFrame X_train) ->
  lookup "X_train" (vars (final_state L2 (run L2))) = Some (VFrame X_train) ->
  exists sc : scaler,
    lookup "scaler" (vars (final_state L1 (run L1))) = Some (VScaler sc) /\
    lookup "scaler" (vars (final_state L2 (run L2))) = Some (VScaler sc) /\
    sc = scaler_after_fit L1 (rows X_train) /\
    (forall st, sc = Some st -> StandardScaler_fit L1 (rows X_train) = inr st) /\
    count_occ string_dec (map fst (vars (final_state L1 (run L1)))) "scaler" <= 2.
Proof.
  intros Hsqrt H1 H2.
  destruct (run_scaler_facts L1 _ H1) as (X1 & E1 & Hs1).
  destruct (run_scaler_facts L2 _ H2) as (X2 & E2 & Hs2).
  injection E1 as <-. injection E2 as <-.
  exists (scaler_after_fit L1 (rows X_train)).
  split; [exact Hs1|]. split; [|split; [reflexivity|split]].
  - rewrite Hs2. now rewrite (scaler_after_fit_sqrt L1 L2 _ Hsqrt).
  - intros st Hst. now apply scaler_after_fit_fitted.
  - eapply Nat.le_trans; [apply run_history_count|]. vm_compute. lia.
Qed.

(** C5, witness: two datasets that differ in their test rows only. *)
Lemma scaler_depends_on_train_rows_only_witness :
  other_test_rows <> sample_data /\
  exists (X_train : DataFrame) (sc : scaler),
    lookup "X_train" (vars (final_state sample_lib (run sample_lib)))
      = Some (VFrame X_train) /\
    lookup "X_train" (vars (final_state other_test_lib (run other_test_lib)))
      = Some (VFrame X_train) /\
    lookup "scaler" (vars (final_state sample_lib (run sample_lib)))
      = Some (VScaler sc) /\
    lookup "scaler" (vars (final_state other_test_lib (run other_test_lib)))
      = Some (VScaler sc).
Proof.
  split; [discriminate|].
  assert (H : exists X_train,
             lookup "X_train" (vars (final_state sample_lib (run sample_lib)))
             = Some (VFrame X_train) /\
             lookup "X_train" (vars (final_state other_test_lib (run other_test_lib)))
             = Some (VFrame X_train)).
  { vm_compute. eexists. split; reflexivity. }
  destruct H as (X_train & H1 & H2).
  destruct (scaler_depends_on_train_rows_only sample_lib other_test_lib X_train
              eq_refl H1 H2) as (sc & Hs1 & Hs2 & _).
  exists X_train, sc. auto.
Defined.

(** C6 (as amended).  A run never ends in an uncaught exception.  When the
    body of a stage the run reaches raises an exception, the run shows that
    stage's message with that exception as the cause (for a missing file,
    the message of line 35), right after everything shown before; loading
    and preprocessing then end the run with [exit()], and any other stage
    hands over to the next step, so that the run completes unless
    preprocessing ends it.  Conversely every error message a run shows is
    the report of a stage whose body raised the cause shown.  Only a failure
    while loading the data or in preprocessing ends the run: the last thing
    shown is then that stage's message with the cause, and what earlier
    steps showed is still shown.  A failure reported by linear regression,
    random forest, optimisation or final evaluation does not end the run: it
    continues to the last line of step 8.  No step is run a second time: the
    marks a run shows are a subsequence of the script's marks in order, each
    at most once.  A comparison table, when shown, has its three rows, bound
    to the six metric variables; when a metric variable is missing, step 7
    shows its error message with the cause (the [NameError] of a missing
    name) and no table. *)
Theorem failure_policy (L : Lib) :
  not_raised (run L) /\
  (forall k e s', fails L k e s' ->
     (exists later, shown L (run L) = rev (stdout s') ++ stage_report k e :: later) /\
     (aborting k = true -> run L = SystemExit (reported L k e s')) /\
     (aborting k = false ->
      stage_step L k (stage_start L k) = Normal tt (reported L k e s') /\
      (is_normal (step3 L (st2 L)) -> is_normal (run L)))) /\
  (forall p e, In (SayError p e) (shown L (run L)) ->
     exists k s', fails L k e s' /\ stage_report k e = SayError p e) /\
  (forall s, run L = SystemExit s ->
     (exists ev, hd_error (stdout s) = Some ev /\ abort_report ev) /\
     (s = st1 L \/ (s = st3 L /\ exists new, stdout s = new ++ stdout (st2 L)))) /\
  (forall s, run L = Normal tt s -> hd_error (stdout s) = Some (Say last_line)) /\
  (forall p e, In (SayError p e) (shown L (run L)) -> In p later_stage_errors ->
               is_normal (run L)) /\
  subseq (marks (shown L (run L))) all_marks /\
  NoDup (marks (shown L (run L))) /\
  (forall t, In (SayTable t) (shown L (run L)) ->
             table_names t = ["Linear Regression"; "Random Forest"; "Optimized Random Forest"] /\
             table_facts L t (final_state L (run L))) /\
  (forall s n, In n metric_names -> lookup n (vars s) = None ->
     exists e, evaluation_failed s e (step7 L s) /\
               (e = TypeError "unexpected object" \/
                exists n', In n' metric_names /\ lookup n' (vars s) = None /\
                           e = NameError n')).
Proof.
  pose proof (step1_exit L (s0 L)) as X1.
  pose proof (step3_exit L (st2 L)) as X3.
  pose proof (step8_last L (st7 L)) as X8.
  unfold wp in X1, X3, X8. fold (st8 L) in X8.
  split; [|split; [|split; [|split; [|split; [|split; [|split; [|split; [|split]]]]]]]].
  - destruct (run_cases L) as [(_ & ->)|[(_ & _ & ->)|(_ & _ & ->)]]; exact I.
  - intros k e s' Hf. exact (fails_shown L k e s' Hf).
  - intros p e Hin. unfold shown in Hin. apply in_rev in Hin.
    exact (run_reports L p e Hin).
  - intros s Hs.
    destruct (run_cases L) as [(E1 & E)|[(_ & E3 & E)|(_ & _ & E)]];
      rewrite E in Hs; try discriminate Hs; injection Hs as <-.
    + rewrite E1 in X1. split; [exact X1|now left].
    + rewrite E3 in X3. split; [exact X3|]. right. split; [reflexivity|].
      destruct (step3_emits L (st2 L)) as (new & En & _). exists new. exact En.
  - intros s Hs.
    destruct (run_cases L) as [(_ & E)|[(_ & _ & E)|(_ & _ & E)]];
      rewrite E in Hs; try discriminate Hs; injection Hs as <-.
    exact X8.
  - intros p e Hin Hp. unfold shown in Hin. apply in_rev in Hin.
    destruct (run_cases L) as [(_ & E)|[(_ & _ & E)|(_ & _ & E)]];
      rewrite E in *; cbn [final_state] in Hin.
    + exfalso. pose proof (marks_st1 L _ p Hin eq_refl) as Hm.
      destruct Hp as [<-|[<-|[<-|[<-|[]]]]];
        cbv in Hm; repeat (destruct Hm as [Hm|Hm]; [discriminate Hm|]); exact Hm.
    + exfalso. pose proof (marks_st3 L _ p Hin eq_refl) as Hm.
      destruct Hp as [<-|[<-|[<-|[<-|[]]]]];
        cbv in Hm; repeat (destruct Hm as [Hm|Hm]; [discriminate Hm|]); exact Hm.
    + now exists (st8 L).
  - apply run_marks.
  - apply (subseq_NoDup _ _ (run_marks L) all_marks_NoDup).
  - intros t Ht. unfold shown in Ht. apply in_rev in Ht.
    pose proof (run_table L t Ht) as Hf. split; [|exact Hf].
    destruct Hf as (a & b & c & d & e & f & -> & _). reflexivity.
  - intros s n Hn Hnone. exact (step7_missing L s n Hn Hnone).
Qed.

(** C6, witness: when the linear solver fails, the message of linear
    regression is shown with the solver's exception and the run completes. *)
Lemma failure_policy_witness :
  exists s',
    fails lr_failing_lib LinearRegression (Exception "SVD did not converge") s' /\
    (exists later,
        shown lr_failing_lib (run lr_failing_lib)
        = rev (stdout s')
          ++ SayError "An error occurred during linear regression"
                      (Exception "SVD did not converge") :: later) /\
    is_normal (run lr_failing_lib).
Proof.
  assert (H : exists s', fails lr_failing_lib LinearRegression
                           (Exception "SVD did not converge") s').
  { unfold fails, reached, is_normal. vm_compute. eexists.
    split; [split; eexists; reflexivity|reflexivity]. }
  destruct H as (s' & Hf).
  destruct (failure_policy lr_failing_lib) as (_ & Hshown & _).
  destruct (Hshown _ _ _ Hf) as (Hlater & _ & Hnext).
  exists s'. split; [exact Hf|]. split; [exact Hlater|].
  destruct Hf as ((_ & H3) & _).
  exact (proj2 (Hnext eq_refl) H3).
Defined.

(** C6, counterexample to the claim as stated: the linear solver fails, the
    failure is reported, and the run is not aborted: the random forest and
    the optimisation still run, bind their metrics and save their figures,
    and the run ends normally after the last line of step 8; the final
    evaluation fails on the missing [mse_lr] and no comparison table is
    shown at all, although two models finished. *)
Lemma failure_does_not_abort_counterexample :
  let o := run lr_failing_lib in
  ( ended_normally o,
    errors_shown (shown lr_failing_lib o),
    map (is_bound (final_state lr_failing_lib o))
        ["mse_lr"; "mse_rf"; "mse_optimized"; "results"],
    marks (shown lr_failing_lib o) )
  = ( true,
      [ ("An error occurred during linear regression", Exception "SVD did not converge");
        ("An error occurred during final evaluation", NameError "mse_lr") ],
      [ false; true; true; false ],
      [ "=== Dataset Information ==="; "data.info()"; "=== Descriptive Statistics ===";
        "data.describe()"; "=== Missing Values ==="; "data.isnull().sum()";
        "distributions.png"; "correlation_matrix.png";
        "=== Linear Regression ===";
        "An error occurred during linear regression";
        "=== Random Forest Regressor ==="; "random_forest_results.png";
        "feature_importance.png";
        "=== Hyperparameter Tuning ===";
        "Performing grid search... (This may take several minutes)";
        "optimized_random_forest_results.png";
        "An error occurred during final evaluation" ] ++ marks8 ).
Proof. vm_compute. reflexivity. Qed.

(** * Further properties *)

(** ** The folds of the cross-validation *)

Lemma folds_from_tests (start : nat) (sizes : list nat) (n : nat) :
  concat (map snd (folds_from start sizes n)) = seq start (list_sum sizes).
Proof.
  revert start. induction sizes as [|sz sizes IH]; intros start; simpl; [reflexivity|].
  now rewrite IH, seq_app.
Qed.

Lemma folds_from_complement (start : nat) (sizes : list nat) (n : nat) sp :
  start + list_sum sizes <= n ->
  In sp (folds_from start sizes n) ->
  Permutation (fst sp ++ snd sp) (seq 0 n).
Proof.
  revert start. induction sizes as [|sz sizes IH]; intros start Hsum; simpl; [tauto|].
  simpl in Hsum. intros [<-|Hin].
  - simpl. rewrite <- app_assoc.
    replace (seq 0 n) with (seq 0 start ++ seq start sz ++ seq (start + sz) (n - (start + sz))).
    + apply Permutation_app_head, Permutation_app_comm.
    + rewrite <- seq_app. change start with (0 + start) at 2. rewrite <- seq_app.
      f_equal. lia.
  - apply (IH (start + sz)); [lia|exact Hin].
Qed.

Lemma fold_sizes_balanced (n k a b : nat) :
  In a (fold_sizes n k) -> In b (fold_sizes n k) -> a <= b + 1.
Proof.
  unfold fold_sizes. intros Ha Hb.
  apply in_map_iff in Ha as (i & <- & _). apply in_map_iff in Hb as (j & <- & _).
  destruct (i <? n mod k), (j <? n mod k); lia.
Qed.

Lemma folds_from_sizes (start : nat) (sizes : list nat) (n : nat) :
  map (fun sp => length (snd sp)) (folds_from start sizes n) = sizes.
Proof.
  revert start. induction sizes as [|sz sizes IH]; intros start; simpl; [reflexivity|].
  now rewrite length_seq, IH.
Qed.

(** X3: the test parts of the k folds are consecutive blocks that together
    list every row exactly once, in order; the train part of a fold is the
    rest of the rows; no part is empty and two test parts differ in size by
    at most one. *)
Theorem KFold_split_partition (k n : nat) (splits : list (list nat * list nat)) :
  KFold_split k n = inr splits ->
  concat (map snd splits) = seq 0 n /\
  (forall sp, In sp splits ->
     Permutation (fst sp ++ snd sp) (seq 0 n) /\ fst sp <> [] /\ snd sp <> []) /\
  (forall sp sp', In sp splits -> In sp' splits ->
     length (snd sp) <= length (snd sp') + 1).
Proof.
  intros Hk. pose proof Hk as Hk'. unfold KFold_split in Hk'.
  destruct (Nat.ltb_spec k 2); [discriminate|].
  destruct (Nat.ltb_spec n k); [discriminate|]. injection Hk' as Hs.
  assert (Hsum : list_sum (fold_sizes n k) = n) by (apply fold_sizes_sum; lia).
  split; [|split].
  - rewrite <- Hs, folds_from_tests, Hsum. reflexivity.
  - intros sp Hin.
    destruct (KFold_split_proper k n splits sp Hk Hin) as (Hlt & Hadd).
    split; [|split].
    + rewrite <- Hs in Hin. apply (folds_from_complement 0 (fold_sizes n k)); [lia|exact Hin].
    + intros E. rewrite E in Hadd. simpl in Hadd.
      rewrite <- Hs in Hin.
      assert (Hsz : In (length (snd sp)) (fold_sizes n k)).
      { rewrite <- (folds_from_sizes 0 (fold_sizes n k) n).
        apply (in_map (fun sp => length (snd sp))), Hin. }
      unfold fold_sizes in Hsz. apply in_map_iff in Hsz as (i & Hi & Hin').
      apply in_seq in Hin'.
      assert (n / k * k <= n) by (rewrite Nat.mul_comm; apply Nat.Div0.mul_div_le).
      assert (n / k < n).
      { apply Nat.div_lt; lia. }
      pose proof (Nat.mod_upper_bound n k ltac:(lia)).
      destruct (Nat.ltb_spec i (n mod k)); [|lia].
      assert (n / k + 1 = n) by lia.
      pose proof (Nat.div_mod_eq n k). nia.
    + intros E. rewrite E in Hadd. simpl in Hadd. lia.
  - intros sp sp' Hin Hin'. rewrite <- Hs in Hin, Hin'.
    apply (fold_sizes_balanced n k).
    + rewrite <- (folds_from_sizes 0 (fold_sizes n k) n).
      apply (in_map (fun sp => length (snd sp))), Hin.
    + rewrite <- (folds_from_sizes 0 (fold_sizes n k) n).
      apply (in_map (fun sp => length (snd sp))), Hin'.
Qed.
(** X3, witness: eight rows in three folds. *)
Lemma KFold_split_partition_witness :
  exists splits, KFold_split 3 8 = inr splits /\ concat (map snd splits) = seq 0 8.
Proof.
  assert (H : exists splits, KFold_split 3 8 = inr splits)
    by (vm_compute; eexists; reflexivity).
  destruct H as (splits & H). exists splits. split; [exact H|].
  exact (proj1 (KFold_split_partition 3 8 splits H)).
Defined.

(** ** A search on too few rows *)

Lemma mapM_nth_error {A B} (f : A -> res B) (l : list A) out i a :
  mapM f l = inr out -> nth_error l i = Some a ->
  exists b, nth_error out i = Some b /\ f a = inr b.
Proof.
  revert out i. induction l as [|x l IH]; intros out [|i]; simpl; try discriminate.
  - destruct (f x) as [e|b] eqn:E; simpl; [discriminate|].
    destruct (mapM f l) as [e|bs]; simpl; [discriminate|].
    intros [= <-] [= <-]. exists b. now split.
  - destruct (f x) as [e|b] eqn:E; simpl; [discriminate|].
    destruct (mapM f l) as [e|bs]; simpl; [discriminate|].
    intros [= <-] Hi. simpl. now apply IH.
Qed.

Lemma length_take_rows {A} (d : A) (X : list A) (idx : list nat) :
  length (take_rows d X idx) = length idx.
Proof. apply length_map. Qed.

(** A fold whose test part has fewer than two rows scores NaN, whatever the
    model predicts. *)
Lemma fit_and_score_short (L : Lib) (base : rf_params) (X : matrix) (y : vector)
  (job : dict * (list nat * list nat)) (b : bool) (s : float) :
  fit_and_score L base X y job = inr (b, s) ->
  length (snd (snd job)) < 2 -> s = None.
Proof.
  unfold fit_and_score. destruct (set_params base (fst job)) as [e|est]; simpl; [discriminate|].
  intros H Hlen.
  destruct (rf_fit L est _ _) as [e|m]; [now injection H|].
  destruct (rf_predict L m _) as [e|pred]; [now injection H|].
  destruct (r2_score L _ pred) as [e|r] eqn:Er; [now injection H|].
  injection H as _ <-.
  unfold r2_score, check_targets in Er. rewrite length_take_rows in Er.
  destruct (length (snd (snd job)) =? length pred) eqn:El; [|discriminate].
  destruct (length (snd (snd job)) =? 0); [discriminate|]. cbn [negb rbind] in Er.
  apply Nat.eqb_eq in El.
  destruct (Nat.ltb_spec (length pred) 2); [now injection Er|lia].
Qed.

Lemma fsum_nan (l : list float) : In None l -> fsum l = None.
Proof.
  induction l as [|f l IH]; [contradiction|]. intros [->|Hin]; simpl; [reflexivity|].
  fold (fsum l). rewrite (IH Hin). now destruct f.
Qed.

Lemma fmean_nan (l : list float) : In None l -> fmean l = None.
Proof. intros H. unfold fmean. now rewrite fsum_nan. Qed.

Lemma nanmin_all_nan (a : list float) : all_nan a -> nanmin a = None.
Proof.
  induction a as [|f a IH]; intros H; simpl; [reflexivity|].
  rewrite (H f (or_introl eq_refl)). apply IH. intros g Hg. apply H. now right.
Qed.

Lemma argmin_ones {A} (a : list A) : argmin (map (fun _ => 1) a) = 0.
Proof.
  destruct a as [|x a]; [reflexivity|]. cbn [map argmin].
  assert (H : forallb (fun y => 1 <=? y) (map (fun _ : A => 1) a) = true).
  { apply forallb_forall. intros y Hy. apply in_map_iff in Hy as (_ & <- & _).
    reflexivity. }
  now rewrite H.
Qed.

Lemma best_index_all_nan (means : list float) : all_nan means -> best_index means = 0.
Proof.
  intros H. unfold best_index, rank_scores. rewrite (nanmin_all_nan _ H). apply argmin_ones.
Qed.

(** The last fold is one of the smaller ones. *)
Lemma KFold_split_last (k n : nat) splits :
  KFold_split k n = inr splits ->
  exists sp, nth_error splits (k - 1) = Some sp /\ length (snd sp) = n / k.
Proof.
  intros Hk. pose proof (KFold_split_length _ _ _ Hk) as Hlen.
  unfold KFold_split in Hk.
  destruct (Nat.ltb_spec k 2); [discriminate|].
  destruct (Nat.ltb_spec n k); [discriminate|]. injection Hk as Hs.
  destruct (nth_error splits (k - 1)) as [sp|] eqn:E.
  - exists sp. split; [reflexivity|].
    pose proof (folds_from_sizes 0 (fold_sizes n k) n) as Hsz. rewrite Hs in Hsz.
    assert (H1 : nth_error (map (fun sp => length (snd sp)) splits) (k - 1)
                 = Some (length (snd sp))) by (rewrite nth_error_map, E; reflexivity).
    rewrite Hsz in H1. unfold fold_sizes in H1.
    rewrite nth_error_map, (nth_error_nth' _ 0) in H1 by (rewrite length_seq; lia).
    rewrite seq_nth in H1 by lia. simpl in H1. injection H1 as <-.
    pose proof (Nat.mod_upper_bound n k ltac:(lia)).
    destruct (Nat.ltb_spec (k - 1) (n mod k)); lia.
  - apply nth_error_None in E. lia.
Qed.

Lemma In_firstn_skipn {A} (l : list A) (a k j : nat) (x : A) :
  nth_error l (a + j) = Some x -> j < k -> In x (firstn k (skipn a l)).
Proof.
  intros H Hj. apply (nth_error_In _ j).
  rewrite nth_error_firstn. destruct (Nat.ltb_spec j k); [|lia].
  now rewrite nth_error_skipn.
Qed.

(** X4: when the train set has fewer than twice as many rows as there are
    folds, one fold tests on a single row, where R2 is NaN; then every
    candidate's mean score is NaN, and a search that completes returns the
    first candidate of the grid with a NaN best score.  For the script's
    grid that candidate is max_depth=None, min_samples_leaf=1,
    min_samples_split=2, n_estimators=50. *)
Theorem search_on_few_rows (L : Lib) (c : search_cfg) (X : matrix) (y : vector)
  (f : fitted_search L) :
  GridSearchCV_fit L c X y = inr f ->
  length y < 2 * cv c ->
  all_nan (mean_test_score f) /\
  best_index_ f = 0 /\
  best_score_ f = None /\
  best_params_ f = hd [] (ParameterGrid (param_grid_ c)) /\
  (param_grid_ c = param_grid ->
   best_params_ f = [ ("max_depth", PNone); ("min_samples_leaf", PInt 1);
                      ("min_samples_split", PInt 2); ("n_estimators", PInt 50) ]).
Proof.
  intros Hfit Hfew.
  destruct (GridSearchCV_fit_inv L c X y f Hfit)
    as (splits & out & est & _ & Hk & Hout & Hs & Hm & _ & Hb & Hp & Hsc & _).
  pose proof (KFold_split_length _ _ _ Hk) as Hlen.
  destruct (KFold_split_last _ _ _ Hk) as (sp & Hsp & Hsz).
  assert (Hk2 : 2 <= cv c).
  { unfold KFold_split in Hk. destruct (Nat.ltb_spec (cv c) 2); [discriminate|lia]. }
  assert (Hone : length (snd sp) < 2).
  { rewrite Hsz. apply Nat.Div0.div_lt_upper_bound. lia. }
  assert (Hnan : all_nan (mean_test_score f)).
  { intros m Hin. rewrite Hm in Hin. unfold mean_scores in Hin.
    apply in_map_iff in Hin as (i & <- & Hi). apply in_seq in Hi.
    apply fmean_nan.
    destruct (nth_error (ParameterGrid (param_grid_ c)) i) as [d|] eqn:Ed;
      [|apply nth_error_None in Ed; lia].
    pose proof (nth_error_list_prod _ _ _ _ _ _ Ed Hsp) as Hjob.
    destruct (mapM_nth_error _ _ _ _ _ Hout Hjob) as ((b & s) & Hob & Hfs).
    apply fit_and_score_short in Hfs; [|exact Hone]. subst s.
    apply (In_firstn_skipn _ _ _ (cv c - 1)); [|lia].
    rewrite nth_error_map. rewrite Hlen in *. rewrite Hob. reflexivity. }
  assert (Hbest : best_index_ f = 0) by (rewrite Hb; now apply best_index_all_nan).
  assert (Hpar : best_params_ f = hd [] (ParameterGrid (param_grid_ c))).
  { rewrite Hp, Hbest. now destruct (ParameterGrid (param_grid_ c)). }
  split; [exact Hnan|]. split; [exact Hbest|]. split; [|split].
  - rewrite Hsc, Hbest. destruct (mean_test_score f) as [|m ms] eqn:E; [reflexivity|].
    simpl. apply Hnan. now left.
  - exact Hpar.
  - intros Hg. rewrite Hpar, Hg. reflexivity.
Qed.

(** X4, witness: a search on four rows with three folds. *)
Lemma search_on_few_rows_witness :
  exists f : fitted_search sample_lib,
    GridSearchCV_fit sample_lib script_search four_X four_y = inr f /\
    length four_y < 2 * cv script_search /\
    best_index_ f = 0 /\ best_score_ f = None.
Proof.
  assert (H : exists f, GridSearchCV_fit sample_lib script_search four_X four_y = inr f)
    by (vm_compute; eexists; reflexivity).
  destruct H as [f H]. exists f. split; [exact H|].
  assert (Hlen : length four_y < 2 * cv script_search) by (simpl; lia).
  split; [exact Hlen|].
  destruct (search_on_few_rows sample_lib script_search four_X four_y f H Hlen)
    as (_ & H0 & H1 & _).
  split; assumption.
Defined.

(** ** Loading and exploration *)

Lemma step1_failed (L : Lib) (e : exn) (s : state L) :
  read_csv L "mcpl_fmcg_sales_dataset.csv.csv" = inl e ->
  step1 L s = SystemExit (mkState (vars s) (loading_report e :: stdout s)).
Proof.
  intros H. unfold step1, step1_body, try_except, bind, lift. rewrite H. unfold raise.
  destruct e; reflexivity.
Qed.

Lemma step1_loaded (L : Lib) (d : DataFrame) :
  loaded L d ->
  step1 L (s0 L) = Normal tt (mkState [("data", VFrame d)] exploration_output).
Proof.
  intros (Hr & H1 & H2 & H3).
  unfold step1, step1_body, try_except, bind, lift, get_frame, get_as, call_explore, say, emit, assign.
  rewrite Hr. cbn. rewrite H1. cbn. rewrite H2. cbn. rewrite H3. reflexivity.
Qed.

Lemma step1_normal_loaded (L : Lib) (s : state L) :
  wp (step1 L) (fun o => is_normal o -> exists d, loaded L d) s.
Proof.
  unfold step1, step1_body. wp_exec.
  all: intros (s' & E); try discriminate E.
  eexists. unfold loaded. repeat split; eassumption.
Qed.

(** X5: when the file cannot be read the run shows one message, the fixed
    text for a missing file or the error with its cause, and exits at once:
    nothing else is shown and no variable is bound. *)
Theorem loading_failure_exits (L : Lib) (e : exn) :
  read_csv L "mcpl_fmcg_sales_dataset.csv.csv" = inl e ->
  run L = SystemExit (mkState [] [loading_report e]) /\
  shown L (run L) = [loading_report e].
Proof.
  intros H. assert (E : run L = SystemExit (mkState [] [loading_report e])).
  { unfold run, script, bind. now rewrite (step1_failed L e _ H). }
  split; [exact E|]. now rewrite E.
Qed.

(** X5, witness: the library whose file is missing. *)
Lemma loading_failure_exits_witness :
  read_csv missing_file_lib "mcpl_fmcg_sales_dataset.csv.csv" = inl FileNotFoundError /\
  shown missing_file_lib (run missing_file_lib)
  = [Say "Error: CSV file not found. Please verify the file path."].
Proof.
  assert (H : read_csv missing_file_lib "mcpl_fmcg_sales_dataset.csv.csv"
              = inl FileNotFoundError) by reflexivity.
  split; [exact H|].
  exact (proj2 (loading_failure_exits missing_file_lib FileNotFoundError H)).
Defined.

Lemma run_keeps_data (L : Lib) :
  lookup "data" (vars (final_state L (run L))) = lookup "data" (vars (st1 L)).
Proof.
  destruct (final_state_cases L) as [-> | [-> | ->]].
  - reflexivity.
  - assert (H : agree ["data"] (st1 L) (st3 L)) by agree_tac. apply H. now left.
  - assert (H : agree ["data"] (st1 L) (st8 L)) by agree_tac. apply H. now left.
Qed.

(** X6: the run gets past step 1 exactly when the file is read and the three
    exploration calls return.  Its output then starts with the six lines of
    the exploration, in order, and [data] stays bound to the frame that was
    read until the run ends. *)
Theorem loading_outcome (L : Lib) :
  (is_normal (step1 L (s0 L)) <-> exists d, loaded L d) /\
  (forall d, loaded L d ->
     (exists later, shown L (run L) = rev exploration_output ++ later) /\
     lookup "data" (vars (final_state L (run L))) = Some (VFrame d)).
Proof.
  split.
  - split.
    + exact (step1_normal_loaded L (s0 L)).
    + intros (d & Hd). rewrite (step1_loaded L d Hd). now eexists.
  - intros d Hd. pose proof (step1_loaded L d Hd) as E1.
    assert (S1 : st1 L = mkState [("data", VFrame d)] exploration_output)
      by (unfold st1; now rewrite E1).
    split.
    + destruct (run_extends_st1 L) as (new & En). exists (rev new).
      unfold shown. rewrite En, S1. cbn [stdout]. apply rev_app_distr.
    + rewrite run_keeps_data, S1. reflexivity.
Qed.

(** X6, witness: the sample library: the file is read and explored. *)
Lemma loading_outcome_witness :
  loaded sample_lib sample_data /\
  lookup "data" (vars (final_state sample_lib (run sample_lib))) = Some (VFrame sample_data).
Proof.
  assert (H : loaded sample_lib sample_data) by (repeat split).
  split; [exact H|].
  exact (proj2 (proj2 (loading_outcome sample_lib) sample_data H)).
Defined.

(** ** Features and target *)

Lemma index_of_Some (name : string) (cols : list string) (j : nat) :
  index_of name cols = Some j -> nth_error cols j = Some name.
Proof.
  revert j. induction cols as [|c cols IH]; intros j; simpl; [discriminate|].
  destruct (String.eqb c name) eqn:E.
  - intros [= <-]. apply String.eqb_eq in E. now subst.
  - destruct (index_of name cols) as [i|]; simpl; [|discriminate].
    intros [= <-]. now apply IH.
Qed.

Lemma index_of_None (name : string) (cols : list string) :
  index_of name cols = None <-> ~ In name cols.
Proof.
  induction cols as [|c cols IH]; simpl; [tauto|].
  destruct (String.eqb c name) eqn:E.
  - apply String.eqb_eq in E. split; [discriminate|]. intros H. exfalso. apply H. now left.
  - apply String.eqb_neq in E. destruct (index_of name cols) as [i|]; simpl.
    + split; [discriminate|]. intros H. exfalso.
      assert (Hn : ~ In name cols) by tauto. apply IH in Hn. discriminate Hn.
    + split; [|reflexivity]. intros _ [H|H]; [contradiction|].
      now apply (proj1 IH).
Qed.

Lemma insert_remove_nth {A} (j : nat) (l : list A) (a : A) :
  nth_error l j = Some a -> insert_at j a (remove_nth j l) = l.
Proof.
  revert j. induction l as [|x l IH]; intros [|j]; simpl; try discriminate.
  - now intros [= ->].
  - intros H. f_equal. now apply IH.
Qed.

Lemma length_remove_nth {A} (j : nat) (l : list A) :
  j < length l -> S (length (remove_nth j l)) = length l.
Proof.
  revert j. induction l as [|x l IH]; intros [|j]; simpl; try lia.
  intros H. rewrite IH; lia.
Qed.

Lemma In_remove_nth {A} (j : nat) (l : list A) (a : A) :
  In a (remove_nth j l) -> In a l.
Proof.
  revert j. induction l as [|x l IH]; intros [|j]; simpl; try tauto.
  intros [H|H]; [now left|right; now apply (IH j)].
Qed.

Lemma remove_nth_NoDup (j : nat) (l : list string) (a : string) :
  NoDup l -> nth_error l j = Some a -> ~ In a (remove_nth j l).
Proof.
  revert j. induction l as [|x l IH]; intros [|j] Hnd; simpl; try discriminate.
  - intros [= ->]. now inversion Hnd.
  - intros H [Hx|Hin].
    + subst x. inversion Hnd as [|? ? Hni _]. apply Hni. eapply nth_error_In; eauto.
    + inversion Hnd. now apply (IH j).
Qed.

(** X7: [data.drop(name, axis=1)] and [data[name]] fail together, with a
    [KeyError], exactly when the frame has no column of that name.
    Otherwise they lose nothing: putting the target value of each row back
    at the column's position rebuilds the frame; features and target have
    one entry per row, every feature row is one entry shorter, and the
    feature frame no longer has a column of that name. *)
Theorem drop_and_get_column (name : string) (d : DataFrame) :
  well_shaped d -> NoDup (columns d) ->
  (~ In name (columns d) ->
   drop_column name d = inl (KeyError name) /\ get_column name d = inl (KeyError name)) /\
  (In name (columns d) ->
   exists X y j,
     drop_column name d = inr X /\ get_column name d = inr y /\
     columns d = insert_at j name (columns X) /\
     rows d = map (fun p => insert_at j (snd p) (fst p)) (combine (rows X) y) /\
     length (rows X) = length (rows d) /\ length y = length (rows d) /\
     well_shaped X /\ S (length (columns X)) = length (columns d) /\
     ~ In name (columns X)).
Proof.
  intros Hw Hnd. unfold drop_column, get_column. split.
  - intros Hn. apply index_of_None in Hn. now rewrite Hn.
  - intros Hin. destruct (index_of name (columns d)) as [j|] eqn:E;
      [|apply index_of_None in E; contradiction].
    apply index_of_Some in E.
    assert (Hj : j < length (columns d)) by (apply nth_error_Some; congruence).
    eexists _, _, j. split; [reflexivity|]. split; [reflexivity|]. cbn [columns rows].
    split; [symmetry; now apply insert_remove_nth|].
    split; [|split; [apply length_map|split; [apply length_map|split; [|split]]]].
    + unfold well_shaped in Hw. unfold column.
      induction (rows d) as [|r rs IH]; [reflexivity|]. simpl. f_equal.
      * symmetry. apply insert_remove_nth, nth_error_nth'.
        rewrite (Hw r) by now left. exact Hj.
      * apply IH. intros r' Hr'. apply Hw. now right.
    + intros r Hr. cbn [rows columns] in *. apply in_map_iff in Hr as (r0 & <- & Hr0).
      apply Nat.succ_inj. rewrite !length_remove_nth; auto.
      rewrite (Hw r0 Hr0). exact Hj.
    + now apply length_remove_nth.
    + now apply remove_nth_NoDup.
Qed.

(** X7, witness: the sample frame and its target column. *)
Lemma drop_and_get_column_witness :
  well_shaped sample_data /\ NoDup (columns sample_data) /\
  In "Monthly_Sales" (columns sample_data) /\
  exists X y, drop_column "Monthly_Sales" sample_data = inr X /\
              get_column "Monthly_Sales" sample_data = inr y /\
              length (rows X) = length y.
Proof.
  assert (Hw : well_shaped sample_data).
  { intros r Hr. simpl in Hr.
    repeat (destruct Hr as [<-|Hr]; [reflexivity|]). contradiction. }
  assert (Hnd : NoDup (columns sample_data)).
  { simpl. repeat constructor; simpl; intuition discriminate. }
  assert (Hin : In "Monthly_Sales" (columns sample_data)) by (simpl; auto).
  split; [exact Hw|]. split; [exact Hnd|]. split; [exact Hin|].
  destruct (proj2 (drop_and_get_column "Monthly_Sales" sample_data Hw Hnd) Hin)
    as (X & y & j & HX & Hy & _ & _ & H1 & H2 & _).
  exists X, y. split; [exact HX|]. split; [exact Hy|]. now rewrite H1, H2.
Defined.

(** ** Preprocessing *)

(** With [test_size=0.2] the split succeeds on two rows or more. *)
Lemma train_test_split_fifth (L : Lib) (X : DataFrame) (y : vector) :
  2 <= length y -> length (rows X) = length y ->
  exists train test,
    train_test_split L X y (2 # 10) 42
      = inr (mkSplit (mkFrame (columns X) (take_rows [] (rows X) train))
                     (mkFrame (columns X) (take_rows [] (rows X) test))
                     (take_rows 0%Q y train) (take_rows 0%Q y test)) /\
    Permutation (train ++ test) (seq 0 (length y)) /\
    train <> [] /\ test <> [].
Proof.
  intros Hn Hrows.
  destruct (n_test_fifth_bounds (length y) Hn) as ((Hlo & Hhi) & _).
  destruct (shuffle_split L 42 (length y) (2 # 10)) as [e|[train test]] eqn:Hs.
  { exfalso. unfold shuffle_split, validate_shuffle_split in Hs.
    change (negb (Qltb 0 (2 # 10) && Qltb (2 # 10) 1)) with false in Hs.
    cbn [rbind] in Hs.
    destruct (length y - n_test_samples (2 # 10) (length y) =? 0) eqn:E.
    - apply Nat.eqb_eq in E. lia.
    - discriminate Hs. }
  destruct (shuffle_split_partition L 42 (length y) (2 # 10) train test Hs)
    as (Hperm & Htest & Htrain).
  exists train, test. split; [|split; [exact Hperm|split]].
  - unfold train_test_split. rewrite Hrows, Nat.eqb_refl, Hs. reflexivity.
  - intros ->. simpl in Htrain. lia.
  - intros ->. simpl in Htest. lia.
Qed.

(** On fewer than two rows it raises: the train set would be empty. *)
Lemma train_test_split_too_few (L : Lib) (X : DataFrame) (y : vector) :
  length y < 2 -> exists msg, train_test_split L X y (2 # 10) 42 = inl (ValueError msg).
Proof.
  intros Hn. unfold train_test_split.
  destruct (length (rows X) =? length y); cbn [negb]; [|eauto].
  unfold shuffle_split, validate_shuffle_split.
  destruct (length y) as [|[|n]]; [vm_compute; eauto|vm_compute; eauto|lia].
Qed.

Lemma take_rows_width (w : nat) (X : matrix) (idx : list nat) :
  width w X -> (forall i, In i idx -> i < length X) -> width w (take_rows [] X idx).
Proof.
  intros Hw Hidx r Hr. unfold take_rows in Hr. apply in_map_iff in Hr as (i & <- & Hi).
  apply Hw, nth_In, Hidx, Hi.
Qed.

Lemma width_n_features (w : nat) (X : matrix) : X <> [] -> width w X -> n_features X = w.
Proof.
  destruct X as [|r X]; [congruence|]. intros _ H. apply H. now left.
Qed.

Lemma StandardScaler_fit_lengths (L : Lib) (X : matrix) (st : scaler_state) :
  StandardScaler_fit L X = inr st ->
  length (mean_ st) = n_features X /\ length (scale_ st) = n_features X.
Proof.
  unfold StandardScaler_fit. destruct (length X =? 0); [discriminate|].
  destruct (n_features X =? 0); [discriminate|]. intros [= <-].
  cbn [mean_ scale_]. now rewrite !length_map, length_seq.
Qed.

(** The scaler refuses a matrix without features. *)
Lemma StandardScaler_fit_features (L : Lib) (X : matrix) (st : scaler_state) :
  StandardScaler_fit L X = inr st -> 0 < n_features X.
Proof.
  unfold StandardScaler_fit. destruct (length X =? 0); [discriminate|].
  destruct (Nat.eqb_spec (n_features X) 0); [discriminate|]. lia.
Qed.

Lemma take_rows_no_features (X : matrix) (idx : list nat) :
  width 0 X -> n_features (take_rows [] X idx) = 0.
Proof.
  intros Hw. destruct idx as [|i idx]; [reflexivity|]. cbn.
  destruct (nth_in_or_default i X []) as [Hin | ->]; [now apply Hw|reflexivity].
Qed.

Lemma StandardScaler_transform_ok (st : scaler_state) (X : matrix) :
  width (length (mean_ st)) X ->
  StandardScaler_transform (Some st) X = inr (map (scale_row st) X).
Proof.
  intros Hw. unfold StandardScaler_transform.
  destruct (existsb _ X) eqn:E; [|reflexivity].
  apply existsb_exists in E as (r & Hr & Hne). rewrite (Hw r Hr), Nat.eqb_refl in Hne.
  discriminate Hne.
Qed.

Lemma StandardScaler_fit_transform_ok (L : Lib) (w : nat) (X : matrix) :
  X <> [] -> 1 <= w -> width w X ->
  exists st, StandardScaler_fit_transform L X = inr (Some st, map (scale_row st) X) /\
             length (mean_ st) = w /\ length (scale_ st) = w.
Proof.
  intros Hne H1 Hw. unfold StandardScaler_fit_transform.
  destruct (StandardScaler_fit L X) as [e|st] eqn:E.
  - exfalso. unfold StandardScaler_fit in E.
    rewrite (width_n_features w X Hne Hw) in E.
    destruct X; [congruence|]. destruct w; [lia|discriminate E].
  - destruct (StandardScaler_fit_lengths L X st E) as (Hm & Hs).
    rewrite (width_n_features w X Hne Hw) in Hm, Hs.
    exists st. cbn [rbind]. rewrite StandardScaler_transform_ok by now rewrite Hm.
    auto.
Qed.

Lemma length_scale_row (st : scaler_state) (r : vector) :
  length (mean_ st) = length (scale_ st) -> length r = length (mean_ st) ->
  length (scale_row st r) = length r.
Proof.
  intros H1 H2. unfold scale_row. rewrite length_map, !length_combine. lia.
Qed.

(** What a completed [transform] returns. *)
Lemma StandardScaler_transform_inv (st : scaler_state) (X Xs : matrix) :
  StandardScaler_transform (Some st) X = inr Xs ->
  Xs = map (scale_row st) X /\ width (length (mean_ st)) X.
Proof.
  unfold StandardScaler_transform. destruct (existsb _ X) eqn:E; [discriminate|].
  intros [= <-]. split; [reflexivity|]. intros r Hr.
  destruct (Nat.eqb_spec (length r) (length (mean_ st))) as [Heq|Hne]; [exact Heq|].
  exfalso. assert (Ht : existsb (fun r => negb (length r =? length (mean_ st))) X = true).
  { apply existsb_exists. exists r. split; [exact Hr|].
    apply negb_true_iff, Nat.eqb_neq, Hne. }
  congruence.
Qed.

Lemma get_column_length (name : string) (d : DataFrame) (y : vector) :
  get_column name d = inr y -> length y = length (rows d).
Proof.
  unfold get_column. destruct (index_of name (columns d)); [|discriminate].
  intros [= <-]. apply length_map.
Qed.

Lemma drop_column_length (name : string) (d X : DataFrame) :
  drop_column name d = inr X -> length (rows X) = length (rows d).
Proof.
  unfold drop_column. destruct (index_of name (columns d)); [|discriminate].
  intros [= <-]. apply length_map.
Qed.

Lemma drop_column_width (name : string) (d X : DataFrame) :
  well_shaped d -> drop_column name d = inr X ->
  exists w, S w = length (columns d) /\ width w (rows X).
Proof.
  intros Hw. unfold drop_column.
  destruct (index_of name (columns d)) as [j|] eqn:E; [|discriminate].
  intros [= <-]. apply index_of_Some in E.
  assert (Hj : j < length (columns d)) by (apply nth_error_Some; congruence).
  exists (length (remove_nth j (columns d))). split; [now apply length_remove_nth|].
  intros r Hr. cbn [rows] in Hr. apply in_map_iff in Hr as (r0 & <- & Hr0).
  apply Nat.succ_inj. rewrite !length_remove_nth; auto.
  rewrite (Hw r0 Hr0). exact Hj.
Qed.

(** On a well-shaped frame with the target column and two rows or more,
    every call of step 3 returns. *)
Lemma step3_calls (L : Lib) (d : DataFrame) :
  well_shaped d -> In "Monthly_Sales" (columns d) -> 2 <= length (rows d) ->
  2 <= length (columns d) ->
  exists X y sp st Xt,
    drop_column "Monthly_Sales" d = inr X /\
    get_column "Monthly_Sales" d = inr y /\
    train_test_split L X y (2 # 10) 42 = inr sp /\
    StandardScaler_fit_transform L (rows (sp_X_train sp))
      = inr (Some st, map (scale_row st) (rows (sp_X_train sp))) /\
    StandardScaler_transform (Some st) (rows (sp_X_test sp)) = inr Xt.
Proof.
  intros Hw Hin Hn Hc.
  destruct (drop_column "Monthly_Sales" d) as [e|X] eqn:HX.
  { exfalso. unfold drop_column in HX.
    destruct (index_of _ _) eqn:E; [discriminate|]. now apply index_of_None in E. }
  destruct (get_column "Monthly_Sales" d) as [e|y] eqn:Hy.
  { exfalso. unfold get_column in Hy.
    destruct (index_of _ _) eqn:E; [discriminate|]. now apply index_of_None in E. }
  pose proof (get_column_length _ _ _ Hy) as Ly.
  pose proof (drop_column_length _ _ _ HX) as LX.
  destruct (drop_column_width _ _ _ Hw HX) as (w & Hcols & HwX).
  destruct (train_test_split_fifth L X y) as (train & test & Hsp & Hperm & Htr & Hte);
    [lia|lia|].
  assert (Hidx : forall i, In i (train ++ test) -> i < length (rows X)).
  { intros i Hi. apply (Permutation_in _ Hperm) in Hi. apply in_seq in Hi. lia. }
  assert (Wtr : width w (take_rows [] (rows X) train)).
  { apply take_rows_width; [exact HwX|]. intros i Hi. apply Hidx, in_or_app. now left. }
  assert (Wte : width w (take_rows [] (rows X) test)).
  { apply take_rows_width; [exact HwX|]. intros i Hi. apply Hidx, in_or_app. now right. }
  assert (Hne : take_rows [] (rows X) train <> []).
  { destruct train; [congruence|discriminate]. }
  destruct (StandardScaler_fit_transform_ok L w _ Hne ltac:(lia) Wtr) as (st & Hfit & Hm & _).
  eexists X, y, _, st, _. split; [reflexivity|]. split; [reflexivity|].
  split; [exact Hsp|]. cbn [sp_X_train sp_X_test rows]. split; [exact Hfit|].
  apply StandardScaler_transform_ok. now rewrite Hm.
Qed.

Lemma step3_completes (L : Lib) (d : DataFrame) (s : state L) :
  lookup "data" (vars s) = Some (VFrame d) ->
  well_shaped d -> In "Monthly_Sales" (columns d) -> 2 <= length (rows d) ->
  2 <= length (columns d) ->
  wp (step3 L) is_normal s.
Proof.
  intros Hdata Hw Hin Hn Hc.
  destruct (step3_calls L d Hw Hin Hn Hc)
    as (X & y & sp & st & Xt & HX & Hy & Hsp & Hfit & Htr).
  unfold step3, step3_body. wp_exec.
  all: try (unfold is_normal; eauto; fail).
  all: exfalso; same_call.
Qed.
(** What a completed split returns. *)
Lemma train_test_split_inv (L : Lib) (X : DataFrame) (y : vector) (f : Q) (seed : Z)
  (sp : split_result) :
  train_test_split L X y f seed = inr sp ->
  exists train test,
    sp = mkSplit (mkFrame (columns X) (take_rows [] (rows X) train))
                 (mkFrame (columns X) (take_rows [] (rows X) test))
                 (take_rows 0%Q y train) (take_rows 0%Q y test) /\
    length (rows X) = length y /\
    Permutation (train ++ test) (seq 0 (length y)).
Proof.
  unfold train_test_split.
  destruct (Nat.eqb_spec (length (rows X)) (length y)) as [Hl|]; [|discriminate].
  cbn [negb].
  destruct (shuffle_split L seed (length y) f) as [e|[train test]] eqn:Hs; [discriminate|].
  cbn [rbind]. intros [= <-]. exists train, test. split; [reflexivity|]. split; [exact Hl|].
  now destruct (shuffle_split_partition L seed (length y) f train test Hs).
Qed.

(** What a completed [fit_transform] returns. *)
Lemma StandardScaler_fit_transform_inv (L : Lib) (X Xs : matrix) (sc : scaler) :
  StandardScaler_fit_transform L X = inr (sc, Xs) ->
  exists st, sc = Some st /\ StandardScaler_fit L X = inr st /\
             Xs = map (scale_row st) X /\
             width (length (mean_ st)) X /\
             length (scale_ st) = length (mean_ st).
Proof.
  unfold StandardScaler_fit_transform.
  destruct (StandardScaler_fit L X) as [e|st] eqn:E; [discriminate|]. cbn [rbind].
  destruct (StandardScaler_transform (Some st) X) as [e|Xs'] eqn:Et; [discriminate|].
  cbn [rbind]. intros [= <- <-].
  destruct (StandardScaler_transform_inv st X Xs' Et) as (-> & Hw).
  destruct (StandardScaler_fit_lengths L X st E) as (Hm & Hs).
  exists st. repeat split; auto. congruence.
Qed.

(** Without a feature column the scaler refuses the train rows. *)
Lemma step3_no_features (L : Lib) (d : DataFrame) (s : state L) :
  lookup "data" (vars s) = Some (VFrame d) -> well_shaped d -> length (columns d) < 2 ->
  wp (step3 L) (fun o => ~ is_normal o) s.
Proof.
  intros Hdata Hw Hc. unfold step3, step3_body. wp_exec.
  all: try (intros (s' & E); discriminate E).
  all: exfalso; same_call.
  all: match goal with
       | HX : drop_column _ _ = inr ?X,
         Hs : train_test_split _ ?X _ _ _ = inr ?sp,
         Hf : StandardScaler_fit_transform _ (rows (sp_X_train ?sp)) = inr ?r |- _ =>
           destruct (drop_column_width _ _ _ Hw HX) as (w & Hcols & HwX);
           destruct (train_test_split_inv _ _ _ _ _ _ Hs) as (train & test & E & _ & _);
           rewrite E in Hf; cbn [sp_X_train rows] in Hf;
           destruct r as [sc Xs];
           destruct (StandardScaler_fit_transform_inv _ _ _ _ Hf) as (st & _ & Hfit & _);
           apply StandardScaler_fit_features in Hfit;
           rewrite take_rows_no_features in Hfit; [lia|];
           destruct w; [exact HwX|lia]
       end.
Qed.

Lemma step3_too_few (L : Lib) (d : DataFrame) (s : state L) :
  lookup "data" (vars s) = Some (VFrame d) -> length (rows d) < 2 ->
  wp (step3 L) (fun o => ~ is_normal o) s.
Proof.
  intros Hdata Hn. unfold step3, step3_body. wp_exec.
  all: try (intros (s' & E); discriminate E).
  all: exfalso; same_call.
  all: match goal with
       | Hy : get_column _ _ = inr ?y, Hs : train_test_split ?L0 ?X ?y _ _ = inr _ |- _ =>
           apply get_column_length in Hy;
           destruct (train_test_split_too_few L0 X y) as (msg & Hm); [lia|congruence]
       end.
Qed.

Lemma step3_missing_target (L : Lib) (d : DataFrame) (s : state L) :
  lookup "data" (vars s) = Some (VFrame d) -> ~ In "Monthly_Sales" (columns d) ->
  step3 L s = SystemExit (mkState (vars s)
                (SayError "An error occurred during preprocessing" (KeyError "Monthly_Sales")
                 :: stdout s)).
Proof.
  intros Hdata Hn. apply index_of_None in Hn.
  unfold step3, step3_body, try_except, bind, get_frame, get_as. rewrite Hdata. cbn [as_frame].
  unfold drop_column. rewrite Hn. reflexivity.
Qed.

Lemma step2_vars (L : Lib) (s : state L) : vars (final_state L (step2 L s)) = vars s.
Proof.
  destruct (step2_binds L s) as (new & E & Hs). rewrite E.
  destruct new as [|b new]; [reflexivity|]. exfalso.
  assert (Hl : length (rev (map fst (b :: new))) = 0).
  { remember (rev (map fst (b :: new))) as l. clear -Hs. now inversion Hs. }
  rewrite length_rev, length_map in Hl. discriminate Hl.
Qed.

Lemma loaded_st2 (L : Lib) (d : DataFrame) :
  loaded L d ->
  step1 L (s0 L) = Normal tt (st1 L) /\ vars (st2 L) = [("data", VFrame d)] /\
  exists new, stdout (st2 L) = new ++ exploration_output.
Proof.
  intros Hd. pose proof (step1_loaded L d Hd) as E1.
  assert (S1 : st1 L = mkState [("data", VFrame d)] exploration_output)
    by (unfold st1; now rewrite E1).
  split; [now rewrite S1|]. split.
  - unfold st2. now rewrite step2_vars, S1.
  - destruct (emits_extends L _ _ _ (step2_emits L (st1 L))) as (new & En).
    exists new. fold (st2 L) in En. now rewrite En, S1.
Qed.

(** X8: on a dataset without a [Monthly_Sales] column the run loads and
    explores the file, then stops in preprocessing: the last thing it shows
    is the preprocessing error with the [KeyError] as its cause, it exits,
    [data] is still bound to the dataset, and none of the names that the
    later statements assign (lines 70 to 218) has been bound. *)
Theorem missing_target_exits (L : Lib) (d : DataFrame) :
  loaded L d -> ~ In "Monthly_Sales" (columns d) ->
  exists s,
    run L = SystemExit s /\
    hd_error (stdout s)
    = Some (SayError "An error occurred during preprocessing" (KeyError "Monthly_Sales")) /\
    lookup "data" (vars s) = Some (VFrame d) /\
    (forall n, In n (assigned3 ++ assigned4 ++ assigned5 ++ assigned6 ++ assigned7) ->
               lookup n (vars s) = None).
Proof.
  intros Hd Hn. destruct (loaded_st2 L d Hd) as (E1 & V2 & _).
  assert (Hdata : lookup "data" (vars (st2 L)) = Some (VFrame d)) by now rewrite V2.
  pose proof (step3_missing_target L d (st2 L) Hdata Hn) as E3.
  assert (S3 : st3 L = mkState (vars (st2 L))
                 (SayError "An error occurred during preprocessing" (KeyError "Monthly_Sales")
                  :: stdout (st2 L))) by (unfold st3; now rewrite E3).
  exists (st3 L).
  destruct (run_cases L) as [(E & _)|[(_ & _ & E)|(_ & E & _)]].
  - rewrite E1 in E. discriminate E.
  - split; [exact E|]. rewrite S3. split; [reflexivity|]. cbn [vars].
    split; [exact Hdata|]. intros n Hin. rewrite V2.
    cbn in Hin. repeat (destruct Hin as [<-|Hin]; [reflexivity|]). contradiction.
  - rewrite E3 in E. discriminate E.
Qed.

(** X8, witness: a file with two feature columns and no target. *)
Lemma missing_target_exits_witness :
  loaded no_target_lib no_target_data /\
  ~ In "Monthly_Sales" (columns no_target_data) /\
  exists s, run no_target_lib = SystemExit s /\
            lookup "data" (vars s) = Some (VFrame no_target_data) /\
            lookup "X" (vars s) = None.
Proof.
  assert (H : loaded no_target_lib no_target_data) by (repeat split).
  assert (Hn : ~ In "Monthly_Sales" (columns no_target_data))
    by (simpl; intuition discriminate).
  split; [exact H|]. split; [exact Hn|].
  destruct (missing_target_exits no_target_lib no_target_data H Hn) as (s & E & _ & V & U).
  exists s. split; [exact E|]. split; [exact V|]. apply U. simpl. auto.
Defined.

(** X9: once the file is loaded and explored, with a well-shaped frame of
    numbers that has the target column, the run goes through all eight
    steps exactly when the frame has two rows or more and a feature column
    besides the target; on fewer rows it exits in preprocessing, because the
    train set would be empty, and without a feature column it exits in
    preprocessing, because the scaler refuses a matrix without features. *)
Theorem run_completes_iff (L : Lib) (d : DataFrame) :
  loaded L d -> well_shaped d -> In "Monthly_Sales" (columns d) ->
  (is_normal (run L) <-> 2 <= length (rows d) /\ 2 <= length (columns d)) /\
  (length (rows d) < 2 \/ length (columns d) < 2 -> run L = SystemExit (st3 L)).
Proof.
  intros Hd Hw Hin. destruct (loaded_st2 L d Hd) as (E1 & V2 & _).
  assert (Hdata : lookup "data" (vars (st2 L)) = Some (VFrame d)) by now rewrite V2.
  assert (Hfew : length (rows d) < 2 \/ length (columns d) < 2 ->
                 run L = SystemExit (st3 L)).
  { intros Hn.
    assert (H3 : ~ is_normal (step3 L (st2 L))).
    { destruct Hn as [Hn|Hn].
      - exact (step3_too_few L d (st2 L) Hdata Hn).
      - exact (step3_no_features L d (st2 L) Hdata Hw Hn). }
    destruct (run_cases L) as [(E & _)|[(_ & _ & E)|(_ & E & _)]].
    - rewrite E1 in E. discriminate E.
    - exact E.
    - exfalso. apply H3. rewrite E. now eexists. }
  split; [split|exact Hfew].
  - intros (s' & E).
    destruct (Nat.lt_ge_cases (length (rows d)) 2) as [Hlt|Hge].
    { rewrite (Hfew (or_introl Hlt)) in E. discriminate E. }
    destruct (Nat.lt_ge_cases (length (columns d)) 2) as [Hlt|Hge'].
    { rewrite (Hfew (or_intror Hlt)) in E. discriminate E. }
    split; assumption.
  - intros (Hn & Hc).
    destruct (step3_completes L d (st2 L) Hdata Hw Hin Hn Hc) as (s3 & E3).
    destruct (run_cases L) as [(E & _)|[(_ & E & _)|(_ & _ & E)]].
    + rewrite E1 in E. discriminate E.
    + rewrite E3 in E. discriminate E.
    + rewrite E. now eexists.
Qed.

(** X9, witness: the sample dataset: ten rows, and feature columns besides
    the target. *)
Lemma run_completes_iff_witness :
  loaded sample_lib sample_data /\ well_shaped sample_data /\
  In "Monthly_Sales" (columns sample_data) /\
  2 <= length (rows sample_data) /\ 2 <= length (columns sample_data) /\
  is_normal (run sample_lib).
Proof.
  assert (H : loaded sample_lib sample_data) by (repeat split).
  assert (Hw : well_shaped sample_data).
  { intros r Hr. simpl in Hr.
    repeat (destruct Hr as [<-|Hr]; [reflexivity|]). contradiction. }
  assert (Hin : In "Monthly_Sales" (columns sample_data)) by (simpl; auto).
  assert (Hr : 2 <= length (rows sample_data)) by (simpl; lia).
  assert (Hc : 2 <= length (columns sample_data)) by (simpl; lia).
  split; [exact H|]. split; [exact Hw|]. split; [exact Hin|].
  split; [exact Hr|]. split; [exact Hc|].
  apply (proj1 (run_completes_iff sample_lib sample_data H Hw Hin)).
  split; [exact Hr|exact Hc].
Defined.

Lemma scale_row_width (st : scaler_state) (X : matrix) :
  length (scale_ st) = length (mean_ st) ->
  width (length (mean_ st)) X -> width (length (mean_ st)) (map (scale_row st) X).
Proof.
  intros Hs Hw r Hr. apply in_map_iff in Hr as (r0 & <- & Hr0).
  rewrite length_scale_row; auto.
Qed.

(** X10: in a run that went through all eight steps the prepared data has
    matching shapes: as many scaled train rows as train targets, as many
    scaled test rows as test targets, train and test together as many as the
    dataset has rows, neither part empty, and every scaled row, train or
    test, has the same number of features. *)
Theorem prepared_shapes (L : Lib) (s : state L) :
  run L = Normal tt s ->
  exists d Xs ys Xt yt w,
    lookup "data" (vars s) = Some (VFrame d) /\
    prepared L Xs ys Xt yt s /\
    length Xs = length ys /\ length Xt = length yt /\
    length ys + length yt = length (rows d) /\
    ys <> [] /\
    width w Xs /\ width w Xt.
Proof.
  intros Hrun.
  assert (Hfin : final_state L (run L) = s) by now rewrite Hrun.
  destruct (run_cases L) as [(_ & E)|[(_ & _ & E)|(_ & E3 & E)]];
    rewrite E in Hrun; try discriminate Hrun. injection Hrun as <-.
  pose proof (step3_prepared L (st2 L)) as Hp. unfold wp in Hp.
  rewrite E3 in Hp. destruct Hp as (Xs & ys & Xt & yt & Hp); [now eexists|].
  cbn [final_state] in Hp.
  assert (Ha : agree protected (st3 L) (st8 L)) by agree_tac.
  apply (prepared_agree L _ _ _ _ _ _ Ha) in Hp.
  pose proof (run_split_facts L) as (Htrain & Htest). rewrite Hfin in Htrain, Htest.
  destruct Hp as (H1 & H2 & H3 & H4).
  destruct (Htrain _ H1) as (d & X & y & sp & sc & Xs' & [= <-] & Hd & HX & Hy & Hsp
                             & HXtr & HXte & Hytr & Hyte & Hfit & Hsc).
  destruct (Htest _ H3) as (sc' & X_test & Xt' & [= <-] & Hsc' & HXte' & Htr).
  rewrite Hsc in Hsc'. injection Hsc' as <-.
  rewrite HXte in HXte'. injection HXte' as <-.
  rewrite Hytr in H2. injection H2 as <-. rewrite Hyte in H4. injection H4 as <-.
  destruct (train_test_split_inv L X y _ _ sp Hsp) as (train & test & -> & Hl & Hperm).
  cbn [sp_X_train sp_X_test sp_y_train sp_y_test rows] in *.
  destruct (StandardScaler_fit_transform_inv L _ _ _ Hfit) as (st & -> & _ & -> & Hw & Hs).
  destruct (StandardScaler_transform_inv st _ _ Htr) as (-> & Hw').
  exists d, (map (scale_row st) (take_rows [] (rows X) train)), (take_rows 0%Q y train),
    (map (scale_row st) (take_rows [] (rows X) test)), (take_rows 0%Q y test),
    (length (mean_ st)).
  split; [exact Hd|]. split; [repeat split; assumption|].
  rewrite !length_map, !length_take_rows.
  split; [reflexivity|]. split; [reflexivity|].
  split; [|split; [|split]].
  - rewrite <- length_app, (Permutation_length Hperm), length_seq.
    now apply get_column_length in Hy.
  - intros Hnil. apply (f_equal (@length Q)) in Hnil. rewrite length_take_rows in Hnil.
    destruct train; [|discriminate Hnil].
    unfold StandardScaler_fit_transform, StandardScaler_fit in Hfit. discriminate Hfit.
  - now apply scale_row_width.
  - now apply scale_row_width.
Qed.
(** X10, witness: the run on the sample dataset: eight train rows and two test rows. *)
Lemma prepared_shapes_witness :
  exists s d Xs ys Xt yt,
    run sample_lib = Normal tt s /\
    lookup "data" (vars s) = Some (VFrame d) /\
    prepared sample_lib Xs ys Xt yt s /\
    length Xs = length ys /\ length Xt = length yt /\
    length ys + length yt = length (rows d).
Proof.
  assert (H : exists s, run sample_lib = Normal tt s) by (vm_compute; eexists; reflexivity).
  destruct H as (s & H).
  destruct (prepared_shapes sample_lib s H)
    as (d & Xs & ys & Xt & yt & w & Hd & Hp & H1 & H2 & H3 & _).
  exists s, d, Xs, ys, Xt, yt. auto 10.
Defined.

(** ** The comparison table and the closing text *)

Lemma step8_output (L : Lib) (s : state L) :
  step8 L s = Normal tt (mkState (vars s) (rev insights_output ++ stdout s)).
Proof. reflexivity. Qed.

(** X12: a run that is not ended by [exit()] closes with the same eleven lines,
    the business insights and recommendations of step 8, whatever the data,
    the models and the failures reported before. *)
Theorem insights_are_fixed (L : Lib) :
  is_normal (run L) ->
  exists earlier, shown L (run L) = earlier ++ insights_output.
Proof.
  intros (s & Hrun).
  destruct (run_cases L) as [(_ & E)|[(_ & _ & E)|(_ & _ & E)]];
    rewrite E in Hrun; try discriminate Hrun.
  exists (rev (stdout (st7 L))). unfold shown. rewrite E. cbn [final_state].
  unfold st8. rewrite step8_output. cbn [final_state stdout].
  now rewrite rev_app_distr, rev_involutive.
Qed.

(** X12, witness: the run on the sample dataset. *)
Lemma insights_are_fixed_witness :
  is_normal (run sample_lib) /\
  exists earlier, shown sample_lib (run sample_lib) = earlier ++ insights_output.
Proof.
  assert (H : is_normal (run sample_lib)) by (vm_compute; eexists; reflexivity).
  split; [exact H|]. exact (insights_are_fixed sample_lib H).
Defined.

Lemma step7_shows (L : Lib) (s : state L) (a b c d e f : float) :
  lookup "mse_lr" (vars s) = Some (VFloat a) ->
  lookup "mse_rf" (vars s) = Some (VFloat b) ->
  lookup "mse_optimized" (vars s) = Some (VFloat c) ->
  lookup "r2_lr" (vars s) = Some (VFloat d) ->
  lookup "r2_rf" (vars s) = Some (VFloat e) ->
  lookup "r2_optimized" (vars s) = Some (VFloat f) ->
  wp (step7 L) (fun o => exists t, In (SayTable t) (stdout (final_state L o))) s.
Proof.
  intros H1 H2 H3 H4 H5 H6. unfold step7, step7_body. wp_exec.
  all: same_call.
  all: eexists; simpl; eauto.
Qed.

Lemma is_bound_lookup (L : Lib) (st : state L) (n : string) :
  is_bound st n = true -> exists v, lookup n (vars st) = Some v.
Proof. unfold is_bound. destruct (lookup n (vars st)); [eauto|discriminate]. Qed.

(** X13: the comparison table is shown exactly when all six metrics are bound
    at the end of the run, that is when each of the three models got as far
    as its R2 score. *)
Theorem table_shown_iff_metrics (L : Lib) :
  (exists t, In (SayTable t) (shown L (run L))) <->
  forallb (is_bound (final_state L (run L))) metric_names = true.
Proof.
  split.
  - intros (t & Ht). unfold shown in Ht. apply in_rev in Ht.
    destruct (run_table L t Ht) as (a & b & c & d & e & f & _ & _ & H1 & H2 & H3 & H4 & H5 & H6).
    unfold metric_names, is_bound. cbn [forallb].
    now rewrite H1, H2, H3, H4, H5, H6.
  - intros Hb. unfold metric_names in Hb. cbn [forallb] in Hb.
    apply andb_prop in Hb as [B1 Hb]. apply andb_prop in Hb as [B2 Hb].
    apply andb_prop in Hb as [B3 Hb]. apply andb_prop in Hb as [B4 Hb].
    apply andb_prop in Hb as [B5 Hb]. apply andb_prop in Hb as [B6 _].
    destruct (is_bound_lookup L _ _ B1) as (v1 & H). destruct (is_bound_lookup L _ _ B2) as (v2 & H0).
    destruct (is_bound_lookup L _ _ B3) as (v3 & H1). destruct (is_bound_lookup L _ _ B4) as (v4 & H2).
    destruct (is_bound_lookup L _ _ B5) as (v5 & H3). destruct (is_bound_lookup L _ _ B6) as (v6 & H4).
    clear B1 B2 B3 B4 B5 B6.
    destruct (bound_completed L "mse_lr" v1) as (Hfin & Xs & ys & Xt & yt & Hp);
      [cbv; tauto|exact H|].
    rewrite Hfin in *.
    destruct (model_facts_st8 L Xs ys Xt yt Hp)
      as ((_ & _ & Slr1 & Slr2) & (_ & _ & Srf1 & Srf2) & (_ & _ & Sop1 & Sop2)).
    destruct (Slr1 _ H) as (? & a & -> & _). destruct (Srf1 _ H0) as (? & b & -> & _).
    destruct (Sop1 _ H1) as (? & c & -> & _). destruct (Slr2 _ H2) as (? & d & -> & _).
    destruct (Srf2 _ H3) as (? & e & -> & _). destruct (Sop2 _ H4) as (? & f & -> & _).
    assert (Ha : agree metric_names (st6 L) (st8 L)) by agree_tac.
    unfold metric_names in Ha. agree_eqs Ha.
    rewrite Eq in H. rewrite Eq0 in H0. rewrite Eq1 in H1. rewrite Eq2 in H2.
    rewrite Eq3 in H3. rewrite Eq4 in H4.
    destruct (step7_shows L (st6 L) a b c d e f H H0 H1 H2 H3 H4) as (t & Ht).
    fold (st7 L) in Ht.
    destruct (emits_extends L _ _ _ (step8_emits L (st7 L))) as (new & En).
    fold (st8 L) in En.
    exists t. unfold shown. rewrite Hfin. apply -> in_rev. rewrite En.
    apply in_or_app. now right.
Qed.

(** ** How a search can fail *)

Lemma assign_param_valid (p : rf_params) (k : string) (v : pyval) :
  valid_param k = true -> exists p', assign_param p k v = Some p'.
Proof.
  unfold valid_param, assign_param. cbn [existsb]. rewrite !(String.eqb_sym k).
  intros H.
  destruct (String.eqb "n_estimators" k); [eauto|].
  destruct (String.eqb "max_depth" k); [eauto|].
  destruct (String.eqb "min_samples_split" k); [eauto|].
  destruct (String.eqb "min_samples_leaf" k); [eauto|].
  destruct (String.eqb "random_state" k); [eauto|discriminate H].
Qed.

Lemma set_params_valid (p : rf_params) (d : dict) :
  forallb (fun kv => valid_param (fst kv)) d = true -> exists p', set_params p d = inr p'.
Proof.
  revert p. induction d as [|[k v] d IH]; intros p H; simpl in *; [eauto|].
  apply andb_prop in H as [Hk Hd].
  destruct (assign_param_valid p k v Hk) as (p' & ->). now apply IH.
Qed.

Lemma is_point_keys (items : grid) (d : dict) :
  is_point items d -> map fst d = map fst items.
Proof.
  unfold is_point. induction 1 as [|kv it d items [Hk _] _ IH]; simpl; [reflexivity|].
  now rewrite Hk, IH.
Qed.

(** Every candidate of a grid with valid keys can be set on the estimator. *)
Lemma candidate_valid (g : grid) (d : dict) :
  valid_keys g = true -> In d (ParameterGrid g) ->
  forallb (fun kv => valid_param (fst kv)) d = true.
Proof.
  intros Hv Hin. apply in_product, is_point_keys in Hin.
  apply forallb_forall. intros kv Hkv.
  assert (Hk : In (fst kv) (map fst (sorted_items g))) by (rewrite <- Hin; now apply in_map).
  apply in_map_iff in Hk as (it & Hit & Hin').
  apply (Permutation_in _ (sorted_items_perm g)) in Hin'.
  unfold valid_keys in Hv. rewrite forallb_forall in Hv. rewrite <- Hit. now apply Hv.
Qed.

Lemma mapM_inl {A B} (f : A -> res B) (l : list A) (e : exn) :
  mapM f l = inl e -> exists a, In a l /\ f a = inl e.
Proof.
  induction l as [|a l IH]; simpl; [discriminate|].
  destruct (f a) as [e'|b] eqn:E; simpl.
  - intros [= <-]. exists a. auto.
  - destruct (mapM f l) as [e'|bs]; simpl; [|discriminate].
    intros [= <-]. destruct (IH eq_refl) as (a' & Ha & Hf). exists a'. auto.
Qed.

Lemma mapM_In {A B} (f : A -> res B) (l : list A) (out : list B) (a : A) :
  mapM f l = inr out -> In a l -> exists b, In b out /\ f a = inr b.
Proof.
  intros Hm Hin. apply In_nth_error in Hin as (i & Hi).
  destruct (mapM_nth_error f l out i a Hm Hi) as (b & Hb & Hf).
  exists b. split; [now apply (nth_error_In _ i)|exact Hf].
Qed.

(** A job reports a failed fit exactly when the fit on the fold's train rows
    raised. *)
Lemma fit_and_score_failed (L : Lib) (base : rf_params) (X : matrix) (y : vector)
  (job : dict * (list nat * list nat)) (s : float) :
  fit_and_score L base X y job = inr (true, s) ->
  exists est err,
    set_params base (fst job) = inr est /\
    rf_fit L est (take_rows [] X (fst (snd job))) (take_rows 0%Q y (fst (snd job))) = inl err.
Proof.
  unfold fit_and_score. destruct (set_params base (fst job)) as [e|est]; simpl; [discriminate|].
  destruct (rf_fit L est _ _) as [err|m] eqn:E; [eauto|].
  destruct (rf_predict L m _); [discriminate|]. destruct (r2_score _ _); discriminate.
Qed.

Lemma nth_candidate_valid (g : grid) (i : nat) :
  valid_keys g = true ->
  forallb (fun kv => valid_param (fst kv)) (nth i (ParameterGrid g) []) = true.
Proof.
  intros Hv. destruct (Nat.lt_ge_cases i (length (ParameterGrid g))) as [Hi|Hi].
  - apply (candidate_valid g); [exact Hv|]. now apply nth_In.
  - now rewrite nth_overflow.
Qed.

(** The ways [grid_search.fit] can raise when the keys of the grid are
    parameters of the estimator. *)
Lemma GridSearchCV_fit_raises (L : Lib) (c : search_cfg) (X : matrix) (y : vector) (e : exn) :
  valid_keys (param_grid_ c) = true ->
  GridSearchCV_fit L c X y = inl e ->
  length X <> length y \/
  (exists kv, In kv (param_grid_ c) /\ snd kv = []) \/
  cv c < 2 \/ length y < cv c \/
  (e = ValueError "All the fits failed" /\
   exists splits, KFold_split (cv c) (length y) = inr splits /\
     forall d sp, In d (ParameterGrid (param_grid_ c)) -> In sp splits ->
       exists est err,
         set_params (estimator c) d = inr est /\
         rf_fit L est (take_rows [] X (fst sp)) (take_rows 0%Q y (fst sp)) = inl err) \/
  (exists est, rf_fit L est X y = inl e).
Proof.
  intros Hv. unfold GridSearchCV_fit.
  destruct (Nat.eqb_spec (length X) (length y)) as [Hl|Hl]; cbn [negb]; [|auto].
  destruct (existsb _ (param_grid_ c)) eqn:Hempty.
  { intros _. right. left. apply existsb_exists in Hempty as (kv & Hkv & Hz).
    exists kv. split; [exact Hkv|]. apply Nat.eqb_eq in Hz. now destruct (snd kv). }
  destruct (KFold_split (cv c) (length y)) as [e'|splits] eqn:Hk; cbn [rbind].
  { intros _. unfold KFold_split in Hk.
    destruct (Nat.ltb_spec (cv c) 2); [auto|].
    destruct (Nat.ltb_spec (length y) (cv c)); [auto 6|discriminate Hk]. }
  destruct (mapM _ _) as [e'|out] eqn:Hout; cbn [rbind].
  { exfalso. apply mapM_inl in Hout as ((d & sp) & Hjob & Hf).
    unfold cv_jobs in Hjob. apply in_prod_iff in Hjob as (Hd & _).
    unfold fit_and_score in Hf. cbn [fst] in Hf.
    destruct (set_params_valid (estimator c) d (candidate_valid _ _ Hv Hd)) as (est & Hest).
    rewrite Hest in Hf. cbn [rbind] in Hf.
    destruct (rf_fit L est _ _); [discriminate|].
    destruct (rf_predict L _ _); [discriminate|]. destruct (r2_score _ _); discriminate. }
  destruct (forallb fst out) eqn:Hall.
  { intros [= <-]. right. right. right. right. left. split; [reflexivity|].
    exists splits. split; [reflexivity|]. intros d sp Hd Hsp.
    assert (Hjob : In (d, sp) (cv_jobs (ParameterGrid (param_grid_ c)) splits))
      by (apply in_prod; assumption).
    destruct (mapM_In _ _ _ _ Hout Hjob) as ((b & s) & Hb & Hf).
    rewrite forallb_forall in Hall. pose proof (Hall _ Hb) as Hb'. cbn [fst] in Hb'.
    subst b. exact (fit_and_score_failed L _ X y (d, sp) s Hf). }
  destruct (set_params_valid (estimator c) _ (nth_candidate_valid (param_grid_ c)
              (argmin (rank_scores (mean_scores (length (ParameterGrid (param_grid_ c)))
                                      (length splits) (map snd out)))) Hv))
    as (est & Hest).
  rewrite Hest. cbn [rbind].
  destruct (rf_fit L est X y) as [e'|m] eqn:Hm; cbn [rbind]; [|discriminate].
  intros [= <-]. do 5 right. now exists est.
Qed.

(** X14: when the keys of the grid are parameters of the estimator, the search
    raises only for one of these reasons: features and target of different
    lengths; a key with no value; fewer than two folds; fewer rows than
    folds; every fit of every candidate on every fold failed; or the final
    fit of the best candidate on the whole train set failed, whose error is
    the one raised.  A failing prediction or score never makes it raise. *)
Theorem search_failures (L : Lib) (c : search_cfg) (X : matrix) (y : vector) (e : exn) :
  valid_keys (param_grid_ c) = true ->
  GridSearchCV_fit L c X y = inl e ->
  length X <> length y \/
  (exists kv, In kv (param_grid_ c) /\ snd kv = []) \/
  cv c < 2 \/ length y < cv c \/
  (e = ValueError "All the fits failed" /\
   exists splits, KFold_split (cv c) (length y) = inr splits /\
     forall d sp, In d (ParameterGrid (param_grid_ c)) -> In sp splits ->
       exists est err,
         set_params (estimator c) d = inr est /\
         rf_fit L est (take_rows [] X (fst sp)) (take_rows 0%Q y (fst sp)) = inl err) \/
  (exists est, rf_fit L est X y = inl e).
Proof. apply GridSearchCV_fit_raises. Qed.

(** X14, witness: the search of the script on features and target of different lengths. *)
Lemma search_failures_witness :
  valid_keys (param_grid_ script_search) = true /\
  exists e, GridSearchCV_fit sample_lib script_search tiny_X four_y = inl e /\
            length tiny_X <> length four_y.
Proof.
  assert (Hv : valid_keys (param_grid_ script_search) = true) by reflexivity.
  assert (H : exists e, GridSearchCV_fit sample_lib script_search tiny_X four_y = inl e)
    by (vm_compute; eexists; reflexivity).
  destruct H as (e & H). split; [exact Hv|]. exists e. split; [exact H|].
  destruct (search_failures sample_lib script_search tiny_X four_y e Hv H) as [Hl|_].
  - exact Hl.
  - simpl. lia.
Defined.

(** X15: with a learner whose fit never fails, a grid whose keys are
    parameters of the estimator and have at least one value each, at least
    two folds and at least as many rows as folds, the search completes. *)
Theorem search_completes (L : Lib) (c : search_cfg) (X : matrix) (y : vector) :
  (forall est X' y', exists m, rf_fit L est X' y' = inr m) ->
  valid_keys (param_grid_ c) = true ->
  (forall kv, In kv (param_grid_ c) -> snd kv <> []) ->
  length X = length y -> 2 <= cv c <= length y ->
  exists f, GridSearchCV_fit L c X y = inr f.
Proof.
  intros Hfit Hv Hne Hl Hcv.
  destruct (GridSearchCV_fit L c X y) as [e|f] eqn:E; [exfalso|now exists f].
  destruct (GridSearchCV_fit_raises L c X y e Hv E)
    as [H|[(kv & Hkv & Hz)|[H|[H|[(_ & splits & Hk & Hall)|(est & H)]]]]]; try lia.
  - exact (Hne kv Hkv Hz).
  - pose proof (KFold_split_length _ _ _ Hk) as Hlen.
    assert (Hg : length (ParameterGrid (param_grid_ c)) <> 0).
    { rewrite length_ParameterGrid. clear -Hne.
      induction (param_grid_ c) as [|kv g IH]; simpl; [lia|].
      assert (length (snd kv) <> 0).
      { intros Hz. apply (Hne kv); [now left|]. now destruct (snd kv). }
      assert (grid_size g <> 0) by (apply IH; intros; apply Hne; now right).
      unfold grid_size in *. nia. }
    destruct (ParameterGrid (param_grid_ c)) as [|d ds] eqn:Ed; [now apply Hg|].
    destruct splits as [|sp sps]; [simpl in Hlen; lia|].
    destruct (Hall d sp (or_introl eq_refl) (or_introl eq_refl)) as (est & err & _ & Hf).
    destruct (Hfit est (take_rows [] X (fst sp)) (take_rows 0%Q y (fst sp))) as (m & Hm).
    congruence.
  - destruct (Hfit est X y) as (m & Hm). congruence.
Qed.

(** X15, witness: the search of the script on a six-row train set. *)
Lemma search_completes_witness :
  exists f, GridSearchCV_fit sample_lib script_search tiny_X tiny_y = inr f.
Proof.
  apply search_completes.
  - intros est X' y'. eexists. reflexivity.
  - reflexivity.
  - intros kv Hkv. simpl in Hkv.
    repeat (destruct Hkv as [<-|Hkv]; [discriminate|]). contradiction.
  - reflexivity.
  - simpl. lia.
Defined.

(** ** No candidate twice *)

Lemma product_NoDup (items : grid) :
  (forall kv, In kv items -> NoDup (snd kv)) -> NoDup (product items).
Proof.
  induction items as [|[k vs] items IH]; intros H; simpl.
  - repeat constructor. simpl. tauto.
  - assert (Hp : NoDup (product items)) by (apply IH; intros; apply H; now right).
    assert (Hvs : NoDup vs) by (apply (H (k, vs)); now left).
    clear H IH. induction vs as [|v vs IHv]; simpl; [constructor|].
    inversion Hvs as [|? ? Hnin Hvs']; subst.
    apply NoDup_app.
    + apply Finite.Injective_map_NoDup; [|exact Hp]. intros a b [= ->]. reflexivity.
    + now apply IHv.
    + intros d Hd Hd'. apply in_map_iff in Hd as (d0 & <- & _).
      apply in_flat_map in Hd' as (v' & Hv' & Hd').
      apply in_map_iff in Hd' as (d1 & [= <- _] & _). contradiction.
Qed.

(** X16: when no key of the grid lists a value twice, no candidate occurs twice
    in the candidate list: two positions of the list hold different
    parameter settings.  The four value lists of the script's grid are such. *)
Theorem candidates_distinct (g : grid) :
  (forall kv, In kv g -> NoDup (snd kv)) ->
  NoDup (ParameterGrid g) /\
  (forall i j d,
     nth_error (ParameterGrid g) i = Some d -> nth_error (ParameterGrid g) j = Some d ->
     i = j).
Proof.
  intros H.
  assert (Hnd : NoDup (ParameterGrid g)).
  { unfold ParameterGrid. apply product_NoDup. intros kv Hkv. apply H.
    exact (Permutation_in _ (sorted_items_perm g) Hkv). }
  split; [exact Hnd|]. intros i j d Hi Hj.
  rewrite NoDup_nth_error in Hnd. apply Hnd; [|congruence].
  apply nth_error_Some. congruence.
Qed.

(** X16, witness: the grid of the script. *)
Lemma candidates_distinct_witness : NoDup (ParameterGrid param_grid).
Proof.
  apply candidates_distinct. intros kv Hkv. simpl in Hkv.
  repeat (destruct Hkv as [<-|Hkv];
          [repeat constructor; simpl; intuition discriminate|]).
  contradiction.
Defined.

(** ** The tuned forest *)

(** X18: every candidate of the script's grid sets the four tuned parameters,
    and the forest of line 188 built from it, with [random_state=42], is
    always constructed: it has the candidate's four values, each taken from
    its list in the grid, and seed 42. *)
Theorem tuned_forest_parameters (d : dict) :
  In d (ParameterGrid param_grid) ->
  exists n a c b,
    d = [ ("max_depth", a); ("min_samples_leaf", b); ("min_samples_split", c);
          ("n_estimators", n) ] /\
    RandomForestRegressor d (PInt 42) = inr (mkRF n a c b (PInt 42)) /\
    In n [PInt 50; PInt 100; PInt 200] /\
    In a [PNone; PInt 10; PInt 20; PInt 30] /\
    In c [PInt 2; PInt 5; PInt 10] /\
    In b [PInt 1; PInt 2; PInt 4].
Proof.
  intros Hin. apply in_product in Hin.
  change (sorted_items param_grid) with
    [ ("max_depth", [PNone; PInt 10; PInt 20; PInt 30]);
      ("min_samples_leaf", [PInt 1; PInt 2; PInt 4]);
      ("min_samples_split", [PInt 2; PInt 5; PInt 10]);
      ("n_estimators", [PInt 50; PInt 100; PInt 200]) ] in Hin.
  unfold is_point in Hin.
  inversion Hin as [|[k1 a] ? d1 ? [K1 A] H1]; subst.
  inversion H1 as [|[k2 b] ? d2 ? [K2 B] H2]; subst.
  inversion H2 as [|[k3 c] ? d3 ? [K3 C] H3]; subst.
  inversion H3 as [|[k4 n] ? d4 ? [K4 N] H4]; subst.
  inversion H4; subst. cbn [fst snd] in *. subst.
  exists n, a, c, b. repeat split; auto.
Qed.

(** X18, witness: the first candidate of the grid. *)
Lemma tuned_forest_parameters_witness :
  exists d p, In d (ParameterGrid param_grid) /\
              RandomForestRegressor d (PInt 42) = inr p /\ random_state p = PInt 42.
Proof.
  assert (H : exists d, In d (ParameterGrid param_grid))
    by (vm_compute; eexists; left; reflexivity).
  destruct H as (d & H).
  destruct (tuned_forest_parameters d H) as (n & a & c & b & _ & Hp & _).
  exists d, (mkRF n a c b (PInt 42)). split; [exact H|]. split; [exact Hp|reflexivity].
Defined.

(** ** A candidate's mean score *)




(** ** What is printed is what is stored *)

Ltac prints_leaf :=
  let ev := fresh "ev" in
  let l := fresh "l" in
  let v := fresh "v" in
  let Hin := fresh "Hin" in
  let Hv := fresh "Hv" in
  intros ev l v Hin Hv; cbn [In final_state stdout] in Hin;
  repeat (destruct Hin as [Hin|Hin];
          [ subst ev; cbn [printed_value] in Hv;
            first [ discriminate Hv
                  | injection Hv as <- <-; right; eexists;
                    split; [cbn; eauto 10|wp_simpl; reflexivity] ]
          | ]);
  left; exact Hin.

Section Prints.

Context (L : Lib).

Lemma step1_prints (s : state L) : wp (step1 L) (prints_stored [] s) s.
Proof. unfold step1, step1_body. wp_exec. all: prints_leaf. Qed.

Lemma step2_prints (s : state L) : wp (step2 L) (prints_stored [] s) s.
Proof. unfold step2, step2_body. wp_exec. all: prints_leaf. Qed.

Lemma step3_prints (s : state L) : wp (step3 L) (prints_stored [] s) s.
Proof. unfold step3, step3_body. wp_exec. all: prints_leaf. Qed.

Lemma step4_prints (s : state L) : wp (step4 L) (prints_stored labels4 s) s.
Proof. unfold step4, step4_body. wp_exec. all: prints_leaf. Qed.

Lemma step5_prints (s : state L) : wp (step5 L) (prints_stored labels5 s) s.
Proof. unfold step5, step5_body. wp_exec. all: prints_leaf. Qed.

Lemma step6_prints (s : state L) : wp (step6 L) (prints_stored labels6 s) s.
Proof. unfold step6, step6_body. wp_exec. all: prints_leaf. Qed.

Lemma step7_prints (s : state L) : wp (step7 L) (prints_stored [] s) s.
Proof. unfold step7, step7_body. wp_exec. all: prints_leaf. Qed.

Lemma step8_prints (s : state L) : wp (step8 L) (prints_stored [] s) s.
Proof. unfold step8. wp_exec. all: prints_leaf. Qed.

End Prints.
Lemma in_printed_labels (l n : string) :
  In (l, n) labels4 \/ In (l, n) labels5 \/ In (l, n) labels6 -> In (l, n) printed_labels.
Proof. unfold printed_labels. rewrite !in_app_iff. tauto. Qed.

(** A value printed by one of the steps 4 to 6 stays bound until the run
    ends: no later step assigns the variable again. *)
Lemma printed_kept (L : Lib) (l n : string) (v : value L) :
  (In (l, n) labels4 /\ lookup n (vars (st4 L)) = Some v) \/
  (In (l, n) labels5 /\ lookup n (vars (st5 L)) = Some v) \/
  (In (l, n) labels6 /\ lookup n (vars (st6 L)) = Some v) ->
  In (l, n) printed_labels /\ lookup n (vars (st8 L)) = Some v.
Proof.
  intros [(Hl & Hv)|[(Hl & Hv)|(Hl & Hv)]].
  - split; [apply in_printed_labels; auto|].
    assert (Ha : agree (map snd labels4) (st4 L) (st8 L)) by agree_tac.
    rewrite (Ha n); [exact Hv|]. now apply (in_map snd) in Hl.
  - split; [apply in_printed_labels; auto|].
    assert (Ha : agree (map snd labels5) (st5 L) (st8 L)) by agree_tac.
    rewrite (Ha n); [exact Hv|]. now apply (in_map snd) in Hl.
  - split; [apply in_printed_labels; auto|].
    assert (Ha : agree (map snd labels6) (st6 L) (st8 L)) by agree_tac.
    rewrite (Ha n); [exact Hv|]. now apply (in_map snd) in Hl.
Qed.

Lemma early_prints (L : Lib) (ev : event) (l : string) (v : value L) :
  printed_value ev = Some (l, v) -> ~ In ev (stdout (st3 L)).
Proof.
  intros Hv.
  pose proof (step1_prints L (s0 L) ev l v) as P1.
  pose proof (step2_prints L (st1 L) ev l v) as P2.
  pose proof (step3_prints L (st2 L) ev l v) as P3.
  fold (st1 L) in P1. fold (st2 L) in P2. fold (st3 L) in P3.
  intros H3.
  destruct (P3 H3 Hv) as [H2|(n & [] & _)].
  destruct (P2 H2 Hv) as [H1|(n & [] & _)].
  destruct (P1 H1 Hv) as [[]|(n & [] & _)].
Qed.

Lemma st8_prints (L : Lib) (ev : event) (l : string) (v : value L) :
  In ev (stdout (st8 L)) -> printed_value ev = Some (l, v) ->
  exists n, In (l, n) printed_labels /\ lookup n (vars (st8 L)) = Some v.
Proof.
  intros Hin Hv.
  pose proof (step4_prints L (st3 L) ev l v) as P4.
  pose proof (step5_prints L (st4 L) ev l v) as P5.
  pose proof (step6_prints L (st5 L) ev l v) as P6.
  pose proof (step7_prints L (st6 L) ev l v) as P7.
  pose proof (step8_prints L (st7 L) ev l v) as P8.
  fold (st4 L) in P4. fold (st5 L) in P5. fold (st6 L) in P6. fold (st7 L) in P7.
  fold (st8 L) in P8.
  destruct (P8 Hin Hv) as [Hin7|(n & [] & _)].
  destruct (P7 Hin7 Hv) as [Hin6|(n & [] & _)].
  destruct (P6 Hin6 Hv) as [Hin5|(n & Hl & Hn)].
  - destruct (P5 Hin5 Hv) as [Hin4|(n & Hl & Hn)].
    + destruct (P4 Hin4 Hv) as [Hin3|(n & Hl & Hn)].
      * destruct (early_prints L ev l v Hv Hin3).
      * exists n. apply (printed_kept L l n v). auto.
    + exists n. apply (printed_kept L l n v). auto.
  - exists n. apply (printed_kept L l n v). auto.
Qed.

Lemma run_prints (L : Lib) (ev : event) (l : string) (v : value L) :
  In ev (stdout (final_state L (run L))) -> printed_value ev = Some (l, v) ->
  exists n, In (l, n) printed_labels /\ lookup n (vars (final_state L (run L))) = Some v.
Proof.
  destruct (final_state_cases L) as [-> | [-> | ->]]; intros Hin Hv.
  - exfalso. pose proof (step1_prints L (s0 L) ev l v) as P1. fold (st1 L) in P1.
    destruct (P1 Hin Hv) as [[]|(n & [] & _)].
  - destruct (early_prints L ev l v Hv Hin).
  - exact (st8_prints L ev l v Hin Hv).
Qed.

(** X20: every number a run prints after a label, and the parameter set it
    prints as the best one, is the value bound at the end of the run to the
    variable of that label: the output shows what the variables hold, and
    nothing printed is overwritten later. *)
Theorem printed_values_are_stored (L : Lib) (ev : event) (l : string) (v : value L) :
  In ev (shown L (run L)) -> printed_value ev = Some (l, v) ->
  exists n, In (l, n) printed_labels /\
            lookup n (vars (final_state L (run L))) = Some v.
Proof.
  intros Hin Hv. unfold shown in Hin. apply in_rev in Hin. exact (run_prints L ev l v Hin Hv).
Qed.

(** X20, witness: the run on the sample dataset: the first number printed. *)
Lemma printed_values_are_stored_witness :
  exists ev l v n,
    In ev (shown sample_lib (run sample_lib)) /\ printed_value ev = Some (l, v) /\
    In (l, n) printed_labels /\
    lookup n (vars (final_state sample_lib (run sample_lib))) = Some v.
Proof.
  assert (H : exists ev l v,
             In ev (shown sample_lib (run sample_lib)) /\
             @printed_value sample_lib ev = Some (l, v)).
  { vm_compute. do 3 eexists. split; [do 9 right; left; reflexivity|reflexivity]. }
  destruct H as (ev & l & v & Hin & Hv).
  destruct (printed_values_are_stored sample_lib ev l v Hin Hv) as (n & Hl & Hn).
  exists ev, l, v, n.
  split; [exact Hin|]. split; [exact Hv|]. split; [exact Hl|exact Hn].
Defined.

(** ** A figure is saved only with its inputs bound *)

Ltac bound_leaf :=
  cbn [forallb]; unfold is_bound in *; wp_simpl;
  repeat match goal with
         | H : lookup ?n ?vs = Some _ |- context [lookup ?n ?vs] => rewrite H
         | H : match lookup ?n ?vs with _ => _ end = true |- context [lookup ?n ?vs] =>
             destruct (lookup n vs); [|discriminate H]
         end;
  reflexivity.

Ltac saves_leaf :=
  let file := fresh "file" in
  let Hin := fresh "Hin" in
  intros file Hin; cbn [In final_state stdout] in Hin;
  repeat (destruct Hin as [Hin|Hin];
          [ first [ discriminate Hin
                  | injection Hin as <-; right; eexists;
                    split; [cbn; eauto 10|bound_leaf] ]
          | ]);
  left; exact Hin.

Section Saves.

Context (L : Lib).

Lemma step1_saves (s : state L) : wp (step1 L) (saves_bound [] s) s.
Proof. unfold step1, step1_body. wp_exec. all: saves_leaf. Qed.

Lemma step2_saves (s : state L) :
  is_bound s "data" = true -> wp (step2 L) (saves_bound reads2 s) s.
Proof. intros Hd. unfold step2, step2_body. wp_exec. all: saves_leaf. Qed.

Lemma step3_saves (s : state L) : wp (step3 L) (saves_bound [] s) s.
Proof. unfold step3, step3_body. wp_exec. all: saves_leaf. Qed.

Lemma step4_saves (s : state L) :
  is_bound s "y_test" = true -> is_bound s "y" = true ->
  wp (step4 L) (saves_bound reads4 s) s.
Proof. intros H1 H2. unfold step4, step4_body. wp_exec. all: saves_leaf. Qed.

Lemma step5_saves (s : state L) :
  is_bound s "y_test" = true -> is_bound s "y" = true -> is_bound s "X" = true ->
  wp (step5 L) (saves_bound reads5 s) s.
Proof. intros H1 H2 H3. unfold step5, step5_body. wp_exec. all: saves_leaf. Qed.

Lemma step6_saves (s : state L) :
  is_bound s "y_test" = true -> is_bound s "y" = true ->
  wp (step6 L) (saves_bound reads6 s) s.
Proof. intros H1 H2. unfold step6, step6_body. wp_exec. all: saves_leaf. Qed.

Lemma step7_saves (s : state L) : wp (step7 L) (saves_bound reads7 s) s.
Proof. unfold step7, step7_body. wp_exec. all: saves_leaf. Qed.

Lemma step8_saves (s : state L) : wp (step8 L) (saves_bound [] s) s.
Proof. unfold step8. wp_exec. all: saves_leaf. Qed.

Lemma step3_inputs (s : state L) :
  wp (step3 L)
     (fun o => is_normal o ->
               forallb (is_bound (final_state L o)) ["y_test"; "y"; "X"] = true) s.
Proof.
  unfold step3, step3_body. wp_exec.
  all: intros (s' & E); try discriminate E.
  bound_leaf.
Qed.

End Saves.
Lemma is_bound_agree (L : Lib) (names : list string) (st st' : state L) :
  agree names st st' ->
  forallb (is_bound st) names = true -> forallb (is_bound st') names = true.
Proof.
  intros Ha Hb. rewrite forallb_forall in *. intros n Hn.
  unfold is_bound. rewrite (Ha n Hn). exact (Hb n Hn).
Qed.

Lemma step1_data (L : Lib) :
  step1 L (s0 L) = Normal tt (st1 L) -> is_bound (st1 L) "data" = true.
Proof.
  intros E. pose proof (step1_normal_loaded L (s0 L)) as H. unfold wp in H.
  destruct H as (d & Hd); [rewrite E; now eexists|].
  pose proof (step1_loaded L d Hd) as E1. unfold st1. now rewrite E1.
Qed.

Lemma no_figure_st1 (L : Lib) (file : string) : ~ In (Saved file) (stdout (st1 L)).
Proof.
  intros H. destruct (step1_saves L (s0 L) file H) as [[]|(names & [] & _)].
Qed.

(** The figures of step 2, in a run that got past step 1. *)
Lemma st2_saves (L : Lib) (file : string) :
  step1 L (s0 L) = Normal tt (st1 L) -> In (Saved file) (stdout (st2 L)) ->
  In (file, ["data"]) reads2 /\ is_bound (st2 L) "data" = true.
Proof.
  intros E1 Hin.
  pose proof (step2_saves L (st1 L) (step1_data L E1) file) as P2. fold (st2 L) in P2.
  destruct (P2 Hin) as [H1|(names & Hl & Hb)]; [destruct (no_figure_st1 L file H1)|].
  destruct Hl as [[= <- <-]|[[= <- <-]|[]]]; cbn [forallb] in Hb;
    rewrite andb_true_r in Hb; (split; [cbn; auto|exact Hb]).
Qed.

Lemma in_figure_reads (file : string) (names : list string) :
  In (file, names) reads2 \/ In (file, names) reads4 \/ In (file, names) reads5 \/
  In (file, names) reads6 \/ In (file, names) reads7 ->
  In (file, names) figure_reads.
Proof. unfold figure_reads. rewrite !in_app_iff. tauto. Qed.

Lemma st8_saves (L : Lib) (file : string) :
  step1 L (s0 L) = Normal tt (st1 L) -> step3 L (st2 L) = Normal tt (st3 L) ->
  In (Saved file) (stdout (st8 L)) ->
  exists names, In (file, names) figure_reads /\ forallb (is_bound (st8 L)) names = true.
Proof.
  intros E1 E3 Hin.
  pose proof (step3_inputs L (st2 L)) as B3. unfold wp in B3. rewrite E3 in B3.
  cbn [final_state] in B3. specialize (B3 ltac:(now eexists)).
  assert (B4 : forallb (is_bound (st4 L)) ["y_test"; "y"; "X"] = true).
  { apply (is_bound_agree L _ (st3 L)); [agree_tac|exact B3]. }
  assert (B5 : forallb (is_bound (st5 L)) ["y_test"; "y"; "X"] = true).
  { apply (is_bound_agree L _ (st3 L)); [agree_tac|exact B3]. }
  cbn [forallb] in B3, B4, B5.
  apply andb_prop in B3 as (T3 & B3). apply andb_prop in B3 as (Y3 & _).
  apply andb_prop in B4 as (T4 & B4). apply andb_prop in B4 as (Y4 & B4).
  apply andb_prop in B4 as (X4 & _).
  apply andb_prop in B5 as (T5 & B5). apply andb_prop in B5 as (Y5 & _).
  pose proof (step3_saves L (st2 L) file) as P3.
  pose proof (step4_saves L (st3 L) T3 Y3 file) as P4.
  pose proof (step5_saves L (st4 L) T4 Y4 X4 file) as P5.
  pose proof (step6_saves L (st5 L) T5 Y5 file) as P6.
  pose proof (step7_saves L (st6 L) file) as P7.
  pose proof (step8_saves L (st7 L) file) as P8.
  fold (st3 L) in P3. fold (st4 L) in P4. fold (st5 L) in P5. fold (st6 L) in P6.
  fold (st7 L) in P7. fold (st8 L) in P8.
  destruct (P8 Hin) as [Hin7|(names & [] & _)].
  destruct (P7 Hin7) as [Hin6|(names & Hl & Hb)].
  2:{ exists names. split; [apply in_figure_reads; tauto|].
      apply (is_bound_agree L _ (st7 L)); [|exact Hb].
      destruct Hl as [[= <- <-]|[]]. agree_tac. }
  destruct (P6 Hin6) as [Hin5|(names & Hl & Hb)].
  2:{ exists names. split; [apply in_figure_reads; tauto|].
      apply (is_bound_agree L _ (st6 L)); [|exact Hb].
      destruct Hl as [[= <- <-]|[]]. agree_tac. }
  destruct (P5 Hin5) as [Hin4|(names & Hl & Hb)].
  2:{ exists names. split; [apply in_figure_reads; tauto|].
      apply (is_bound_agree L _ (st5 L)); [|exact Hb].
      destruct Hl as [[= <- <-]|[[= <- <-]|[]]]; agree_tac. }
  destruct (P4 Hin4) as [Hin3|(names & Hl & Hb)].
  2:{ exists names. split; [apply in_figure_reads; tauto|].
      apply (is_bound_agree L _ (st4 L)); [|exact Hb].
      destruct Hl as [[= <- <-]|[]]. agree_tac. }
  destruct (P3 Hin3) as [Hin2|(names & [] & _)].
  destruct (st2_saves L file E1 Hin2) as (Hl & Hb).
  exists ["data"]. split; [apply in_figure_reads; tauto|].
  apply (is_bound_agree L _ (st2 L)); [agree_tac|]. cbn [forallb]. now rewrite Hb.
Qed.

Lemma run_saves (L : Lib) (file : string) :
  In (Saved file) (stdout (final_state L (run L))) ->
  exists names, In (file, names) figure_reads /\
                forallb (is_bound (final_state L (run L))) names = true.
Proof.
  destruct (run_cases L) as [(_ & E)|[(E1 & E3 & E)|(E1 & E3 & E)]];
    rewrite E; cbn [final_state]; intros Hin.
  - destruct (no_figure_st1 L file Hin).
  - pose proof (step3_saves L (st2 L) file) as P3. fold (st3 L) in P3.
    destruct (P3 Hin) as [Hin2|(names & [] & _)].
    destruct (st2_saves L file E1 Hin2) as (Hl & Hb).
    exists ["data"]. split; [apply in_figure_reads; tauto|].
    apply (is_bound_agree L _ (st2 L)); [agree_tac|]. cbn [forallb]. now rewrite Hb.
  - exact (st8_saves L file E1 E3 Hin).
Qed.

(** X21: the only files a run saves are the seven figures of the script, and
    when a figure has been saved every variable its plotting block reads is
    bound: a plotting block never runs into a name that was not assigned. *)
Theorem figures_have_their_inputs (L : Lib) (file : string) :
  In (Saved file) (shown L (run L)) ->
  exists names, In (file, names) figure_reads /\
                forallb (is_bound (final_state L (run L))) names = true.
Proof.
  intros Hin. unfold shown in Hin. apply in_rev in Hin. exact (run_saves L file Hin).
Qed.

Lemma forallb_hd {A} (p : A -> bool) (a : A) (l : list A) :
  forallb p (a :: l) = true -> p a = true.
Proof. simpl. intros H. apply andb_prop in H. tauto. Qed.

(** X21, witness: the run on the sample dataset saves the first figure. *)
Lemma figures_have_their_inputs_witness :
  In (Saved "distributions.png") (shown sample_lib (run sample_lib)) /\
  is_bound (final_state sample_lib (run sample_lib)) "data" = true.
Proof.
  assert (H : In (Saved "distributions.png") (shown sample_lib (run sample_lib))).
  { vm_compute. do 6 right. left. reflexivity. }
  split; [exact H|].
  destruct (figures_have_their_inputs sample_lib "distributions.png" H) as (names & Hl & Hb).
  vm_compute in Hl.
  destruct Hl as [Hl|[Hl|[Hl|[Hl|[Hl|[Hl|[Hl|[]]]]]]]]; try discriminate Hl.
  injection Hl as <-. exact (forallb_hd _ _ _ Hb).
Defined.
